(** * apiAWS-mySql: the product CRUD service over MySQL

    A shallow embedding of the two Express programs of the repository,
    [server.js] and its variant without request validation
    ([src/unnamed/part_000]), together with a model of the MySQL session
    that [pool.query] talks to.  The handlers are translated statement by
    statement; the SQL texts are the ones the source passes to the pool.

    What lies outside the repository is modelled as far as the handlers
    depend on it: the server keeps schemas by name, the [produto] table as
    [/init-db] declares it (AUTO_INCREMENT key, NOT NULL columns,
    VARCHAR(255), DECIMAL(10,2)) under strict SQL mode, and one session;
    requests are served one after the other.  The body of a request is the
    value of [req.body]: the JSON value [express.json()] parsed, the empty
    object (Express 4) or undefined (Express 5) when none came.  Create and
    Update destructure it before their [try]: on undefined the handler
    throws, and what Express then does is not code of the repository. *)

From Stdlib Require Import Ascii String ZArith QArith DecimalString DecimalZ DecimalPos Lia.
From stdpp Require Import gmap strings list sorting.

Set Warnings "-register-all".
Open Scope string_scope.
Open Scope Z_scope.

(** ** JavaScript values, as [express.json()] hands them to a handler *)

Module JS.

(** A JSON number is kept as the rational its decimal text denotes (this is
    also the text mysql2 writes into the statement).  An object is a finite
    map from keys to values. *)
Inductive value :=
| VUndefined
| VNull
| VBool (b : bool)
| VNum (q : Q)
| VStr (s : string)
| VArr (items : list value)
| VObj (fields : gmap string value).

(** [ToBoolean]: the falsy values are undefined, null, false, 0 and the
    empty string; arrays and objects are truthy. *)
Definition truthy (v : value) : bool :=
  match v with
  | VUndefined | VNull => false
  | VBool b => b
  | VNum q => negb (Qnum q =? 0)
  | VStr s => negb (String.eqb s "")
  | VArr _ | VObj _ => true
  end.

(** [!v] *)
Definition negate (v : value) : bool := negb (truthy v).

(** [v == null]: loose equality with null holds for null and undefined only. *)
Definition loose_eq_null (v : value) : bool :=
  match v with
  | VUndefined | VNull => true
  | _ => false
  end.

(** [const { k } = o]: a key the object lacks reads as undefined. *)
Definition get (o : gmap string value) (k : string) : value :=
  default VUndefined (o !! k).

(** [const { Nome, Descricao, Preco } = v] first needs [v] to be coercible
    to an object: on undefined and on null the statement throws a TypeError
    (the message is the one Node writes).  An object gives its fields.  An
    array or a primitive value has no property under any of these three
    names, so that each reads as undefined, as from the empty object. *)
Definition destructure (v : value) : string + gmap string value :=
  match v with
  | VUndefined =>
      inl "Cannot destructure property 'Nome' of 'req.body' as it is undefined."
  | VNull =>
      inl "Cannot destructure property 'Nome' of 'req.body' as it is null."
  | VObj o => inr o
  | VBool _ | VNum _ | VStr _ | VArr _ => inr ∅
  end.

(** [`${x}`] for an environment variable: an unset one prints as
    the text undefined. *)
Definition interpolate (x : option string) : string :=
  match x with
  | Some s => s
  | None => "undefined"
  end.

End JS.

Import JS.

(** ** The MySQL side *)

Module MySQL.

(** A stored row of [produto].  A cell is [None] when it holds SQL NULL;
    [Preco] is a [DECIMAL(10,2)], kept as its number of hundredths. *)
Record produto := {
  Id : Z;
  Nome : option string;
  Descricao : option string;
  Preco : option Z
}.

(** The table: its rows in storage order and the AUTO_INCREMENT counter. *)
Record table := {
  rows : list produto;
  auto_increment : Z
}.

Definition empty_table : table := {| rows := []; auto_increment := 1 |}.

(** What a connection of the pool is attached to. *)
Inductive session :=
| Disconnected
| Connected (current : option string).

(** The server: every schema by name, each with its [produto] table when it
    has been created, and the session of the pool's connection.  Requests
    are taken one at a time, all on one connection of the pool. *)
Record world := {
  databases : gmap string (option table);
  conn : session
}.

Definition set_conn (s : session) (w : world) : world :=
  {| databases := databases w; conn := s |}.

Definition set_database (d : string) (t : option table) (w : world) : world :=
  {| databases := <[d := t]> (databases w); conn := conn w |}.

(** What [pool.query] resolves to: the rows of a SELECT, the header of a
    data-change statement, or one result per statement of a multi-statement
    text.  [affectedRows] counts the rows the condition matched, changed or
    not (mysql2 connects with FOUND_ROWS). *)
Inductive result :=
| Rows (rs : list produto)
| ResultSetHeader (affectedRows insertId : Z)
| Results (each : list result).

Definition affectedRows (r : result) : Z :=
  match r with
  | ResultSetHeader a _ => a
  | _ => 0
  end.

Definition insertId (r : result) : Z :=
  match r with
  | ResultSetHeader _ i => i
  | _ => 0
  end.

Definition rows_of (r : result) : list produto :=
  match r with
  | Rows rs => rs
  | _ => []
  end.

(** *** Column conversions (strict SQL mode, the server default)

    The conversions follow the request schema the API documents: text for
    [Nome] and [Descricao], a number for [Preco]; null and undefined are
    sent as NULL.  Values of other JavaScript types are answered with an
    error: what mysql2 and MySQL make of them is not followed here.  The
    length of a text is its number of characters. *)

Definition to_varchar255 (column : string) (v : value) : string + option string :=
  match v with
  | VUndefined | VNull => inr None
  | VStr s =>
      if (String.length s <=? 255)%nat then inr (Some s)
      else inl ("Data too long for column '" ++ column ++ "' at row 1")
  | _ => inl ("Incorrect string value for column '" ++ column ++ "' at row 1")
  end.

(** Rounding of an exact decimal to an integer, halves away from zero. *)
Definition round_half_away (q : Q) : Z :=
  let n := Qnum q in
  let d := Z.pos (Qden q) in
  Z.sgn n * ((2 * Z.abs n + d) / (2 * d)).

(** The number of hundredths [DECIMAL(10,2)] stores for [q]. *)
Definition round_cents (q : Q) : Z := round_half_away (q * 100).

Definition decimal_10_2_max : Z := 9999999999.

Definition to_decimal_10_2 (column : string) (v : value) : string + option Z :=
  match v with
  | VUndefined | VNull => inr None
  | VNum q =>
      let c := round_cents q in
      if Z.abs c <=? decimal_10_2_max then inr (Some c)
      else inl ("Out of range value for column '" ++ column ++ "' at row 1")
  | _ => inl ("Incorrect decimal value for column '" ++ column ++ "' at row 1")
  end.

(** The comparison [Id = ?] against a path segment.  The API declares the
    id an integer; a segment that is a decimal integer compares as that
    integer, any other text matches no row. *)
Definition sql_id_of_param (v : value) : option Z :=
  match v with
  | VStr s => Z.of_int <$> NilZero.int_of_string s
  | _ => None
  end.

Definition id_matches (v : value) (r : produto) : bool :=
  match sql_id_of_param v with
  | Some n => Id r =? n
  | None => false
  end.

Definition int_max : Z := 2147483647.

(** *** Statements

    The statements this service sends.  The session model understands these
    and answers any other text with a syntax error. *)
Inductive statement :=
| CreateDatabaseIfNotExists (name : string)
| Use (name : string)
| CreateTableProdutoIfNotExists
| SelectAll
| SelectById
| InsertProduto
| UpdateProduto
| DeleteProduto.

Definition is_space (a : ascii) : bool :=
  let n := nat_of_ascii a in
  ((n =? 32) || (n =? 10) || (n =? 9) || (n =? 13))%nat.

Definition is_semicolon (a : ascii) : bool := (nat_of_ascii a =? 59)%nat.
Definition is_backtick (a : ascii) : bool := (nat_of_ascii a =? 96)%nat.

Definition is_empty (s : string) : bool :=
  match s with
  | EmptyString => true
  | String _ _ => false
  end.

Definition push (w : string) (ts : list string) : list string :=
  if is_empty w then ts else w :: ts.

(** One pass over the text: the word being read and the tokens after it.
    White space separates words; a semicolon is a token of its own. *)
Fixpoint lex (s : string) : string * list string :=
  match s with
  | EmptyString => (EmptyString, [])
  | String a s' =>
      let '(w, ts) := lex s' in
      if is_space a then (EmptyString, push w ts)
      else if is_semicolon a then (EmptyString, ";" :: push w ts)
      else (String a w, ts)
  end.

Definition tokens (s : string) : list string :=
  let '(w, ts) := lex s in push w ts.

(** The statements of a text, each as its list of words; empty statements
    (such as what follows the last semicolon) are dropped. *)
Fixpoint split_statements (ts : list string) : list string * list (list string) :=
  match ts with
  | [] => ([], [])
  | t :: ts' =>
      let '(cur, rest) := split_statements ts' in
      if String.eqb t ";" then ([], if cur is [] then rest else cur :: rest)
      else (t :: cur, rest)
  end.

Definition statements_of (ts : list string) : list (list string) :=
  let '(cur, rest) := split_statements ts in
  if cur is [] then rest else cur :: rest.

Fixpoint words_eqb (a b : list string) : bool :=
  match a, b with
  | [], [] => true
  | x :: a', y :: b' => String.eqb x y && words_eqb a' b'
  | _, _ => false
  end.

Fixpoint string_forallb (p : ascii -> bool) (s : string) : bool :=
  match s with
  | EmptyString => true
  | String a s' => p a && string_forallb p s'
  end.

(** [lex] continued over a prefix [p], from what the rest of the text gave:
    [lex (p ++ rest) = lex_onto p (lex rest)]. *)
Fixpoint lex_onto (p : string) (k : string * list string) : string * list string :=
  match p with
  | EmptyString => k
  | String a p' =>
      let '(w, ts) := lex_onto p' k in
      if is_space a then (EmptyString, push w ts)
      else if is_semicolon a then (EmptyString, ";" :: push w ts)
      else (String a w, ts)
  end.

Definition word_char (a : ascii) : bool :=
  negb (is_space a || is_semicolon a || is_backtick a).

(** A schema name that needs nothing but the backticks around it. *)
Definition plain_identifier (s : string) : bool :=
  negb (is_empty s) && (String.length s <=? 64)%nat && string_forallb word_char s.

(** [unquote "`name`"] is [name]. *)
Fixpoint until_backtick (s : string) : option string :=
  match s with
  | EmptyString => None
  | String a s' =>
      if is_backtick a then (if is_empty s' then Some EmptyString else None)
      else String a <$> until_backtick s'
  end.

Definition unquote (s : string) : option string :=
  match s with
  | String a s' =>
      if is_backtick a then
        match until_backtick s' with
        | Some name => if plain_identifier name then Some name else None
        | None => None
        end
      else None
  | EmptyString => None
  end.

Definition create_table_words : list string :=
  ["CREATE"; "TABLE"; "IF"; "NOT"; "EXISTS"; "produto"; "(";
   "Id"; "INT"; "AUTO_INCREMENT"; "PRIMARY"; "KEY,";
   "Nome"; "VARCHAR(255)"; "NOT"; "NULL,";
   "Descricao"; "VARCHAR(255)"; "NOT"; "NULL,";
   "Preco"; "DECIMAL(10,2)"; "NOT"; "NULL"; ")"].

(** Column names are case-insensitive: [WHERE id = ?] and [WHERE Id = ?]
    are the same condition. *)
Definition parse_statement (ws : list string) : option statement :=
  if words_eqb ws ["SELECT"; "*"; "FROM"; "produto"] then Some SelectAll
  else if words_eqb ws ["SELECT"; "*"; "FROM"; "produto"; "WHERE"; "Id"; "="; "?"]
       || words_eqb ws ["SELECT"; "*"; "FROM"; "produto"; "WHERE"; "id"; "="; "?"]
  then Some SelectById
  else if words_eqb ws ["INSERT"; "INTO"; "produto"; "(Nome,"; "Descricao,"; "Preco)";
                        "VALUES"; "(?,"; "?,"; "?)"]
  then Some InsertProduto
  else if words_eqb ws ["UPDATE"; "produto"; "SET"; "Nome"; "="; "?,"; "Descricao"; "="; "?,";
                        "Preco"; "="; "?"; "WHERE"; "Id"; "="; "?"]
  then Some UpdateProduto
  else if words_eqb ws ["DELETE"; "FROM"; "produto"; "WHERE"; "Id"; "="; "?"]
  then Some DeleteProduto
  else if words_eqb ws create_table_words then Some CreateTableProdutoIfNotExists
  else
    match ws with
    | [u; q] =>
        if String.eqb u "USE" then Use <$> unquote q else None
    | [c; d; i; n; e; q] =>
        if words_eqb [c; d; i; n; e] ["CREATE"; "DATABASE"; "IF"; "NOT"; "EXISTS"]
        then CreateDatabaseIfNotExists <$> unquote q
        else None
    | _ => None
    end.

Fixpoint parse_all (ss : list (list string)) : option (list statement) :=
  match ss with
  | [] => Some []
  | ws :: ss' =>
      match parse_statement ws, parse_all ss' with
      | Some st, Some sts => Some (st :: sts)
      | _, _ => None
      end
  end.

Definition parse (sql : string) : option (list statement) :=
  match parse_all (statements_of (tokens sql)) with
  | Some [] => None
  | r => r
  end.

(** *** Execution *)

Definition outcome (A : Type) : Type := (string + A) * world.

(** The table the session's default schema holds. *)
Definition current_table (w : world) : string + (string * table) :=
  match conn w with
  | Connected (Some d) =>
      match databases w !! d with
      | Some (Some t) => inr (d, t)
      | Some None => inl ("Table '" ++ d ++ ".produto' doesn't exist")
      | None => inl ("Unknown database '" ++ d ++ "'")
      end
  | _ => inl "No database selected"
  end.

Definition insert_row (d : string) (t : table) (n ds : string) (p : Z) (w : world)
  : outcome result :=
  let id := auto_increment t in
  if id <=? int_max then
    (inr (ResultSetHeader 1 id),
     set_database d
       (Some {| rows := rows t ++ [{| Id := id; Nome := Some n; Descricao := Some ds; Preco := Some p |}];
                auto_increment := id + 1 |}) w)
  else (inl "Failed to read auto-increment value from storage engine", w).

Definition update_row (v : value) (n ds : string) (p : Z) (r : produto) : produto :=
  if id_matches v r
  then {| Id := Id r; Nome := Some n; Descricao := Some ds; Preco := Some p |}
  else r.

(** The three column values of an INSERT or UPDATE, converted and checked
    against NOT NULL. *)
Definition convert_columns (n ds p : value) : string + (string * string * Z) :=
  match to_varchar255 "Nome" n, to_varchar255 "Descricao" ds, to_decimal_10_2 "Preco" p with
  | inl e, _, _ => inl e
  | inr None, _, _ => inl "Column 'Nome' cannot be null"
  | inr (Some _), inl e, _ => inl e
  | inr (Some _), inr None, _ => inl "Column 'Descricao' cannot be null"
  | inr (Some _), inr (Some _), inl e => inl e
  | inr (Some _), inr (Some _), inr None => inl "Column 'Preco' cannot be null"
  | inr (Some n'), inr (Some ds'), inr (Some p') => inr (n', ds', p')
  end.

Definition syntax_error : string := "You have an error in your SQL syntax".

Definition exec (st : statement) (params : list value) (w : world) : outcome result :=
  match st with
  | CreateDatabaseIfNotExists name =>
      match databases w !! name with
      | Some _ => (inr (ResultSetHeader 1 0), w)
      | None => (inr (ResultSetHeader 1 0), set_database name None w)
      end
  | Use name =>
      match databases w !! name with
      | Some _ => (inr (ResultSetHeader 0 0), set_conn (Connected (Some name)) w)
      | None => (inl ("Unknown database '" ++ name ++ "'"), w)
      end
  | CreateTableProdutoIfNotExists =>
      match conn w with
      | Connected (Some d) =>
          match databases w !! d with
          | Some (Some _) => (inr (ResultSetHeader 0 0), w)
          | Some None => (inr (ResultSetHeader 0 0), set_database d (Some empty_table) w)
          | None => (inl ("Unknown database '" ++ d ++ "'"), w)
          end
      | _ => (inl "No database selected", w)
      end
  | SelectAll =>
      match current_table w with
      | inr (_, t) => (inr (Rows (rows t)), w)
      | inl e => (inl e, w)
      end
  | SelectById =>
      match current_table w, params with
      | inl e, _ => (inl e, w)
      | inr (_, t), [v] => (inr (Rows (List.filter (id_matches v) (rows t))), w)
      | inr _, _ => (inl syntax_error, w)
      end
  | InsertProduto =>
      match current_table w, params with
      | inl e, _ => (inl e, w)
      | inr (d, t), [n; ds; p] =>
          match convert_columns n ds p with
          | inr (n', ds', p') => insert_row d t n' ds' p' w
          | inl e => (inl e, w)
          end
      | inr _, _ => (inl syntax_error, w)
      end
  | UpdateProduto =>
      match current_table w, params with
      | inl e, _ => (inl e, w)
      | inr (d, t), [n; ds; p; v] =>
          match List.filter (id_matches v) (rows t) with
          | [] => (inr (ResultSetHeader 0 0), w)
          | found =>
              match convert_columns n ds p with
              | inr (n', ds', p') =>
                  (inr (ResultSetHeader (Z.of_nat (length found)) 0),
                   set_database d
                     (Some {| rows := List.map (update_row v n' ds' p') (rows t);
                              auto_increment := auto_increment t |}) w)
              | inl e => (inl e, w)
              end
          end
      | inr _, _ => (inl syntax_error, w)
      end
  | DeleteProduto =>
      match current_table w, params with
      | inl e, _ => (inl e, w)
      | inr (d, t), [v] =>
          match List.filter (id_matches v) (rows t) with
          | [] => (inr (ResultSetHeader 0 0), w)
          | found =>
              (inr (ResultSetHeader (Z.of_nat (length found)) 0),
               set_database d
                 (Some {| rows := List.filter (fun r => negb (id_matches v r)) (rows t);
                          auto_increment := auto_increment t |}) w)
          end
      | inr _, _ => (inl syntax_error, w)
      end
  end.

(** The statements of a multi-statement text run in order; the first error
    ends the run and what ran before it stays done. *)
Fixpoint exec_all (sts : list statement) (w : world) : outcome (list result) :=
  match sts with
  | [] => (inr [], w)
  | st :: sts' =>
      match exec st [] w with
      | (inl e, w') => (inl e, w')
      | (inr r, w') =>
          match exec_all sts' w' with
          | (inl e, w'') => (inl e, w'')
          | (inr rs, w'') => (inr (r :: rs), w'')
          end
      end
  end.

(** A connection is opened on first use, with the schema the pool is
    configured with as its default when there is one; that schema has to
    exist by then. *)
Definition connect (database : option string) (w : world) : string + world :=
  match conn w with
  | Connected _ => inr w
  | Disconnected =>
      match database with
      | None => inr (set_conn (Connected None) w)
      | Some d =>
          match databases w !! d with
          | Some _ => inr (set_conn (Connected (Some d)) w)
          | None => inl ("Unknown database '" ++ d ++ "'")
          end
      end
  end.

(** The session attached to schema [d]. *)
Definition attach (d : string) (w : world) : world := set_conn (Connected (Some d)) w.

Definition query (database : option string) (sql : string) (params : list value)
    (w : world) : outcome result :=
  match connect database w with
  | inl e => (inl e, w)
  | inr w1 =>
      match parse sql with
      | None => (inl syntax_error, w1)
      | Some [st] => exec st params w1
      | Some sts =>
          match exec_all sts w1 with
          | (inl e, w2) => (inl e, w2)
          | (inr rs, w2) => (inr (Results rs), w2)
          end
      end
  end.

End MySQL.

Import MySQL.

(** ** Handlers: state, errors and the log of statements sent *)

Module Handler.

(** One entry per call of [pool.query]: the SQL text and the bound values. *)
Definition log : Type := list (string * list value).

(** An async handler body: it runs against the server, may throw (the
    message of the rejected promise) and leaves the log of what it sent. *)
Definition M (A : Type) : Type := world -> (string + A) * world * log.

Definition ret {A} (a : A) : M A := fun w => (inr a, w, []).

(** A statement that throws outside any [try]: the promise the handler
    returned is rejected, the handler has answered nothing. *)
Definition throw {A} (e : string) : M A := fun w => (inl e, w, []).

Definition bind {A B} (m : M A) (k : A -> M B) : M B :=
  fun w =>
    match m w with
    | (inl e, w1, l1) => (inl e, w1, l1)
    | (inr a, w1, l1) =>
        let '(r, w2, l2) := k a w1 in (r, w2, (l1 ++ l2)%list)
    end.

(** [try { m } catch (err) { h err }] *)
Definition try_catch {A} (m : M A) (h : string -> M A) : M A :=
  fun w =>
    match m w with
    | (inl e, w1, l1) =>
        let '(r, w2, l2) := h e w1 in (r, w2, (l1 ++ l2)%list)
    | (inr a, w1, l1) => (inr a, w1, l1)
    end.

(** [await pool.query(sql, params)] on a pool configured with [database]. *)
Definition pool_query (database : option string) (sql : string) (params : list value)
  : M result :=
  fun w => let '(r, w1) := MySQL.query database sql params w in (r, w1, [(sql, params)]).

(** The body a handler answers with. *)
Inductive body :=
| Text (s : string)
| JsonError (error : string)
| JsonMessage (message : string)
| JsonId (id : Z)
| JsonRows (rs : list produto)
| JsonRow (r : produto).

Record response := { status : Z; payload : body }.

(** [res.send(s)] and [res.json(b)] answer 200 unless [res.status] was set. *)
Definition send (s : string) : response := {| status := 200; payload := Text s |}.
Definition json (b : body) : response := {| status := 200; payload := b |}.
Definition status_json (code : Z) (b : body) : response := {| status := code; payload := b |}.

(** [process.env] *)
Record environment := { DB_NAME : option string }.

(** The request of a route, with [req.params.id] and [req.body]. *)
Inductive request :=
| GET_root
| POST_init_db
| GET_produtos
| GET_produtos_id (id : string)
| POST_produtos (body : value)
| PUT_produtos_id (id : string) (body : value)
| DELETE_produtos_id (id : string).

Definition sent {A} (r : (string + A) * world * log) : log := r.2.
Definition after {A} (r : (string + A) * world * log) : world := r.1.2.
Definition answer {A} (r : (string + A) * world * log) : string + A := r.1.1.

End Handler.

Import Handler.

Declare Scope handler_scope.
Delimit Scope handler_scope with handler.
Notation "'await' x <- m ; k" := (bind m (fun x => k))
  (at level 10, x name, m at level 100, k at level 200) : handler_scope.
Notation "'try' { m } 'catch' h" := (try_catch m h)
  (at level 10, m at level 200, h at level 9) : handler_scope.

Definition not_found : string := "Produto não encontrado".
Definition required_fields : string := "Campos obrigatórios: Nome, Descricao, Preco".

(** ** server.js *)

Module Server.
Section App.
Variable env : environment.
Open Scope handler_scope.

(** [mysql.createPool({ ..., database: process.env.DB_NAME, ... })] *)
Definition query := pool_query (DB_NAME env).

Definition createDB : string :=
  "
      CREATE DATABASE IF NOT EXISTS `" ++ interpolate (DB_NAME env) ++ "`;
      USE `" ++ interpolate (DB_NAME env) ++ "`;
      CREATE TABLE IF NOT EXISTS produto (
        Id INT AUTO_INCREMENT PRIMARY KEY,
        Nome VARCHAR(255) NOT NULL,
        Descricao VARCHAR(255) NOT NULL,
        Preco DECIMAL(10,2) NOT NULL
      );
    ".

Definition get_root : M response :=
  ret (send "API rodando com sucesso 🚀").

Definition post_init_db : M response :=
  try { await _r <- query createDB [] ;
        ret (send "Banco de dados e tabela criados com sucesso.") }
  catch (fun err => ret (status_json 500 (JsonError err))).

Definition get_produtos : M response :=
  try { await r <- query "SELECT * FROM produto" [] ;
        ret (json (JsonRows (rows_of r))) }
  catch (fun err => ret (status_json 500 (JsonError err))).

Definition get_produtos_id (id : string) : M response :=
  try { await r <- query "SELECT * FROM produto WHERE Id = ?" [VStr id] ;
        match rows_of r with
        | [] => ret (status_json 404 (JsonError not_found))
        | row :: _ => ret (json (JsonRow row))
        end }
  catch (fun err => ret (status_json 500 (JsonError err))).

Definition post_produtos (body : value) : M response :=
  match destructure body with
  | inl e => throw e
  | inr o =>
      let Nome := get o "Nome" in
      let Descricao := get o "Descricao" in
      let Preco := get o "Preco" in
      if JS.negate Nome || JS.negate Descricao || loose_eq_null Preco then
        ret (status_json 400 (JsonError required_fields))
      else
        try { await r <- query "INSERT INTO produto (Nome, Descricao, Preco) VALUES (?, ?, ?)"
                              [Nome; Descricao; Preco] ;
              ret (status_json 201 (JsonId (insertId r))) }
        catch (fun err => ret (status_json 500 (JsonError err)))
  end.

Definition put_produtos_id (id : string) (body : value) : M response :=
  match destructure body with
  | inl e => throw e
  | inr o =>
      let Nome := get o "Nome" in
      let Descricao := get o "Descricao" in
      let Preco := get o "Preco" in
      if JS.negate Nome || JS.negate Descricao || loose_eq_null Preco then
        ret (status_json 400 (JsonError required_fields))
      else
        try { await r <- query "UPDATE produto SET Nome = ?, Descricao = ?, Preco = ? WHERE Id = ?"
                              [Nome; Descricao; Preco; VStr id] ;
              if affectedRows r =? 0 then ret (status_json 404 (JsonError not_found))
              else ret (json (JsonMessage "Produto atualizado com sucesso")) }
        catch (fun err => ret (status_json 500 (JsonError err)))
  end.

Definition delete_produtos_id (id : string) : M response :=
  try { await r <- query "DELETE FROM produto WHERE Id = ?" [VStr id] ;
        if affectedRows r =? 0 then ret (status_json 404 (JsonError not_found))
        else ret (json (JsonMessage "Produto deletado com sucesso")) }
  catch (fun err => ret (status_json 500 (JsonError err))).

Definition app (req : request) : M response :=
  match req with
  | GET_root => get_root
  | POST_init_db => post_init_db
  | GET_produtos => get_produtos
  | GET_produtos_id id => get_produtos_id id
  | POST_produtos body => post_produtos body
  | PUT_produtos_id id body => put_produtos_id id body
  | DELETE_produtos_id id => delete_produtos_id id
  end.

End App.
End Server.

(** ** The variant without request validation (src/unnamed/part_000)

    Its pool names no default schema; every product handler selects the
    schema with [USE] before its statement, and the fields of the body go to
    the statement unchecked.  Create and Update destructure the body before
    their [try], as in server.js. *)

Module Part000.
Section App.
Variable env : environment.
Open Scope handler_scope.

(** [mysql.createPool({ ... })] without a [database] entry *)
Definition query := pool_query None.

(** [const DB_NAME = process.env.DB_NAME] *)
Definition use_db : string := "USE `" ++ interpolate (DB_NAME env) ++ "`".

Definition createDB : string :=
  "CREATE DATABASE IF NOT EXISTS `" ++ interpolate (DB_NAME env) ++ "`; USE `"
    ++ interpolate (DB_NAME env) ++ "`;
      CREATE TABLE IF NOT EXISTS produto (
        Id INT AUTO_INCREMENT PRIMARY KEY,
        Nome VARCHAR(255) NOT NULL,
        Descricao VARCHAR(255) NOT NULL,
        Preco DECIMAL(10,2) NOT NULL
      );".

Definition post_init_db : M response :=
  try { await _r <- query createDB [] ;
        ret (send "Banco de dados e tabela criados com sucesso.") }
  catch (fun err => ret (status_json 500 (JsonError err))).

Definition get_produtos : M response :=
  try { await _u <- query use_db [] ;
        await r <- query "SELECT * FROM produto" [] ;
        ret (json (JsonRows (rows_of r))) }
  catch (fun err => ret (status_json 500 (JsonError err))).

Definition get_produtos_id (id : string) : M response :=
  try { await _u <- query use_db [] ;
        await r <- query "SELECT * FROM produto WHERE id = ?" [VStr id] ;
        match rows_of r with
        | [] => ret (status_json 404 (JsonError not_found))
        | row :: _ => ret (json (JsonRow row))
        end }
  catch (fun err => ret (status_json 500 (JsonError err))).

Definition post_produtos (body : value) : M response :=
  match destructure body with
  | inl e => throw e
  | inr o =>
      let Nome := get o "Nome" in
      let Descricao := get o "Descricao" in
      let Preco := get o "Preco" in
      try { await _u <- query use_db [] ;
            await r <- query "INSERT INTO produto (Nome, Descricao, Preco) VALUES (?, ?, ?)"
                             [Nome; Descricao; Preco] ;
            ret (status_json 201 (JsonId (insertId r))) }
      catch (fun err => ret (status_json 500 (JsonError err)))
  end.

Definition put_produtos_id (id : string) (body : value) : M response :=
  match destructure body with
  | inl e => throw e
  | inr o =>
      let Nome := get o "Nome" in
      let Descricao := get o "Descricao" in
      let Preco := get o "Preco" in
      try { await _u <- query use_db [] ;
            await r <- query "UPDATE produto SET Nome = ?, Descricao = ?, Preco = ? WHERE Id = ?"
                             [Nome; Descricao; Preco; VStr id] ;
            if affectedRows r =? 0 then ret (status_json 404 (JsonError not_found))
            else ret (json (JsonMessage "Produto atualizado com sucesso")) }
      catch (fun err => ret (status_json 500 (JsonError err)))
  end.

Definition delete_produtos_id (id : string) : M response :=
  try { await _u <- query use_db [] ;
        await r <- query "DELETE FROM produto WHERE Id = ?" [VStr id] ;
        if affectedRows r =? 0 then ret (status_json 404 (JsonError not_found))
        else ret (json (JsonMessage "Produto deletado com sucesso")) }
  catch (fun err => ret (status_json 500 (JsonError err))).

(** This variant registers no handler for [GET /]: Express answers 404. *)
Definition app (req : request) : M response :=
  match req with
  | GET_root => ret {| status := 404; payload := Text "Cannot GET /" |}
  | POST_init_db => post_init_db
  | GET_produtos => get_produtos
  | GET_produtos_id id => get_produtos_id id
  | POST_produtos body => post_produtos body
  | PUT_produtos_id id body => put_produtos_id id body
  | DELETE_produtos_id id => delete_produtos_id id
  end.

End App.
End Part000.

(** Requests served one after the other. *)
Fixpoint serve (app : request -> M response) (reqs : list request) (w : world)
  : list (string + response) * world :=
  match reqs with
  | [] => ([], w)
  | req :: reqs' =>
      let r := app req w in
      let '(rs, w') := serve app reqs' (after r) in
      (answer r :: rs, w')
  end.

(** ** Vocabulary of the properties *)

Definition status_of (a : string + response) : option Z :=
  match a with
  | inr r => Some (status r)
  | inl _ => None
  end.

(** The schema the service works in. *)
Definition schema (env : environment) : string := interpolate (DB_NAME env).

(** server.js can reach table [t]: the schema holds it, and the pool's
    connection is on that schema or will open on it. *)
Definition server_ready (env : environment) (w : world) (t : table) : Prop :=
  databases w !! schema env = Some (Some t) /\
  (conn w = Connected (Some (schema env)) \/
   (conn w = Disconnected /\ DB_NAME env = Some (schema env))).

(** The variant can reach table [t]: its [USE] names a schema that holds it. *)
Definition part000_ready (env : environment) (w : world) (t : table) : Prop :=
  plain_identifier (schema env) = true /\ databases w !! schema env = Some (Some t).

(** What GetById answers on the rows the SELECT gave. *)
Definition found_response (rs : list produto) : response :=
  match rs with
  | [] => status_json 404 (JsonError not_found)
  | row :: _ => json (JsonRow row)
  end.

(** The outcome of GetById for id [n] over table [t]: a row with that Id
    when there is one, NotFound when there is none, and never a row that is
    not in the table under that Id. *)
Definition get_by_id_outcome (t : table) (n : Z) (a : string + response) : Prop :=
  ((exists r, In r (rows t) /\ Id r = n) ->
   exists r, In r (rows t) /\ Id r = n /\ a = inr {| status := 200; payload := JsonRow r |}) /\
  ((forall r, In r (rows t) -> Id r <> n) ->
   a = inr {| status := 404; payload := JsonError not_found |}) /\
  (forall resp r, a = inr resp -> payload resp = JsonRow r -> In r (rows t) /\ Id r = n).

(** A body that lacks a required field: [Nome] or [Descricao] absent or
    empty, or [Preco] absent or null. *)
Definition absent_or_empty (body : gmap string value) (k : string) : Prop :=
  body !! k = None \/ body !! k = Some (VStr "").

Definition absent_or_null (body : gmap string value) (k : string) : Prop :=
  body !! k = None \/ body !! k = Some VNull.

Definition missing_field (body : gmap string value) : Prop :=
  absent_or_empty body "Nome" \/ absent_or_empty body "Descricao" \/
  absent_or_null body "Preco".

(** InvalidInput before any statement: 400, nothing sent, the server as it was. *)
Definition rejected (r : (string + response) * world * log) (w : world) : Prop :=
  answer r = inr {| status := 400; payload := JsonError required_fields |} /\
  sent r = [] /\ after r = w.

(** What a handler leaves when it throws before its [try]: no answer of its
    own, no statement sent, the server as it was. *)
Definition thrown (r : (string + response) * world * log) (w : world) : Prop :=
  (exists e, answer r = inl e) /\ sent r = [] /\ after r = w.

(** What a Create or Update of the variant does with the fields it read:
    it never answers 400; [USE] goes first, and either [USE] failed, the
    request is answered 500 and nothing else was sent, or the statement
    follows with the fields bound as they are. *)
Definition sent_unchecked (env : environment) (r : (string + response) * world * log)
    (sql : string) (params : list value) : Prop :=
  status_of (answer r) <> Some 400 /\
  ((sent r = [(Part000.use_db env, [])] /\ status_of (answer r) = Some 500) \/
   sent r = [(Part000.use_db env, []); (sql, params)]).

(** Sample data. *)
Definition env_loja : environment := {| DB_NAME := Some "loja" |}.

Definition row (id : Z) (n d : string) (p : Z) : produto :=
  {| Id := id; Nome := Some n; Descricao := Some d; Preco := Some p |}.

Definition world_of (t : table) : world :=
  {| databases := {[ "loja" := Some t ]}; conn := Disconnected |}.

Definition caneta : table := {| rows := [row 1 "Caneta" "Azul" 250]; auto_increment := 2 |}.

Definition body_of (n d p : value) : gmap string value :=
  <["Nome" := n]> (<["Descricao" := d]> (<["Preco" := p]> ∅)).

(** The id as a client writes it into the path. *)
Definition decimal (n : Z) : string := NilZero.string_of_int (Z.to_int n).

(** A table as the schema of [/init-db] keeps it: ids positive, below the
    counter and pairwise distinct, no NULL cell. *)
Definition well_formed_row (bound : Z) (r : produto) : Prop :=
  0 < Id r < bound /\ is_Some (Nome r) /\ is_Some (Descricao r) /\ is_Some (Preco r).

Definition well_formed_table (t : table) : Prop :=
  0 < auto_increment t /\ NoDup (List.map Id (rows t)) /\
  Forall (well_formed_row (auto_increment t)) (rows t).

Definition well_formed (w : world) : Prop :=
  forall d t, databases w !! d = Some (Some t) -> well_formed_table t.

(** The check both Create and Update of server.js make on the body. *)
Definition validation_fails (body : gmap string value) : bool :=
  JS.negate (get body "Nome") || JS.negate (get body "Descricao")
    || loose_eq_null (get body "Preco").

(** What the handlers of server.js answer from the outcome of their one
    statement. *)
Definition created_response (o : string + result) : response :=
  match o with
  | inr r => status_json 201 (JsonId (insertId r))
  | inl e => status_json 500 (JsonError e)
  end.

Definition changed_response (done : string) (o : string + result) : response :=
  match o with
  | inr r =>
      if affectedRows r =? 0 then status_json 404 (JsonError not_found)
      else json (JsonMessage done)
  | inl e => status_json 500 (JsonError e)
  end.

Definition insert_sql : string :=
  "INSERT INTO produto (Nome, Descricao, Preco) VALUES (?, ?, ?)".
Definition update_sql : string :=
  "UPDATE produto SET Nome = ?, Descricao = ?, Preco = ? WHERE Id = ?".
Definition delete_sql : string := "DELETE FROM produto WHERE Id = ?".

Definition fields (body : gmap string value) : list value :=
  [get body "Nome"; get body "Descricao"; get body "Preco"].

(** A body with the three fields present as the API documents them: text
    that is not empty for [Nome] and [Descricao], a number for [Preco]. *)
Definition valid_fields (body : gmap string value) : Prop :=
  exists n ds q,
    get body "Nome" = VStr n /\ n <> "" /\
    get body "Descricao" = VStr ds /\ ds <> "" /\
    get body "Preco" = VNum q.

(** Text and prices the columns take as they are. *)
Definition storable_text (s : string) : Prop := s <> "" /\ (String.length s <= 255)%nat.

Definition zero_or_empty (v : value) : Prop :=
  v = VStr "" \/ exists q, v = VNum q /\ q == 0.

(** The schema and its table exist and the session is on the schema: what a
    successful [/init-db] leaves. *)
Definition initialized (env : environment) (w : world) : Prop :=
  conn w = Connected (Some (schema env)) /\
  exists t, databases w !! schema env = Some (Some t).

Definition init_statements (name : string) : list statement :=
  [CreateDatabaseIfNotExists name; Use name; CreateTableProdutoIfNotExists].

Definition init_done : response := send "Banco de dados e tabela criados com sucesso.".

(** What [/init-db] answers from the outcome of its statement. *)
Definition init_response (o : string + result) : response :=
  match o with
  | inr _ => init_done
  | inl e => status_json 500 (JsonError e)
  end.

(** The route of a request: the request without the values its sender
    chose (the id of the path, the body). *)
Inductive route :=
| Root | InitDb | ListAll | GetOne | CreateOne | UpdateOne | DeleteOne.

Definition route_of (req : request) : route :=
  match req with
  | GET_root => Root
  | POST_init_db => InitDb
  | GET_produtos => ListAll
  | GET_produtos_id _ => GetOne
  | POST_produtos _ => CreateOne
  | PUT_produtos_id _ _ => UpdateOne
  | DELETE_produtos_id _ => DeleteOne
  end.





(** The fields a handler reads from a body it could destructure. *)
Definition object_of (body : value) : gmap string value :=
  match destructure body with
  | inr o => o
  | inl _ => ∅
  end.


(** Counting the Creates that succeeded among the answers of a run. *)
Definition is_created (a : string + response) : bool :=
  match a with
  | inr r => status r =? 201
  | inl _ => false
  end.

Definition created (answers : list (string + response)) : nat :=
  length (List.filter is_created answers).

Definition is_delete (req : request) : bool :=
  match req with
  | DELETE_produtos_id _ => true
  | _ => false
  end.

(** The ids the answers of a run handed out. *)
Definition issued_by (a : string + response) : list Z :=
  match a with
  | inr r =>
      match payload r with
      | JsonId i => [i]
      | _ => []
      end
  | inl _ => []
  end.

Definition issued (answers : list (string + response)) : list Z :=
  flat_map issued_by answers.

(** A server before the service has stored anything: no connection yet and
    every [produto] table that exists is as [CREATE TABLE] made it. *)
Definition initial (w : world) : Prop :=
  conn w = Disconnected /\
  forall d t, databases w !! d = Some (Some t) -> t = empty_table.

(** The session, when it has a default schema, is on the configured one. *)
Definition session_on (env : environment) (w : world) : Prop :=
  forall d, conn w = Connected (Some d) -> d = schema env.

(** Every id handed out so far is positive and below the counter. *)
Definition ids_below (env : environment) (w : world) (ids : list Z) : Prop :=
  match databases w !! schema env with
  | Some (Some t) => Forall (fun i => 0 < i < auto_increment t) ids
  | _ => ids = []
  end.

Definition invariant (env : environment) (w : world) (ids : list Z) : Prop :=
  well_formed w /\ session_on env w /\ ids_below env w ids /\ NoDup ids.

(** Where the three statements of [/init-db] take a connected session. *)
Definition init_world (name : string) (w : world) : world :=
  match databases w !! name with
  | Some (Some _) => attach name w
  | _ => set_database name (Some empty_table) (attach name w)
  end.

(** The ids a statement's outcome hands out: an INSERT's [insertId]. *)
Definition new_ids (st : statement) (o : string + result) : list Z :=
  match st, o with
  | InsertProduto, inr r => [insertId r]
  | _, _ => []
  end.

(** The statements of the product routes with the values each is sent with. *)
Inductive well_bound : statement -> list value -> Prop :=
| bound_select_all : well_bound SelectAll []
| bound_select_by_id v : well_bound SelectById [v]
| bound_insert n ds p : well_bound InsertProduto [n; ds; p]
| bound_update n ds p v : well_bound UpdateProduto [n; ds; p; v]
| bound_delete v : well_bound DeleteProduto [v].

(** What List and GetById of server.js answer from the outcome of their
    statement. *)
Definition list_response (o : string + result) : response :=
  match o with
  | inr r => json (JsonRows (rows_of r))
  | inl e => status_json 500 (JsonError e)
  end.

Definition get_response (o : string + result) : response :=
  match o with
  | inr r => found_response (rows_of r)
  | inl e => status_json 500 (JsonError e)
  end.

(** ** Vocabulary of the further properties *)

(** The status codes each route of server.js can answer with. *)
Definition server_statuses (r : route) : list Z :=
  match r with
  | Root => [200]
  | InitDb | ListAll => [200; 500]
  | GetOne | DeleteOne => [200; 404; 500]
  | CreateOne => [201; 400; 500]
  | UpdateOne => [200; 400; 404; 500]
  end.

(** The status codes each route of the variant can answer with. *)
Definition part000_statuses (r : route) : list Z :=
  match r with
  | Root => [404]
  | InitDb | ListAll => [200; 500]
  | GetOne | DeleteOne | UpdateOne => [200; 404; 500]
  | CreateOne => [201; 500]
  end.

(** The requests that only read, and those that store. *)
Definition is_read (req : request) : bool :=
  match req with
  | GET_root | GET_produtos | GET_produtos_id _ => true
  | _ => false
  end.

Definition is_write (req : request) : bool :=
  match req with
  | POST_produtos _ | PUT_produtos_id _ _ | DELETE_produtos_id _ => true
  | _ => false
  end.

(** The values JavaScript takes for false, among those a JSON body can hold. *)
Definition falsy (v : value) : Prop :=
  v = VUndefined \/ v = VNull \/ v = VBool false \/ v = VStr "" \/
  exists q, v = VNum q /\ q == 0.

Definition nullish (v : value) : Prop := v = VUndefined \/ v = VNull.

(** A body whose three fields the columns take: text of at most 255
    characters that is not empty, and a number whose hundredths fit ten
    digits. *)
Definition storable (body : gmap string value) (n ds : string) (q : Q) : Prop :=
  get body "Nome" = VStr n /\ get body "Descricao" = VStr ds /\
  get body "Preco" = VNum q /\
  storable_text n /\ storable_text ds /\ Z.abs (round_cents q) <= decimal_10_2_max.

(** Row [r] after an Update of id [k]. *)
Definition overwrite (k : Z) (n ds : string) (c : Z) (r : produto) : produto :=
  if Id r =? k then row k n ds c else r.

Definition set_rows (t : table) (rs : list produto) : table :=
  {| rows := rs; auto_increment := auto_increment t |}.

(** The requests whose handler in server.js reaches [pool.query]: Create
    and Update do when the body could be destructured and passed the check. *)
Definition reaches_database (req : request) : bool :=
  match req with
  | GET_root => false
  | POST_produtos body | PUT_produtos_id _ body =>
      match destructure body with
      | inr o => negb (validation_fails o)
      | inl _ => false
      end
  | _ => true
  end.

(** The requests whose body the handler can destructure: all but a Create
    or an Update that came with [req.body] undefined or null. *)
Definition has_body (req : request) : bool :=
  match req with
  | POST_produtos body | PUT_produtos_id _ body => negb (loose_eq_null body)
  | _ => true
  end.

(** The product routes. *)
Definition is_product (req : request) : bool :=
  match req with
  | GET_root | POST_init_db => false
  | _ => true
  end.

(** Text the columns take, the empty one included. *)
Definition fits_varchar (s : string) : Prop := (String.length s <= 255)%nat.

(** A server with a second schema beside the configured one. *)
Definition two_schemas : world :=
  {| databases := <["outra" := Some caneta]> {[ "loja" := Some empty_table ]};
     conn := Disconnected |}.

(** The environment without [DB_NAME]. *)
Definition env_unset : environment := {| DB_NAME := None |}.

(** ** Facts about the SQL texts *)

Section ParseLemmas.

Lemma lex_app (p rest : string) : lex (p +:+ rest) = lex_onto p (lex rest).
Proof.
  induction p as [|a p IH]; [done|].
  change (String a p +:+ rest) with (String a (p +:+ rest)).
  cbn [lex lex_onto]. by rewrite IH.
Qed.

Lemma lex_word (s rest : string) :
  string_forallb word_char s = true ->
  lex (s +:+ rest) = (s +:+ (lex rest).1, (lex rest).2).
Proof.
  induction s as [|a s IH]; intros H.
  - change ("" +:+ rest) with rest. by destruct (lex rest).
  - cbn [string_forallb] in H. apply andb_true_iff in H as [Ha Hs].
    change (String a s +:+ rest) with (String a (s +:+ rest)).
    cbn [lex]. rewrite (IH Hs).
    unfold word_char in Ha. apply negb_true_iff in Ha.
    apply orb_false_iff in Ha as [Ha _]. apply orb_false_iff in Ha as [Ha1 Ha2].
    by rewrite Ha1, Ha2.
Qed.

Lemma until_backtick_word (s : string) :
  string_forallb word_char s = true ->
  until_backtick (s +:+ "`") = Some s.
Proof.
  induction s as [|a s IH]; intros H; [done|].
  cbn [string_forallb] in H. apply andb_true_iff in H as [Ha Hs].
  change (String a s +:+ "`") with (String a (s +:+ "`")).
  cbn [until_backtick]. rewrite (IH Hs).
  unfold word_char in Ha. apply negb_true_iff in Ha.
  apply orb_false_iff in Ha as [_ Ha]. by rewrite Ha.
Qed.

Lemma plain_identifier_word (s : string) :
  plain_identifier s = true -> string_forallb word_char s = true.
Proof.
  unfold plain_identifier. intros H. apply andb_true_iff in H as [_ H]. exact H.
Qed.

Lemma unquote_plain (s : string) :
  plain_identifier s = true -> unquote (String "`" (s +:+ "`")) = Some s.
Proof.
  intros H. cbn [unquote]. change (is_backtick "`") with true. cbn match.
  rewrite (until_backtick_word s (plain_identifier_word s H)). by rewrite H.
Qed.

Ltac parse_template H :=
  unfold parse, tokens;
  repeat rewrite lex_app, (lex_word _ _ (plain_identifier_word _ H));
  cbv -[String.append unquote]; by rewrite (unquote_plain _ H).

Lemma parse_use_db (env : environment) :
  plain_identifier (schema env) = true ->
  parse (Part000.use_db env) = Some [Use (schema env)].
Proof.
  unfold Part000.use_db, schema. generalize (interpolate (DB_NAME env)).
  intros name H. parse_template H.
Qed.

Lemma parse_server_createDB (env : environment) :
  plain_identifier (schema env) = true ->
  parse (Server.createDB env) =
    Some [CreateDatabaseIfNotExists (schema env); Use (schema env);
          CreateTableProdutoIfNotExists].
Proof.
  unfold Server.createDB, schema. generalize (interpolate (DB_NAME env)).
  intros name H. parse_template H.
Qed.

Lemma parse_part000_createDB (env : environment) :
  plain_identifier (schema env) = true ->
  parse (Part000.createDB env) =
    Some [CreateDatabaseIfNotExists (schema env); Use (schema env);
          CreateTableProdutoIfNotExists].
Proof.
  unfold Part000.createDB, schema. generalize (interpolate (DB_NAME env)).
  intros name H. parse_template H.
Qed.

Lemma parse_select_all : parse "SELECT * FROM produto" = Some [SelectAll].
Proof. by vm_compute. Qed.

Lemma parse_select_by_Id : parse "SELECT * FROM produto WHERE Id = ?" = Some [SelectById].
Proof. by vm_compute. Qed.

Lemma parse_select_by_id : parse "SELECT * FROM produto WHERE id = ?" = Some [SelectById].
Proof. by vm_compute. Qed.

Lemma parse_insert :
  parse "INSERT INTO produto (Nome, Descricao, Preco) VALUES (?, ?, ?)" = Some [InsertProduto].
Proof. by vm_compute. Qed.

Lemma parse_update :
  parse "UPDATE produto SET Nome = ?, Descricao = ?, Preco = ? WHERE Id = ?"
  = Some [UpdateProduto].
Proof. by vm_compute. Qed.

Lemma parse_delete : parse "DELETE FROM produto WHERE Id = ?" = Some [DeleteProduto].
Proof. by vm_compute. Qed.

End ParseLemmas.

(** ** The session *)

Section SessionLemmas.

Lemma attach_attached (w : world) (d : string) :
  conn w = Connected (Some d) -> attach d w = w.
Proof. destruct w as [dbs c]; cbn; by intros ->. Qed.

Lemma connect_connected (db : option string) (w : world) (c : option string) :
  conn w = Connected c -> connect db w = inr w.
Proof. unfold connect. by intros ->. Qed.

Lemma current_table_attach (w : world) (d : string) (t : table) :
  databases w !! d = Some (Some t) -> current_table (attach d w) = inr (d, t).
Proof. unfold current_table; cbn. by intros ->. Qed.

Lemma server_connect (env : environment) (w : world) (t : table) :
  server_ready env w t -> connect (DB_NAME env) w = inr (attach (schema env) w).
Proof.
  intros [Ht [Hc | [Hc Hd]]]; unfold connect; rewrite Hc.
  - by rewrite attach_attached.
  - by rewrite Hd, Ht.
Qed.

Lemma server_query (env : environment) (w : world) (t : table)
    (sql : string) (params : list value) (st : statement) :
  server_ready env w t -> parse sql = Some [st] ->
  Server.query env sql params w =
    ((exec st params (attach (schema env) w)).1,
     (exec st params (attach (schema env) w)).2, [(sql, params)]).
Proof.
  intros Hr Hp. unfold Server.query, pool_query, query.
  rewrite (server_connect env w t Hr), Hp.
  by destruct (exec st params (attach (schema env) w)).
Qed.

Lemma part000_use (env : environment) (w : world) (t : table) :
  part000_ready env w t ->
  Part000.query (Part000.use_db env) [] w =
    (inr (ResultSetHeader 0 0), attach (schema env) w, [(Part000.use_db env, [])]).
Proof.
  intros [Hp Ht]. unfold Part000.query, pool_query, query.
  rewrite (parse_use_db env Hp). unfold connect.
  destruct (conn w) eqn:Hc; cbn; by rewrite Ht.
Qed.

Lemma part000_query (w : world) (d : string)
    (sql : string) (params : list value) (st : statement) :
  parse sql = Some [st] ->
  Part000.query sql params (attach d w) =
    ((exec st params (attach d w)).1, (exec st params (attach d w)).2, [(sql, params)]).
Proof.
  intros Hp. unfold Part000.query, pool_query, query.
  rewrite (connect_connected None (attach d w) (Some d) eq_refl), Hp.
  by destruct (exec st params (attach d w)).
Qed.

End SessionLemmas.

(** ** What each handler does when the table is within reach *)

Section HandlerRuns.
Variable env : environment.
Variable w : world.
Variable t : table.

Lemma server_get_produtos_run :
  server_ready env w t ->
  Server.get_produtos env w =
    (inr (json (JsonRows (rows t))), attach (schema env) w, [("SELECT * FROM produto", [])]).
Proof.
  intros Hr. unfold Server.get_produtos, try_catch, bind.
  rewrite (server_query env w t _ _ _ Hr parse_select_all).
  unfold exec. by rewrite (current_table_attach _ _ _ (proj1 Hr)).
Qed.

Lemma server_get_produtos_id_run (id : string) :
  server_ready env w t ->
  Server.get_produtos_id env id w =
    (inr (found_response (List.filter (id_matches (VStr id)) (rows t))),
     attach (schema env) w, [("SELECT * FROM produto WHERE Id = ?", [VStr id])]).
Proof.
  intros Hr. unfold Server.get_produtos_id, try_catch, bind.
  rewrite (server_query env w t _ _ _ Hr parse_select_by_Id).
  unfold exec. rewrite (current_table_attach _ _ _ (proj1 Hr)). cbn.
  by destruct (List.filter _ _).
Qed.

Lemma part000_get_produtos_id_run (id : string) :
  part000_ready env w t ->
  Part000.get_produtos_id env id w =
    (inr (found_response (List.filter (id_matches (VStr id)) (rows t))),
     attach (schema env) w,
     [(Part000.use_db env, []); ("SELECT * FROM produto WHERE id = ?", [VStr id])]).
Proof.
  intros Hr. unfold Part000.get_produtos_id, try_catch, bind.
  rewrite (part000_use env w t Hr).
  rewrite (part000_query w _ _ _ _ parse_select_by_id).
  unfold exec. rewrite (current_table_attach _ _ _ (proj2 Hr)). cbn.
  by destruct (List.filter _ _).
Qed.

End HandlerRuns.

(** ** GetById *)

Lemma id_matches_spec (s : string) (n : Z) (r : produto) :
  sql_id_of_param (VStr s) = Some n -> id_matches (VStr s) r = true <-> Id r = n.
Proof. unfold id_matches. intros ->. apply Z.eqb_eq. Qed.

Lemma found_response_outcome (t : table) (s : string) (n : Z) :
  sql_id_of_param (VStr s) = Some n ->
  get_by_id_outcome t n (inr (found_response (List.filter (id_matches (VStr s)) (rows t)))).
Proof.
  intros Hn. pose proof (fun r => id_matches_spec s n r Hn) as Hm.
  destruct (List.filter (id_matches (VStr s)) (rows t)) as [|r0 rs] eqn:Hf.
  - assert (Hnone : forall r, In r (rows t) -> Id r <> n).
    { intros r Hr Hid. apply Hm in Hid.
      assert (Hin : In r (List.filter (id_matches (VStr s)) (rows t)))
        by (apply filter_In; split; assumption).
      rewrite Hf in Hin. destruct Hin. }
    split; [|split].
    + intros (r & Hr & Hid). destruct (Hnone r Hr Hid).
    + reflexivity.
    + intros resp r [= <-]. discriminate.
  - assert (H0 : In r0 (rows t) /\ Id r0 = n).
    { assert (Hin : In r0 (List.filter (id_matches (VStr s)) (rows t)))
        by (rewrite Hf; left; reflexivity).
      apply filter_In in Hin as [Hin Hid]. split; [assumption | by apply Hm]. }
    split; [|split].
    + intros _. exists r0. by destruct H0.
    + intros Hnone. destruct H0 as [Hin Hid]. destruct (Hnone r0 Hin Hid).
    + intros resp r [= <-]. cbn. intros [= <-]. apply H0.
Qed.

(** C2. GetById, in server.js and in the variant alike: with the table in
    reach and an integer id [n], the handler answers 200 with a row of the
    table whose Id is [n] when there is one, answers 404 when there is none,
    and whatever row it answers with is a row of the table with Id [n]. *)
Theorem get_by_id_found_or_not_found
    (env : environment) (w : world) (t : table) (id : string) (n : Z) :
  sql_id_of_param (VStr id) = Some n ->
  (server_ready env w t ->
   get_by_id_outcome t n (answer (Server.get_produtos_id env id w))) /\
  (part000_ready env w t ->
   get_by_id_outcome t n (answer (Part000.get_produtos_id env id w))).
Proof.
  intros Hn. split; intros Hr.
  - rewrite (server_get_produtos_id_run env w t id Hr). by apply found_response_outcome.
  - rewrite (part000_get_produtos_id_run env w t id Hr). by apply found_response_outcome.
Qed.

Lemma get_by_id_found_or_not_found_witness :
  get_by_id_outcome caneta 1 (answer (Server.get_produtos_id env_loja "1" (world_of caneta))) /\
  get_by_id_outcome caneta 1 (answer (Part000.get_produtos_id env_loja "1" (world_of caneta))).
Proof.
  destruct (get_by_id_found_or_not_found env_loja (world_of caneta) caneta "1" 1 eq_refl)
    as [Hs Hp].
  split.
  - apply Hs. split; [by vm_compute | right; split; reflexivity].
  - apply Hp. split; by vm_compute.
Defined.

(** ** Validation of the request body *)

Lemma get_absent (body : gmap string value) (k : string) :
  body !! k = None -> get body k = VUndefined.
Proof. unfold get. by intros ->. Qed.

Lemma get_present (body : gmap string value) (k : string) (v : value) :
  body !! k = Some v -> get body k = v.
Proof. unfold get. by intros ->. Qed.

(** Create and Update destructure the body before anything else: on
    undefined and on null the handler throws, sends nothing and leaves the
    server as it was; any other body is read as the object of its fields. *)
Section Body.
Variable env : environment.

Lemma destructure_given (v : value) :
  loose_eq_null v = false -> destructure v = inr (object_of v).
Proof. unfold object_of. by destruct v. Qed.

Lemma destructure_not_given (v : value) :
  loose_eq_null v = true -> exists e, destructure v = inl e.
Proof. destruct v; try discriminate; intros _; by eexists. Qed.

Lemma server_post_throws (v : value) (e : string) (w : world) :
  destructure v = inl e -> Server.post_produtos env v w = (inl e, w, []).
Proof. intros H. unfold Server.post_produtos. by rewrite H. Qed.

Lemma server_put_throws (id : string) (v : value) (e : string) (w : world) :
  destructure v = inl e -> Server.put_produtos_id env id v w = (inl e, w, []).
Proof. intros H. unfold Server.put_produtos_id. by rewrite H. Qed.

Lemma part000_post_throws (v : value) (e : string) (w : world) :
  destructure v = inl e -> Part000.post_produtos env v w = (inl e, w, []).
Proof. intros H. unfold Part000.post_produtos. by rewrite H. Qed.

Lemma part000_put_throws (id : string) (v : value) (e : string) (w : world) :
  destructure v = inl e -> Part000.put_produtos_id env id v w = (inl e, w, []).
Proof. intros H. unfold Part000.put_produtos_id. by rewrite H. Qed.

Lemma server_post_object (v : value) (o : gmap string value) :
  destructure v = inr o -> Server.post_produtos env v = Server.post_produtos env (VObj o).
Proof. intros H. unfold Server.post_produtos. by rewrite H. Qed.

Lemma server_put_object (id : string) (v : value) (o : gmap string value) :
  destructure v = inr o ->
  Server.put_produtos_id env id v = Server.put_produtos_id env id (VObj o).
Proof. intros H. unfold Server.put_produtos_id. by rewrite H. Qed.

Lemma part000_post_object (v : value) (o : gmap string value) :
  destructure v = inr o -> Part000.post_produtos env v = Part000.post_produtos env (VObj o).
Proof. intros H. unfold Part000.post_produtos. by rewrite H. Qed.

Lemma part000_put_object (id : string) (v : value) (o : gmap string value) :
  destructure v = inr o ->
  Part000.put_produtos_id env id v = Part000.put_produtos_id env id (VObj o).
Proof. intros H. unfold Part000.put_produtos_id. by rewrite H. Qed.

Lemma handlers_throw_without_body (id : string) (v : value) (w : world) :
  loose_eq_null v = true ->
  thrown (Server.post_produtos env v w) w /\
  thrown (Server.put_produtos_id env id v w) w /\
  thrown (Part000.post_produtos env v w) w /\
  thrown (Part000.put_produtos_id env id v w) w.
Proof.
  intros [e He]%destructure_not_given.
  rewrite (server_post_throws v e w He), (server_put_throws id v e w He),
    (part000_post_throws v e w He), (part000_put_throws id v e w He).
  repeat split; by eexists.
Qed.

End Body.

Lemma missing_field_fails_validation (body : gmap string value) :
  missing_field body ->
  JS.negate (get body "Nome") || JS.negate (get body "Descricao")
    || loose_eq_null (get body "Preco") = true.
Proof.
  intros [[H | H] | [[H | H] | [H | H]]];
    first [rewrite (get_absent _ _ H) | rewrite (get_present _ _ _ H)]; cbn;
    rewrite ?orb_true_r; reflexivity.
Qed.

(** ** The handlers of server.js, statement by statement *)

Section ServerRuns.
Variable env : environment.
Variable w : world.

Lemma connect_outcome (db : option string) (w1 : world) :
  connect db w = inr w1 ->
  databases w1 = databases w /\ exists c, conn w1 = Connected c.
Proof.
  unfold connect. destruct (conn w) as [|c] eqn:Hc.
  - destruct db as [d|].
    + destruct (databases w !! d); [|discriminate]. intros [= <-]. split; [done|by eexists].
    + intros [= <-]. split; [done|by eexists].
  - intros [= <-]. split; [done|by eexists].
Qed.

(** A single statement either finds no connection or runs on the connected
    session. *)
Lemma server_query_cases (sql : string) (params : list value) (st : statement) :
  parse sql = Some [st] ->
  (exists e, Server.query env sql params w = (inl e, w, [(sql, params)])) \/
  (exists w1, connect (DB_NAME env) w = inr w1 /\
     Server.query env sql params w =
       ((exec st params w1).1, (exec st params w1).2, [(sql, params)])).
Proof.
  intros Hp. unfold Server.query, pool_query, query.
  destruct (connect (DB_NAME env) w) as [e | w1]; [left; by eexists|].
  right. exists w1. split; [done|]. rewrite Hp. by destruct (exec st params w1).
Qed.

Lemma server_post_unfold (body : gmap string value) :
  validation_fails body = false ->
  Server.post_produtos env (VObj body) w =
    let q := Server.query env insert_sql (fields body) w in
    (inr (created_response (answer q)), after q, sent q).
Proof.
  intros Hv. unfold Server.post_produtos, destructure. fold (validation_fails body). rewrite Hv.
  unfold try_catch, bind, ret, answer, after, sent, insert_sql, fields. cbn zeta.
  destruct (Server.query env _ _ w) as [[[e | r] w1] l]; cbn; by rewrite ?app_nil_r.
Qed.

Lemma server_put_unfold (id : string) (body : gmap string value) :
  validation_fails body = false ->
  Server.put_produtos_id env id (VObj body) w =
    let q := Server.query env update_sql (fields body ++ [VStr id])%list w in
    (inr (changed_response "Produto atualizado com sucesso" (answer q)), after q, sent q).
Proof.
  intros Hv. unfold Server.put_produtos_id, destructure. fold (validation_fails body). rewrite Hv.
  unfold try_catch, bind, ret, answer, after, sent, update_sql, fields. cbn zeta.
  change ([get body "Nome"; get body "Descricao"; get body "Preco"] ++ [VStr id])%list
    with [get body "Nome"; get body "Descricao"; get body "Preco"; VStr id].
  destruct (Server.query env _ _ w) as [[[e | r] w1] l]; cbn; [by rewrite app_nil_r|].
  destruct (affectedRows r =? 0); cbn; by rewrite app_nil_r.
Qed.

Lemma server_delete_unfold (id : string) :
  Server.delete_produtos_id env id w =
    let q := Server.query env delete_sql [VStr id] w in
    (inr (changed_response "Produto deletado com sucesso" (answer q)), after q, sent q).
Proof.
  unfold Server.delete_produtos_id.
  unfold try_catch, bind, ret, answer, after, sent, delete_sql. cbn zeta.
  destruct (Server.query env _ _ w) as [[[e | r] w1] l]; cbn; [by rewrite app_nil_r|].
  destruct (affectedRows r =? 0); cbn; by rewrite app_nil_r.
Qed.

End ServerRuns.

(** ** Statements against the current table *)

Section ExecLemmas.

Lemma current_table_inv (w : world) (d : string) (t : table) :
  current_table w = inr (d, t) ->
  conn w = Connected (Some d) /\ databases w !! d = Some (Some t).
Proof.
  unfold current_table. destruct (conn w) as [|[d'|]]; try discriminate.
  destruct (databases w !! d') as [[t'|]|] eqn:Hd; try discriminate.
  by intros [= <- <-].
Qed.

Lemma current_table_set_database (w : world) (d : string) (t : table) :
  conn w = Connected (Some d) ->
  current_table (set_database d (Some t) w) = inr (d, t).
Proof.
  intros Hc. unfold current_table, set_database; cbn. rewrite Hc.
  by rewrite lookup_insert_eq.
Qed.

Lemma filter_none {A} (f : A -> bool) (l : list A) :
  (forall x, In x l -> f x = false) -> List.filter f l = [].
Proof.
  induction l as [|x l IH]; [done|]. intros H. cbn.
  rewrite (H x (or_introl eq_refl)). apply IH. intros y Hy. apply H. by right.
Qed.

Lemma filter_after_filter_out {A} (f : A -> bool) (l : list A) :
  List.filter f (List.filter (fun x => negb (f x)) l) = [].
Proof.
  apply filter_none. intros x Hx. apply filter_In in Hx as [_ Hx].
  by apply negb_true_iff in Hx.
Qed.

Lemma no_row_matches (t : table) (id : string) (n : Z) :
  sql_id_of_param (VStr id) = Some n ->
  (forall r, In r (rows t) -> Id r <> n) ->
  List.filter (id_matches (VStr id)) (rows t) = [].
Proof.
  intros Hn Hnone. apply filter_none. intros r Hr.
  destruct (id_matches (VStr id) r) eqn:Hm; [|done].
  apply (id_matches_spec id n r Hn) in Hm. destruct (Hnone r Hr Hm).
Qed.

Lemma exec_update (w : world) (d : string) (t : table) (n ds p v : value) :
  current_table w = inr (d, t) ->
  exec UpdateProduto [n; ds; p; v] w =
    match List.filter (id_matches v) (rows t) with
    | [] => (inr (ResultSetHeader 0 0), w)
    | found =>
        match convert_columns n ds p with
        | inr (n', ds', p') =>
            (inr (ResultSetHeader (Z.of_nat (length found)) 0),
             set_database d
               (Some {| rows := List.map (update_row v n' ds' p') (rows t);
                        auto_increment := auto_increment t |}) w)
        | inl e => (inl e, w)
        end
    end.
Proof. intros Hc. unfold exec. by rewrite Hc. Qed.

Lemma exec_delete (w : world) (d : string) (t : table) (v : value) :
  current_table w = inr (d, t) ->
  exec DeleteProduto [v] w =
    match List.filter (id_matches v) (rows t) with
    | [] => (inr (ResultSetHeader 0 0), w)
    | found =>
        (inr (ResultSetHeader (Z.of_nat (length found)) 0),
         set_database d
           (Some {| rows := List.filter (fun r => negb (id_matches v r)) (rows t);
                    auto_increment := auto_increment t |}) w)
    end.
Proof. intros Hc. unfold exec. by rewrite Hc. Qed.

Lemma exec_insert (w : world) (d : string) (t : table) (n ds p : value) :
  current_table w = inr (d, t) ->
  exec InsertProduto [n; ds; p] w =
    match convert_columns n ds p with
    | inr (n', ds', p') => insert_row d t n' ds' p' w
    | inl e => (inl e, w)
    end.
Proof. intros Hc. unfold exec. by rewrite Hc. Qed.

Lemma exec_without_table (st : statement) (params : list value) (w : world) (e : string) :
  current_table w = inl e ->
  st = SelectAll \/ st = SelectById \/ st = InsertProduto \/ st = UpdateProduto
    \/ st = DeleteProduto ->
  exec st params w = (inl e, w).
Proof.
  intros Hc [-> | [-> | [-> | [-> | ->]]]]; unfold exec; by rewrite Hc.
Qed.

End ExecLemmas.

(** ** Update and Delete of an id that is not there *)

Lemma text_truthy (s : string) : s <> "" -> JS.negate (VStr s) = false.
Proof. intros H. unfold JS.negate, truthy. destruct s; [done | reflexivity]. Qed.

Lemma valid_fields_pass (body : gmap string value) :
  valid_fields body -> validation_fails body = false.
Proof.
  unfold validation_fails. intros (n & ds & q & -> & Hn & -> & Hd & ->).
  by rewrite (text_truthy n Hn), (text_truthy ds Hd).
Qed.

(** C3. Update of an id no row has: with the table in reach, a body whose
    three fields are valid and an integer id [n] that no row carries,
    [PUT /produtos/{id}] answers 404 and every schema and table of the server
    is as it was. *)
Theorem update_of_absent_id_is_not_found
    (env : environment) (w : world) (t : table)
    (id : string) (n : Z) (body : gmap string value) :
  server_ready env w t ->
  valid_fields body ->
  sql_id_of_param (VStr id) = Some n ->
  (forall r, In r (rows t) -> Id r <> n) ->
  answer (Server.put_produtos_id env id (VObj body) w)
    = inr {| status := 404; payload := JsonError not_found |} /\
  databases (after (Server.put_produtos_id env id (VObj body) w)) = databases w.
Proof.
  intros Hr Hvalid Hn Hnone.
  rewrite (server_put_unfold env w id body (valid_fields_pass body Hvalid)). cbn zeta.
  rewrite (server_query env w t _ _ _ Hr parse_update).
  unfold fields. cbn [app].
  rewrite (exec_update _ _ _ _ _ _ _ (current_table_attach _ _ _ (proj1 Hr))).
  rewrite (no_row_matches t id n Hn Hnone). by split.
Qed.

Lemma update_of_absent_id_is_not_found_witness :
  answer (Server.put_produtos_id env_loja "7"
            (VObj (body_of (VStr "Lapis") (VStr "Preto") (VNum (199 # 100)))) (world_of caneta))
    = inr {| status := 404; payload := JsonError not_found |} /\
  databases (after (Server.put_produtos_id env_loja "7"
            (VObj (body_of (VStr "Lapis") (VStr "Preto") (VNum (199 # 100)))) (world_of caneta)))
    = databases (world_of caneta).
Proof.
  apply (update_of_absent_id_is_not_found env_loja (world_of caneta) caneta "7" 7).
  - split; [by vm_compute | right; split; reflexivity].
  - exists "Lapis", "Preto", (199 # 100)%Q. repeat split; (by vm_compute) || discriminate.
  - by vm_compute.
  - intros r [<- | []]. by vm_compute.
Defined.

(** C4. Delete twice: when [DELETE /produtos/{id}] has answered 200, the
    same request again answers 404 and leaves the server exactly as the
    first one left it. *)
Theorem second_delete_is_not_found (env : environment) (w : world) (id : string) :
  answer (Server.delete_produtos_id env id w)
    = inr {| status := 200; payload := JsonMessage "Produto deletado com sucesso" |} ->
  let w1 := after (Server.delete_produtos_id env id w) in
  answer (Server.delete_produtos_id env id w1)
    = inr {| status := 404; payload := JsonError not_found |} /\
  after (Server.delete_produtos_id env id w1) = w1.
Proof.
  rewrite (server_delete_unfold env w id). cbn zeta.
  destruct (server_query_cases env w delete_sql [VStr id] _ parse_delete)
    as [[e He] | (w0 & Hconn & Hq)].
  { rewrite He. discriminate. }
  rewrite Hq. unfold answer, after; cbn [fst snd].
  destruct (connect_outcome w _ _ Hconn) as [_ [c Hc]].
  destruct (current_table w0) as [e | [d t]] eqn:Hct.
  { rewrite (exec_without_table DeleteProduto _ _ _ Hct) by tauto. discriminate. }
  rewrite (exec_delete _ _ _ _ Hct).
  destruct (List.filter (id_matches (VStr id)) (rows t)) as [|r0 found] eqn:Hf.
  { discriminate. }
  cbn [fst snd]. intros _.
  destruct (current_table_inv _ _ _ Hct) as [Hcd _].
  set (t' := {| rows := List.filter (fun r => negb (id_matches (VStr id) r)) (rows t);
                auto_increment := auto_increment t |}).
  set (w1 := set_database d (Some t') w0).
  assert (Hc1 : conn w1 = Connected (Some d)) by exact Hcd.
  rewrite (server_delete_unfold env w1 id). cbn zeta.
  unfold Server.query, pool_query, query, delete_sql.
  rewrite (connect_connected _ w1 _ Hc1), parse_delete.
  rewrite (exec_delete w1 d t' _ (current_table_set_database w0 d t' Hcd)).
  subst t'. cbn [rows]. rewrite filter_after_filter_out. by split.
Qed.

Lemma second_delete_is_not_found_witness :
  answer (Server.delete_produtos_id env_loja "1"
            (after (Server.delete_produtos_id env_loja "1" (world_of caneta))))
    = inr {| status := 404; payload := JsonError not_found |} /\
  after (Server.delete_produtos_id env_loja "1"
            (after (Server.delete_produtos_id env_loja "1" (world_of caneta))))
    = after (Server.delete_produtos_id env_loja "1" (world_of caneta)).
Proof.
  apply (second_delete_is_not_found env_loja (world_of caneta) "1"). by vm_compute.
Defined.

(** ** Prices *)

Section Prices.

Lemma round_cents_unfold (q : Q) :
  round_cents q =
    Z.sgn (Qnum q * 100) * ((2 * Z.abs (Qnum q * 100) + Z.pos (Qden q)) / (2 * Z.pos (Qden q))).
Proof.
  unfold round_cents, round_half_away. cbn [Qmult Qnum Qden]. by rewrite Pos.mul_1_r.
Qed.

Lemma round_cents_zero (q : Q) : q == 0 -> round_cents q = 0.
Proof.
  unfold Qeq. cbn [Qnum Qden]. intros H. rewrite round_cents_unfold.
  replace (Qnum q) with 0 by lia. reflexivity.
Qed.


Lemma not_zero_or_empty (v : value) : zero_or_empty v -> JS.negate v = true.
Proof.
  intros [-> | (q & -> & Hq)]; [reflexivity|].
  unfold Qeq in Hq. cbn in Hq. unfold JS.negate, truthy.
  replace (Qnum q) with 0 by lia. reflexivity.
Qed.

Lemma convert_columns_text (n ds : string) (q : Q) :
  (String.length n <= 255)%nat -> (String.length ds <= 255)%nat ->
  Z.abs (round_cents q) <= decimal_10_2_max ->
  convert_columns (VStr n) (VStr ds) (VNum q) = inr (n, ds, round_cents q).
Proof.
  intros Hn Hd Hq. unfold convert_columns, to_varchar255, to_decimal_10_2.
  apply Nat.leb_le in Hn, Hd. apply Z.leb_le in Hq. by rewrite Hn, Hd, Hq.
Qed.


Lemma sql_id_of_decimal (n : Z) : sql_id_of_param (VStr (decimal n)) = Some n.
Proof.
  unfold sql_id_of_param, decimal. rewrite NilZero.isi.
  - cbn. by rewrite DecimalZ.of_to.
  - destruct n as [|p|p]; cbn; try discriminate.
    intros [= H]. by apply DecimalPos.Unsigned.to_uint_nonnil in H.
  - destruct n as [|p|p]; cbn; try discriminate.
    intros [= H]. by apply DecimalPos.Unsigned.to_uint_nonnil in H.
Qed.

End Prices.

(** ** Create and Update with the table in reach *)

Section ServerReady.
Variable env : environment.
Variable w : world.
Variable t : table.
Hypothesis ready : server_ready env w t.

Lemma server_post_ready (body : gmap string value) (n ds : string) (p : Z) :
  validation_fails body = false ->
  convert_columns (get body "Nome") (get body "Descricao") (get body "Preco")
    = inr (n, ds, p) ->
  auto_increment t <= int_max ->
  Server.post_produtos env (VObj body) w =
    (inr {| status := 201; payload := JsonId (auto_increment t) |},
     set_database (schema env)
       (Some {| rows := rows t ++ [row (auto_increment t) n ds p];
                auto_increment := auto_increment t + 1 |})
       (attach (schema env) w),
     [(insert_sql, fields body)]).
Proof.
  intros Hv Hc Ha. rewrite (server_post_unfold env w body Hv). cbn zeta.
  rewrite (server_query env w t _ _ _ ready parse_insert). unfold fields.
  rewrite (exec_insert _ _ _ _ _ _ (current_table_attach _ _ _ (proj1 ready))), Hc.
  unfold insert_row. apply Z.leb_le in Ha. by rewrite Ha.
Qed.

Lemma server_post_refused (body : gmap string value) (e : string) :
  validation_fails body = false ->
  convert_columns (get body "Nome") (get body "Descricao") (get body "Preco") = inl e ->
  Server.post_produtos env (VObj body) w =
    (inr {| status := 500; payload := JsonError e |}, attach (schema env) w,
     [(insert_sql, fields body)]).
Proof.
  intros Hv Hc. rewrite (server_post_unfold env w body Hv). cbn zeta.
  rewrite (server_query env w t _ _ _ ready parse_insert). unfold fields.
  by rewrite (exec_insert _ _ _ _ _ _ (current_table_attach _ _ _ (proj1 ready))), Hc.
Qed.

Lemma server_post_exhausted (body : gmap string value) (n ds : string) (p : Z) :
  validation_fails body = false ->
  convert_columns (get body "Nome") (get body "Descricao") (get body "Preco")
    = inr (n, ds, p) ->
  int_max < auto_increment t ->
  status_of (answer (Server.post_produtos env (VObj body) w)) = Some 500 /\
  after (Server.post_produtos env (VObj body) w) = attach (schema env) w.
Proof.
  intros Hv Hc Ha. rewrite (server_post_unfold env w body Hv). cbn zeta.
  rewrite (server_query env w t _ _ _ ready parse_insert). unfold fields.
  rewrite (exec_insert _ _ _ _ _ _ (current_table_attach _ _ _ (proj1 ready))), Hc.
  unfold insert_row. apply Z.leb_gt in Ha. by rewrite Ha.
Qed.

Lemma server_put_ready (id : string) (k : Z) (body : gmap string value)
    (n ds : string) (p : Z) :
  validation_fails body = false ->
  convert_columns (get body "Nome") (get body "Descricao") (get body "Preco")
    = inr (n, ds, p) ->
  sql_id_of_param (VStr id) = Some k ->
  (exists r, In r (rows t) /\ Id r = k) ->
  Server.put_produtos_id env id (VObj body) w =
    (inr {| status := 200; payload := JsonMessage "Produto atualizado com sucesso" |},
     set_database (schema env)
       (Some {| rows := List.map (update_row (VStr id) n ds p) (rows t);
                auto_increment := auto_increment t |})
       (attach (schema env) w),
     [(update_sql, (fields body ++ [VStr id])%list)]).
Proof.
  intros Hv Hc Hk (r & Hr & Hid). rewrite (server_put_unfold env w id body Hv). cbn zeta.
  rewrite (server_query env w t _ _ _ ready parse_update). unfold fields. cbn [app].
  rewrite (exec_update _ _ _ _ _ _ _ (current_table_attach _ _ _ (proj1 ready))), Hc.
  destruct (List.filter (id_matches (VStr id)) (rows t)) as [|r0 found] eqn:Hf.
  - assert (Hin : In r (List.filter (id_matches (VStr id)) (rows t))).
    { apply filter_In. split; [done|]. by apply (id_matches_spec id k r Hk). }
    rewrite Hf in Hin. destruct Hin.
  - reflexivity.
Qed.

End ServerReady.

(** ** Zero as a price, zero as a name *)

(** C10. In server.js a [Preco] of 0 passes the validation: with text for
    [Nome] and [Descricao] the Create answers 201 and stores the row with
    price 0, and the Update of an existing id answers 200 and stores price 0
    in it.  A [Nome] or [Descricao] that is the empty string or the number 0
    is answered 400 by both, with nothing sent. *)
Theorem zero_price_accepted_zero_text_rejected
    (env : environment) (w : world) (t : table) (id : string) (k : Z)
    (body : gmap string value) (n ds : string) (q : Q) :
  (get body "Nome" = VStr n -> get body "Descricao" = VStr ds ->
   get body "Preco" = VNum q -> q == 0 ->
   storable_text n -> storable_text ds -> server_ready env w t ->
   validation_fails body = false /\
   (auto_increment t <= int_max ->
    answer (Server.post_produtos env (VObj body) w)
      = inr {| status := 201; payload := JsonId (auto_increment t) |} /\
    databases (after (Server.post_produtos env (VObj body) w)) !! schema env
      = Some (Some {| rows := rows t ++ [row (auto_increment t) n ds 0];
                      auto_increment := auto_increment t + 1 |})) /\
   (sql_id_of_param (VStr id) = Some k -> (exists r, In r (rows t) /\ Id r = k) ->
    answer (Server.put_produtos_id env id (VObj body) w)
      = inr {| status := 200; payload := JsonMessage "Produto atualizado com sucesso" |} /\
    databases (after (Server.put_produtos_id env id (VObj body) w)) !! schema env
      = Some (Some {| rows := List.map (update_row (VStr id) n ds 0) (rows t);
                      auto_increment := auto_increment t |}))) /\
  (zero_or_empty (get body "Nome") \/ zero_or_empty (get body "Descricao") ->
   rejected (Server.post_produtos env (VObj body) w) w /\
   rejected (Server.put_produtos_id env id (VObj body) w) w).
Proof.
  split.
  - intros HN HD HP Hq [Hn Hnl] [Hd Hdl] Hr.
    assert (Hv : validation_fails body = false).
    { unfold validation_fails. rewrite HN, HD, HP.
      by rewrite (text_truthy n Hn), (text_truthy ds Hd). }
    assert (Hc : convert_columns (get body "Nome") (get body "Descricao") (get body "Preco")
                 = inr (n, ds, 0)).
    { rewrite HN, HD, HP, <- (round_cents_zero q Hq).
      apply convert_columns_text; try assumption.
      rewrite (round_cents_zero q Hq). by vm_compute. }
    split; [exact Hv|]. split.
    + intros Ha. rewrite (server_post_ready env w t Hr body n ds 0 Hv Hc Ha).
      split; [reflexivity|]. apply lookup_insert_eq.
    + intros Hk Hex. rewrite (server_put_ready env w t Hr id k body n ds 0 Hv Hc Hk Hex).
      split; [reflexivity|]. apply lookup_insert_eq.
  - intros H.
    assert (Hv : validation_fails body = true).
    { unfold validation_fails.
      destruct H as [H | H]; rewrite (not_zero_or_empty _ H); by rewrite ?orb_true_r. }
    unfold Server.post_produtos, Server.put_produtos_id, destructure. fold (validation_fails body).
    rewrite Hv. by repeat split.
Qed.

Lemma zero_price_accepted_zero_text_rejected_witness :
  (answer (Server.post_produtos env_loja (VObj (body_of (VStr "Brinde") (VStr "Gratis") (VNum 0)))
             (world_of caneta))
     = inr {| status := 201; payload := JsonId 2 |} /\
   databases (after (Server.post_produtos env_loja
                       (VObj (body_of (VStr "Brinde") (VStr "Gratis") (VNum 0)))
                       (world_of caneta))) !! "loja"
     = Some (Some {| rows := [row 1 "Caneta" "Azul" 250; row 2 "Brinde" "Gratis" 0];
                     auto_increment := 3 |})) /\
  (answer (Server.put_produtos_id env_loja "1"
             (VObj (body_of (VStr "Brinde") (VStr "Gratis") (VNum 0))) (world_of caneta))
     = inr {| status := 200; payload := JsonMessage "Produto atualizado com sucesso" |} /\
   databases (after (Server.put_produtos_id env_loja "1"
                       (VObj (body_of (VStr "Brinde") (VStr "Gratis") (VNum 0)))
                       (world_of caneta))) !! "loja"
     = Some (Some {| rows := [row 1 "Brinde" "Gratis" 0]; auto_increment := 2 |})) /\
  (rejected (Server.post_produtos env_loja (VObj (body_of (VNum 0) (VStr "Gratis") (VNum 0)))
               (world_of caneta)) (world_of caneta) /\
   rejected (Server.put_produtos_id env_loja "1" (VObj (body_of (VNum 0) (VStr "Gratis") (VNum 0)))
               (world_of caneta)) (world_of caneta)).
Proof.
  assert (Hready : server_ready env_loja (world_of caneta) caneta)
    by (split; [by vm_compute | right; split; reflexivity]).
  destruct (zero_price_accepted_zero_text_rejected env_loja (world_of caneta) caneta "1" 1
              (body_of (VStr "Brinde") (VStr "Gratis") (VNum 0)) "Brinde" "Gratis" 0)
    as [Haccept _].
  destruct Haccept as (_ & Hpost & Hput).
  - by vm_compute.
  - by vm_compute.
  - by vm_compute.
  - reflexivity.
  - split; [discriminate | vm_compute; lia].
  - split; [discriminate | vm_compute; lia].
  - exact Hready.
  - split; [|split].
    + apply Hpost. by vm_compute.
    + apply Hput; [by vm_compute | exists (row 1 "Caneta" "Azul" 250); split; [by left | reflexivity]].
    + apply (zero_price_accepted_zero_text_rejected env_loja (world_of caneta) caneta "1" 1
               (body_of (VNum 0) (VStr "Gratis") (VNum 0)) "" "" 0).
      left. right. exists 0%Q. split; [by vm_compute | reflexivity].
Defined.

(** ** Create, then GetById *)

Section CreateThenGet.
Variable env : environment.

(** What a 201 from Create tells about the run. *)
Lemma server_post_created (w : world) (body : gmap string value) (id : Z) :
  answer (Server.post_produtos env (VObj body) w)
    = inr {| status := 201; payload := JsonId id |} ->
  validation_fails body = false /\
  exists w1 d t n ds p,
    connect (DB_NAME env) w = inr w1 /\ current_table w1 = inr (d, t) /\
    convert_columns (get body "Nome") (get body "Descricao") (get body "Preco")
      = inr (n, ds, p) /\
    id = auto_increment t /\ auto_increment t <= int_max /\
    after (Server.post_produtos env (VObj body) w) =
      set_database d
        (Some {| rows := rows t ++ [row id n ds p]; auto_increment := id + 1 |}) w1.
Proof.
  destruct (validation_fails body) eqn:Hv.
  { unfold Server.post_produtos, destructure. fold (validation_fails body). rewrite Hv. discriminate. }
  rewrite (server_post_unfold env w body Hv). cbn zeta.
  destruct (server_query_cases env w insert_sql (fields body) _ parse_insert)
    as [[e He] | (w1 & Hconn & Hq)].
  { rewrite He. discriminate. }
  rewrite Hq. unfold answer, after, fields; cbn [fst snd].
  destruct (current_table w1) as [e | [d t]] eqn:Hct.
  { rewrite (exec_without_table InsertProduto _ _ _ Hct) by tauto. discriminate. }
  rewrite (exec_insert _ _ _ _ _ _ Hct).
  destruct (convert_columns _ _ _) as [e | [[n ds] p]] eqn:Hc; [discriminate|].
  unfold insert_row. destruct (auto_increment t <=? int_max) eqn:Ha; [|discriminate].
  cbn [fst snd created_response insertId status_json]. intros [= <-].
  split; [reflexivity|]. exists w1, d, t, n, ds, p.
  apply Z.leb_le in Ha. by repeat split.
Qed.

Lemma server_get_by_id_connected (w : world) (d : string) (t : table) (id : string) :
  current_table w = inr (d, t) ->
  answer (Server.get_produtos_id env id w)
    = inr (found_response (List.filter (id_matches (VStr id)) (rows t))).
Proof.
  intros Hct. destruct (current_table_inv _ _ _ Hct) as [Hc _].
  unfold Server.get_produtos_id, try_catch, bind, Server.query, pool_query, query.
  rewrite (connect_connected _ w _ Hc), parse_select_by_Id.
  unfold exec. rewrite Hct. cbn. by destruct (List.filter _ _).
Qed.



End CreateThenGet.



(** ** InitializeSchema *)

Section InitDb.
Variable env : environment.
Hypothesis plain : plain_identifier (schema env) = true.

(** The three statements of [/init-db] always run through. *)
Lemma exec_all_init (w : world) :
  exec_all (init_statements (schema env)) w =
    (inr [ResultSetHeader 1 0; ResultSetHeader 0 0; ResultSetHeader 0 0],
     init_world (schema env) w).
Proof.
  unfold init_statements, exec_all, exec, init_world.
  set (name := schema env).
  destruct (databases w !! name) as [[t|]|] eqn:Hd;
    unfold attach, set_database, set_conn; cbn [databases conn];
    rewrite ?lookup_insert_eq, ?Hd; cbn [databases conn];
    rewrite ?lookup_insert_eq, ?Hd; try reflexivity.
  by rewrite insert_insert_eq.
Qed.

(** They leave the session on the schema with its table, and change nothing
    when that was so before. *)
Lemma init_statements_run (w : world) :
  exists rs w',
    exec_all (init_statements (schema env)) w = (inr rs, w') /\
    initialized env w' /\ (initialized env w -> w' = w).
Proof.
  eexists _, _. split; [apply exec_all_init|]. unfold init_world, initialized. split.
  - destruct (databases w !! schema env) as [[t|]|] eqn:Hd; (split; [done|]); cbn;
      rewrite ?lookup_insert_eq; by eexists.
  - intros [Hc [t Ht]]. rewrite Ht. by apply attach_attached.
Qed.

Lemma server_init_unfold (w : world) :
  Server.post_init_db env w =
    let q := Server.query env (Server.createDB env) [] w in
    (inr (init_response (answer q)), after q, sent q).
Proof.
  unfold Server.post_init_db, try_catch, bind, ret, answer, after, sent. cbn zeta.
  destruct (Server.query env _ _ w) as [[[e | r] w1] l]; cbn; by rewrite app_nil_r.
Qed.

Lemma part000_init_unfold (w : world) :
  Part000.post_init_db env w =
    let q := Part000.query (Part000.createDB env) [] w in
    (inr (init_response (answer q)), after q, sent q).
Proof.
  unfold Part000.post_init_db, try_catch, bind, ret, answer, after, sent. cbn zeta.
  destruct (Part000.query _ _ w) as [[[e | r] w1] l]; cbn; by rewrite app_nil_r.
Qed.

(** A multi-statement text on a session that is or gets connected. *)
Lemma query_init (db : option string) (sql : string) (w w0 : world) :
  parse sql = Some (init_statements (schema env)) ->
  connect db w = inr w0 ->
  exists rs w',
    query db sql [] w = (inr (Results rs), w') /\
    initialized env w' /\ (initialized env w0 -> w' = w0).
Proof.
  intros Hp Hc. unfold query. rewrite Hc, Hp.
  destruct (init_statements_run w0) as (rs & w' & He & Hi & Hsame).
  exists rs, w'. unfold init_statements in *. by rewrite He.
Qed.

Lemma server_init_succeeds (w : world) :
  answer (Server.post_init_db env w) = inr init_done ->
  initialized env (after (Server.post_init_db env w)).
Proof.
  rewrite server_init_unfold. cbn zeta.
  unfold Server.query, pool_query, answer, after.
  destruct (connect (DB_NAME env) w) as [e | w0] eqn:Hc.
  { unfold query. rewrite Hc. discriminate. }
  destruct (query_init (DB_NAME env) _ w w0 (parse_server_createDB env plain) Hc)
    as (rs & w' & Hq & Hi & _).
  by rewrite Hq.
Qed.

Lemma server_init_again (w : world) :
  initialized env w ->
  Server.post_init_db env w =
    (inr init_done, w, [(Server.createDB env, [])]).
Proof.
  intros Hi. rewrite server_init_unfold. cbn zeta.
  unfold Server.query, pool_query, answer, after, sent.
  pose proof (connect_connected (DB_NAME env) w _ (proj1 Hi)) as Hc.
  destruct (query_init (DB_NAME env) _ w w (parse_server_createDB env plain) Hc)
    as (rs & w' & Hq & _ & Hsame).
  rewrite Hq. cbn. by rewrite (Hsame Hi).
Qed.

Lemma part000_init_succeeds (w : world) :
  initialized env (after (Part000.post_init_db env w)).
Proof.
  rewrite part000_init_unfold. cbn zeta.
  unfold Part000.query, pool_query, answer, after.
  destruct (connect None w) as [e | w0] eqn:Hc.
  { unfold connect in Hc. destruct (conn w); discriminate. }
  destruct (query_init None _ w w0 (parse_part000_createDB env plain) Hc)
    as (rs & w' & Hq & Hi & _).
  by rewrite Hq.
Qed.

Lemma part000_init_again (w : world) :
  initialized env w ->
  Part000.post_init_db env w =
    (inr init_done, w, [(Part000.createDB env, [])]).
Proof.
  intros Hi. rewrite part000_init_unfold. cbn zeta.
  unfold Part000.query, pool_query, answer, after, sent.
  pose proof (connect_connected None w _ (proj1 Hi)) as Hc.
  destruct (query_init None _ w w (parse_part000_createDB env plain) Hc)
    as (rs & w' & Hq & _ & Hsame).
  rewrite Hq. cbn. by rewrite (Hsame Hi).
Qed.

Lemma serve_init_again (app : request -> M response) (w : world) (k : nat) :
  app POST_init_db w = (inr init_done, w, sent (app POST_init_db w)) ->
  serve app (replicate k POST_init_db) w = (replicate k (inr init_done), w).
Proof.
  intros Hstep. induction k as [|k IH]; [done|].
  cbn [replicate serve]. rewrite Hstep. unfold after, answer; cbn [fst snd].
  by rewrite IH.
Qed.

End InitDb.

(** C8. InitializeSchema is idempotent, in server.js and in the variant:
    for a schema name that is a plain identifier, once [POST /init-db] has
    answered 200, any number of further invocations each answer 200 and leave
    the server (schemas, tables, rows and session) exactly as the first run
    left it. *)
Theorem init_db_idempotent (env : environment) (w : world) (k : nat) :
  plain_identifier (schema env) = true ->
  (answer (Server.post_init_db env w) = inr init_done ->
   let w1 := after (Server.post_init_db env w) in
   serve (Server.app env) (replicate k POST_init_db) w1 = (replicate k (inr init_done), w1)) /\
  (answer (Part000.post_init_db env w) = inr init_done ->
   let w1 := after (Part000.post_init_db env w) in
   serve (Part000.app env) (replicate k POST_init_db) w1 = (replicate k (inr init_done), w1)).
Proof.
  intros Hp. split; intros Hok w1; apply serve_init_again; cbn [Server.app Part000.app].
  - by rewrite (server_init_again env Hp w1 (server_init_succeeds env Hp w Hok)).
  - by rewrite (part000_init_again env Hp w1 (part000_init_succeeds env Hp w)).
Qed.

Lemma init_db_idempotent_witness :
  serve (Server.app env_loja) (replicate 3 POST_init_db)
        (after (Server.post_init_db env_loja (world_of caneta)))
    = (replicate 3 (inr init_done), after (Server.post_init_db env_loja (world_of caneta))) /\
  serve (Part000.app env_loja) (replicate 3 POST_init_db)
        (after (Part000.post_init_db env_loja {| databases := ∅; conn := Disconnected |}))
    = (replicate 3 (inr init_done),
       after (Part000.post_init_db env_loja {| databases := ∅; conn := Disconnected |})).
Proof.
  split.
  - apply (init_db_idempotent env_loja (world_of caneta) 3); by vm_compute.
  - apply (init_db_idempotent env_loja {| databases := ∅; conn := Disconnected |} 3);
      by vm_compute.
Defined.

(** ** The SQL texts *)

Section Texts.
Variable env : environment.







End Texts.


(** ** List *)

Section ListCounts.
Variable env : environment.
Hypothesis plain : plain_identifier (schema env) = true.

Lemma ready_attach (w : world) (t : table) :
  server_ready env w t -> server_ready env (attach (schema env) w) t.
Proof. intros [Ht _]. split; [exact Ht | by left]. Qed.

Lemma ready_set_database (w : world) (t' : table) :
  server_ready env (set_database (schema env) (Some t') (attach (schema env) w)) t'.
Proof. split; [apply lookup_insert_eq | by left]. Qed.

Lemma server_init_ready (w : world) (t : table) :
  server_ready env w t ->
  Server.post_init_db env w =
    (inr init_done, attach (schema env) w, [(Server.createDB env, [])]).
Proof.
  intros Hr. rewrite server_init_unfold. cbn zeta.
  unfold Server.query, pool_query, answer, after, sent.
  assert (Hi : initialized env (attach (schema env) w)).
  { split; [done|]. exists t. apply Hr. }
  destruct (query_init env (DB_NAME env) _ w _
              (parse_server_createDB env plain) (server_connect env w t Hr))
    as (rs & w' & Hq & _ & Hsame).
  rewrite Hq. cbn. by rewrite (Hsame Hi).
Qed.

(** One request that is not a Delete, with the table in reach: the table
    stays in reach and has one row more exactly when a Create answered 201. *)
Lemma server_step_ready (w : world) (t : table) (req : request) :
  server_ready env w t -> is_delete req = false ->
  exists t',
    server_ready env (after (Server.app env req w)) t' /\
    length (rows t') =
      (length (rows t) + (if is_created (answer (Server.app env req w)) then 1 else 0))%nat.
Proof.
  intros Hr Hnd. destruct req as [| | |id|v|id v|id]; cbn [Server.app]; try discriminate.
  - exists t. split; [exact Hr | cbn; lia].
  - rewrite (server_init_ready w t Hr). exists t. split; [by apply ready_attach | cbn; lia].
  - rewrite (server_get_produtos_run env w t Hr). exists t.
    split; [by apply ready_attach | cbn; lia].
  - rewrite (server_get_produtos_id_run env w t id Hr). exists t.
    split; [by apply ready_attach|].
    unfold answer, found_response; cbn [fst]. destruct (List.filter _ _); cbn; lia.
  - destruct (destructure v) as [e | body] eqn:Hb.
    { rewrite (server_post_throws env v e w Hb). exists t. split; [exact Hr | cbn; lia]. }
    rewrite (server_post_object env v body Hb).
    destruct (validation_fails body) eqn:Hv.
    { unfold Server.post_produtos, destructure. fold (validation_fails body). rewrite Hv.
      exists t. split; [exact Hr | cbn; lia]. }
    destruct (convert_columns (get body "Nome") (get body "Descricao") (get body "Preco"))
      as [e | [[n ds] p]] eqn:Hc.
    { rewrite (server_post_refused env w t Hr body e Hv Hc). exists t.
      split; [by apply ready_attach | cbn; lia]. }
    destruct (Z_le_gt_dec (auto_increment t) int_max) as [Ha | Ha].
    + rewrite (server_post_ready env w t Hr body n ds p Hv Hc Ha).
      eexists. split; [apply ready_set_database|]. cbn. rewrite length_app. cbn. lia.
    + destruct (server_post_exhausted env w t Hr body n ds p Hv Hc) as [Hs Haf]; [lia|].
      rewrite Haf. exists t. split; [by apply ready_attach|].
      unfold is_created. destruct (answer _) as [e | r]; [lia|].
      cbn in Hs. injection Hs as ->. cbn. lia.
  - destruct (destructure v) as [e | body] eqn:Hb.
    { rewrite (server_put_throws env id v e w Hb). exists t. split; [exact Hr | cbn; lia]. }
    rewrite (server_put_object env id v body Hb).
    destruct (validation_fails body) eqn:Hv.
    { unfold Server.put_produtos_id, destructure. fold (validation_fails body). rewrite Hv.
      exists t. split; [exact Hr | cbn; lia]. }
    rewrite (server_put_unfold env w id body Hv). cbn zeta.
    rewrite (server_query env w t _ _ _ Hr parse_update). unfold fields. cbn [app].
    rewrite (exec_update _ _ _ _ _ _ _ (current_table_attach _ _ _ (proj1 Hr))).
    unfold after, answer; cbn [fst snd].
    destruct (List.filter (id_matches (VStr id)) (rows t)) as [|r0 found].
    { exists t. split; [by apply ready_attach | cbn; lia]. }
    destruct (convert_columns _ _ _) as [e | [[n ds] p]].
    { exists t. split; [by apply ready_attach | cbn; lia]. }
    eexists. split; [apply ready_set_database|]. cbn [fst snd rows].
    rewrite length_map. unfold changed_response, affectedRows.
    destruct (_ =? 0); cbn; lia.
Qed.

Lemma serve_counts (reqs : list request) (w : world) (t : table) :
  server_ready env w t -> forallb (fun r => negb (is_delete r)) reqs = true ->
  exists t',
    server_ready env (serve (Server.app env) reqs w).2 t' /\
    length (rows t') = (length (rows t) + created (serve (Server.app env) reqs w).1)%nat.
Proof.
  revert w t. induction reqs as [|req reqs IH]; intros w t Hr Hnd.
  - exists t. split; [exact Hr | cbn; lia].
  - cbn [forallb] in Hnd. apply andb_true_iff in Hnd as [Hd Hnd].
    apply negb_true_iff in Hd.
    destruct (server_step_ready w t req Hr Hd) as (t1 & Hr1 & Hl1).
    destruct (IH _ t1 Hr1 Hnd) as (t2 & Hr2 & Hl2).
    exists t2. cbn [serve].
    destruct (serve (Server.app env) reqs (after (Server.app env req w))) as [rs w'] eqn:Hs.
    cbn [fst snd] in *. split; [exact Hr2|].
    unfold created in *. cbn [List.filter].
    destruct (is_created (answer (Server.app env req w))); cbn [length]; lia.
Qed.

End ListCounts.

(** C5. List: with the table in reach and empty, [GET /produtos] answers 200
    with the empty array; and after any run of requests without a Delete,
    it answers 200 with exactly as many rows as Creates answered 201 in the
    run. *)
Theorem list_counts_creates
    (env : environment) (w : world) (t : table) (reqs : list request) :
  plain_identifier (schema env) = true ->
  server_ready env w t -> rows t = [] ->
  answer (Server.get_produtos env w) = inr {| status := 200; payload := JsonRows [] |} /\
  (forallb (fun r => negb (is_delete r)) reqs = true ->
   exists l,
     answer (Server.get_produtos env (serve (Server.app env) reqs w).2)
       = inr {| status := 200; payload := JsonRows l |} /\
     length l = created (serve (Server.app env) reqs w).1).
Proof.
  intros Hp Hr He. split.
  - rewrite (server_get_produtos_run env w t Hr), He. reflexivity.
  - intros Hnd. destruct (serve_counts env Hp reqs w t Hr Hnd) as (t' & Hr' & Hl).
    exists (rows t'). rewrite (server_get_produtos_run env _ t' Hr').
    split; [reflexivity|]. rewrite Hl, He. reflexivity.
Qed.


Lemma list_counts_creates_witness :
  answer (Server.get_produtos env_loja (world_of empty_table))
    = inr {| status := 200; payload := JsonRows [] |} /\
  exists l,
    answer (Server.get_produtos env_loja
              (serve (Server.app env_loja)
                 [POST_produtos (VObj (body_of (VStr "Caneta") (VStr "Azul") (VNum (25 # 10))));
                  POST_produtos (VObj (body_of (VStr "") (VStr "Azul") (VNum (25 # 10))));
                  PUT_produtos_id "1" (VObj (body_of (VStr "Lapis") (VStr "Preto") (VNum 1)));
                  POST_produtos (VObj (body_of (VStr "Borracha") (VStr "Branca") (VNum 0)))]
                 (world_of empty_table)).2)
      = inr {| status := 200; payload := JsonRows l |} /\
    length l = 2%nat.
Proof.
  destruct (list_counts_creates env_loja (world_of empty_table) empty_table
              [POST_produtos (VObj (body_of (VStr "Caneta") (VStr "Azul") (VNum (25 # 10))));
               POST_produtos (VObj (body_of (VStr "") (VStr "Azul") (VNum (25 # 10))));
               PUT_produtos_id "1" (VObj (body_of (VStr "Lapis") (VStr "Preto") (VNum 1)));
               POST_produtos (VObj (body_of (VStr "Borracha") (VStr "Branca") (VNum 0)))])
    as [Hempty Hrun].
  - by vm_compute.
  - split; [by vm_compute | right; split; reflexivity].
  - reflexivity.
  - split; [exact Hempty|]. destruct (Hrun eq_refl) as (l & Hl & Hn).
    exists l. split; [exact Hl|]. rewrite Hn. by vm_compute.
Defined.

(** ** Ids and rows over every run *)

Section TableInvariants.

Lemma well_formed_empty_table : well_formed_table empty_table.
Proof. split; [done|]. split; [apply NoDup_nil_2 | apply Forall_nil_2]. Qed.

Lemma well_formed_insert (t : table) (n ds : string) (p : Z) :
  well_formed_table t ->
  well_formed_table {| rows := rows t ++ [row (auto_increment t) n ds p];
                       auto_increment := auto_increment t + 1 |}.
Proof.
  intros (Hpos & Hnd & Hall). split; [cbn; lia|]. cbn [rows auto_increment]. split.
  - rewrite List.map_app. cbn [List.map row Id]. apply NoDup_app. split; [exact Hnd|].
    split; [|apply NoDup_singleton].
    intros i Hi Hi'. apply list_elem_of_singleton in Hi'. subst i.
    apply list_elem_of_In, in_map_iff in Hi as (r & Hr & Hin).
    rewrite List.Forall_forall in Hall. destruct (Hall r Hin) as [Hb _]. lia.
  - apply Forall_app. split.
    + eapply Forall_impl; [exact Hall|]. intros r (Hb & Hrest). split; [lia | exact Hrest].
    + apply Forall_singleton. split; [cbn; lia|]. by repeat split; eexists.
Qed.

Lemma well_formed_update (t : table) (v : value) (n ds : string) (p : Z) :
  well_formed_table t ->
  well_formed_table {| rows := List.map (update_row v n ds p) (rows t);
                       auto_increment := auto_increment t |}.
Proof.
  intros (Hpos & Hnd & Hall). split; [exact Hpos|]. cbn [rows auto_increment]. split.
  - rewrite List.map_map.
    replace (List.map (fun r => Id (update_row v n ds p r)) (rows t))
      with (List.map Id (rows t)); [exact Hnd|].
    apply List.map_ext. intros r. unfold update_row. by destruct (id_matches v r).
  - apply List.Forall_map. eapply Forall_impl; [exact Hall|].
    intros r (Hb & Hrest). unfold update_row. destruct (id_matches v r).
    + split; [exact Hb|]. by repeat split; eexists.
    + by split.
Qed.

Lemma NoDup_map_filter {A B} (f : A -> B) (g : A -> bool) (l : list A) :
  NoDup (List.map f l) -> NoDup (List.map f (List.filter g l)).
Proof.
  induction l as [|x l IH]; [done|]. cbn. intros Hnd.
  apply NoDup_cons in Hnd as [Hx Hnd]. destruct (g x); [|by apply IH].
  cbn. apply NoDup_cons. split; [|by apply IH].
  intros Hin. apply Hx. apply list_elem_of_In in Hin. apply list_elem_of_In.
  apply in_map_iff in Hin as (y & Hy & Hin). apply filter_In in Hin as [Hin _].
  apply in_map_iff. by exists y.
Qed.

Lemma well_formed_delete (t : table) (g : produto -> bool) :
  well_formed_table t ->
  well_formed_table {| rows := List.filter g (rows t); auto_increment := auto_increment t |}.
Proof.
  intros (Hpos & Hnd & Hall). split; [exact Hpos|]. cbn [rows auto_increment]. split.
  - by apply NoDup_map_filter.
  - rewrite List.Forall_forall in Hall. apply List.Forall_forall.
    intros r Hr. apply filter_In in Hr as [Hr _]. by apply Hall.
Qed.

Lemma well_formed_set_table (w : world) (d : string) (t : table) :
  well_formed w -> well_formed_table t -> well_formed (set_database d (Some t) w).
Proof.
  intros Hw Ht d' t'. unfold set_database; cbn [databases].
  rewrite lookup_insert. case_decide; [by intros [= <-] | apply Hw].
Qed.

End TableInvariants.

Section RunInvariant.
Variable env : environment.
Hypothesis plain : plain_identifier (schema env) = true.

Lemma invariant_initial (w : world) : initial w -> invariant env w [].
Proof.
  intros [Hc Hempty]. split; [|split; [|split]].
  - intros d t Hd. rewrite (Hempty d t Hd). apply well_formed_empty_table.
  - intros d Hd. rewrite Hc in Hd. discriminate.
  - unfold ids_below. destruct (databases w !! schema env) as [[t|]|]; [apply Forall_nil_2|done|done].
  - apply NoDup_nil_2.
Qed.

Lemma invariant_connect (w w1 : world) (ids : list Z) :
  connect (DB_NAME env) w = inr w1 -> invariant env w ids -> invariant env w1 ids.
Proof.
  unfold connect. intros Hc (Hwf & Hs & Hb & Hnd).
  destruct (conn w) as [|c] eqn:Hconn; [|by injection Hc as <-].
  destruct (DB_NAME env) as [d|] eqn:Hd.
  - destruct (databases w !! d); [|discriminate]. injection Hc as <-.
    split; [exact Hwf|]. split; [|by split].
    intros d' [= <-]. unfold schema. by rewrite Hd.
  - injection Hc as <-. split; [exact Hwf|]. split; [|by split]. intros d' [=].
Qed.

Lemma invariant_set_table (w : world) (t' : table) (ids ids' : list Z) :
  invariant env w ids -> well_formed_table t' ->
  Forall (fun i => 0 < i < auto_increment t') ids' -> NoDup ids' ->
  invariant env (set_database (schema env) (Some t') w) ids'.
Proof.
  intros (Hwf & Hs & _ & _) Ht Hb Hnd. split; [by apply well_formed_set_table|].
  split; [exact Hs|]. split; [|exact Hnd].
  unfold ids_below, set_database; cbn [databases]. by rewrite lookup_insert_eq.
Qed.

Lemma invariant_table (w : world) (d : string) (t : table) (ids : list Z) :
  invariant env w ids -> current_table w = inr (d, t) ->
  d = schema env /\ well_formed_table t /\
  Forall (fun i => 0 < i < auto_increment t) ids.
Proof.
  intros (Hwf & Hs & Hb & _) Hct. destruct (current_table_inv _ _ _ Hct) as [Hc Hd].
  pose proof (Hs d Hc) as ->. split; [done|]. split; [by apply (Hwf (schema env))|].
  unfold ids_below in Hb. by rewrite Hd in Hb.
Qed.

Lemma exec_invariant (w : world) (ids : list Z) (st : statement) (params : list value) :
  well_bound st params -> invariant env w ids ->
  invariant env (exec st params w).2 (ids ++ new_ids st (exec st params w).1).
Proof.
  intros Hbound Hinv.
  destruct (current_table w) as [e | [d t]] eqn:Hct.
  { rewrite (exec_without_table st params w e Hct) by (destruct Hbound; tauto).
    cbn [fst snd]. destruct st; by rewrite app_nil_r. }
  destruct (invariant_table w d t ids Hinv Hct) as (-> & Hwt & Hids).
  pose proof Hinv as (_ & _ & _ & Hnd).
  destruct Hbound as [|v|n ds p|n ds p v|v].
  - unfold exec. rewrite Hct. cbn. by rewrite app_nil_r.
  - unfold exec. rewrite Hct. cbn. by rewrite app_nil_r.
  - rewrite (exec_insert _ _ _ _ _ _ Hct).
    destruct (convert_columns n ds p) as [e | [[n' ds'] p']]; [cbn; by rewrite app_nil_r|].
    unfold insert_row. destruct (auto_increment t <=? int_max); [|cbn; by rewrite app_nil_r].
    cbn [fst snd new_ids insertId].
    apply (invariant_set_table w _ ids); [exact Hinv | by apply well_formed_insert | |].
    + cbn [auto_increment]. apply Forall_app. split.
      * eapply Forall_impl; [exact Hids|]. cbn. lia.
      * apply Forall_singleton. destruct Hwt as [Hpos _]. lia.
    + apply NoDup_app. split; [exact Hnd|]. split; [|apply NoDup_singleton].
      intros i Hi Hi'. apply list_elem_of_singleton in Hi'. subst i.
      rewrite Forall_forall in Hids. specialize (Hids _ Hi). lia.
  - rewrite (exec_update _ _ _ _ _ _ _ Hct).
    destruct (List.filter (id_matches v) (rows t)); [cbn; by rewrite app_nil_r|].
    destruct (convert_columns n ds p) as [e | [[n' ds'] p']]; [cbn; by rewrite app_nil_r|].
    cbn [fst snd new_ids]. rewrite app_nil_r.
    apply (invariant_set_table w _ ids); [exact Hinv | by apply well_formed_update | exact Hids | exact Hnd].
  - rewrite (exec_delete _ _ _ _ Hct).
    destruct (List.filter (id_matches v) (rows t)); [cbn; by rewrite app_nil_r|].
    cbn [fst snd new_ids]. rewrite app_nil_r.
    apply (invariant_set_table w _ ids); [exact Hinv | by apply well_formed_delete | exact Hids | exact Hnd].
Qed.

Lemma server_query_invariant
    (w : world) (ids : list Z) (sql : string) (params : list value) (st : statement) :
  parse sql = Some [st] -> well_bound st params -> invariant env w ids ->
  invariant env (after (Server.query env sql params w))
    (ids ++ new_ids st (answer (Server.query env sql params w))).
Proof.
  intros Hp Hb Hinv.
  destruct (server_query_cases env w sql params st Hp) as [[e ->] | (w1 & Hc & ->)].
  - unfold after, answer; cbn. destruct st; by rewrite app_nil_r.
  - unfold after, answer; cbn [fst snd].
    apply exec_invariant; [exact Hb | by apply (invariant_connect w)].
Qed.

Lemma invariant_init_world (w : world) (ids : list Z) :
  invariant env w ids -> invariant env (init_world (schema env) w) ids.
Proof.
  intros Hinv. pose proof Hinv as (Hwf & Hs & Hb & Hnd). unfold init_world.
  assert (Hatt : invariant env (attach (schema env) w) ids).
  { split; [exact Hwf|]. split; [|by split]. by intros d [= <-]. }
  unfold ids_below in Hb.
  destruct (databases w !! schema env) as [[t|]|] eqn:Hd; [exact Hatt| |]; subst ids;
    (apply (invariant_set_table _ _ []);
       [exact Hatt | apply well_formed_empty_table | apply Forall_nil_2 | apply NoDup_nil_2]).
Qed.

End RunInvariant.

Section ServerInvariant.
Variable env : environment.
Hypothesis plain : plain_identifier (schema env) = true.

Lemma server_list_unfold (w : world) :
  Server.get_produtos env w =
    let q := Server.query env "SELECT * FROM produto" [] w in
    (inr (list_response (answer q)), after q, sent q).
Proof.
  unfold Server.get_produtos, try_catch, bind, ret, answer, after, sent. cbn zeta.
  destruct (Server.query env _ _ w) as [[[e | r] w1] l]; cbn; by rewrite app_nil_r.
Qed.

Lemma server_get_unfold (id : string) (w : world) :
  Server.get_produtos_id env id w =
    let q := Server.query env "SELECT * FROM produto WHERE Id = ?" [VStr id] w in
    (inr (get_response (answer q)), after q, sent q).
Proof.
  unfold Server.get_produtos_id, try_catch, bind, ret, answer, after, sent. cbn zeta.
  destruct (Server.query env _ _ w) as [[[e | r] w1] l]; cbn; [by rewrite app_nil_r|].
  destruct (rows_of r); cbn; by rewrite app_nil_r.
Qed.

Lemma server_init_invariant (w : world) (ids : list Z) :
  invariant env w ids ->
  invariant env (after (Server.post_init_db env w))
    (ids ++ issued_by (answer (Server.post_init_db env w))).
Proof.
  intros Hinv. rewrite server_init_unfold. cbn zeta.
  unfold Server.query, pool_query, query.
  destruct (connect (DB_NAME env) w) as [e | w1] eqn:Hc.
  { unfold after, answer; cbn. by rewrite app_nil_r. }
  rewrite (parse_server_createDB env plain). fold (init_statements (schema env)).
  rewrite exec_all_init. unfold after, answer; cbn. rewrite app_nil_r.
  apply invariant_init_world. by apply (invariant_connect env w).
Qed.

(** One request keeps the invariant, with the id it handed out added. *)
Lemma server_step_invariant (w : world) (ids : list Z) (req : request) :
  invariant env w ids ->
  invariant env (after (Server.app env req w))
    (ids ++ issued_by (answer (Server.app env req w))).
Proof.
  intros Hinv. destruct req as [| | |id|v|id v|id]; cbn [Server.app].
  - unfold after, answer; cbn. by rewrite app_nil_r.
  - by apply server_init_invariant.
  - rewrite server_list_unfold. cbn zeta.
    pose proof (server_query_invariant env w ids _ [] _ parse_select_all
                  bound_select_all Hinv) as H.
    cbn [new_ids] in H. rewrite app_nil_r in H.
    unfold after at 1, answer at 1; cbn [fst snd].
    destruct (answer (Server.query env _ _ w)); cbn; by rewrite app_nil_r.
  - rewrite server_get_unfold. cbn zeta.
    pose proof (server_query_invariant env w ids _ [VStr id] _ parse_select_by_Id
                  (bound_select_by_id _) Hinv) as H.
    cbn [new_ids] in H. rewrite app_nil_r in H.
    unfold after at 1, answer at 1; cbn [fst snd].
    destruct (answer (Server.query env _ _ w)) as [e | r]; cbn; [by rewrite app_nil_r|].
    destruct (rows_of r); cbn; by rewrite app_nil_r.
  - destruct (destructure v) as [e | body] eqn:Hb.
    { rewrite (server_post_throws _ _ _ _ Hb). unfold after, answer; cbn. by rewrite app_nil_r. }
    rewrite (server_post_object _ _ _ Hb).
    destruct (validation_fails body) eqn:Hv.
    { unfold Server.post_produtos, destructure. fold (validation_fails body). rewrite Hv.
      unfold after, answer; cbn. by rewrite app_nil_r. }
    rewrite (server_post_unfold env w body Hv). cbn zeta.
    pose proof (server_query_invariant env w ids insert_sql (fields body) _ parse_insert
                  (bound_insert _ _ _) Hinv) as H.
    unfold after at 1, answer at 1; cbn [fst snd].
    by destruct (answer (Server.query env _ _ w)).
  - destruct (destructure v) as [e | body] eqn:Hb.
    { rewrite (server_put_throws _ _ _ _ _ Hb). unfold after, answer; cbn. by rewrite app_nil_r. }
    rewrite (server_put_object _ _ _ _ Hb).
    destruct (validation_fails body) eqn:Hv.
    { unfold Server.put_produtos_id, destructure. fold (validation_fails body). rewrite Hv.
      unfold after, answer; cbn. by rewrite app_nil_r. }
    rewrite (server_put_unfold env w id body Hv). cbn zeta.
    pose proof (server_query_invariant env w ids update_sql (fields body ++ [VStr id])%list
                  _ parse_update (bound_update _ _ _ _) Hinv) as H.
    cbn [new_ids] in H. rewrite app_nil_r in H.
    unfold after at 1, answer at 1; cbn [fst snd].
    destruct (answer (Server.query env _ _ w)) as [e | r]; cbn; [by rewrite app_nil_r|].
    destruct (affectedRows r =? 0); cbn; by rewrite app_nil_r.
  - rewrite (server_delete_unfold env w id). cbn zeta.
    pose proof (server_query_invariant env w ids delete_sql [VStr id]
                  _ parse_delete (bound_delete _) Hinv) as H.
    cbn [new_ids] in H. rewrite app_nil_r in H.
    unfold after at 1, answer at 1; cbn [fst snd].
    destruct (answer (Server.query env _ _ w)) as [e | r]; cbn; [by rewrite app_nil_r|].
    destruct (affectedRows r =? 0); cbn; by rewrite app_nil_r.
Qed.

Lemma serve_invariant (reqs : list request) (w : world) (ids : list Z) :
  invariant env w ids ->
  invariant env (serve (Server.app env) reqs w).2
    (ids ++ issued (serve (Server.app env) reqs w).1).
Proof.
  revert w ids. induction reqs as [|req reqs IH]; intros w ids Hinv.
  - cbn. by rewrite app_nil_r.
  - cbn [serve].
    pose proof (IH _ _ (server_step_invariant w ids req Hinv)) as H.
    destruct (serve (Server.app env) reqs (after (Server.app env req w))) as [rs w'].
    cbn [fst snd issued flat_map] in *. by rewrite <- app_assoc in H.
Qed.

End ServerInvariant.

(** C7. Over every run of server.js from a server that has stored nothing
    yet (schema name a plain identifier): the ids answered by the Creates
    that succeeded are positive and pairwise distinct, so none was issued
    before; and in the state reached every table has pairwise distinct ids
    and no NULL in [Nome], [Descricao] or [Preco]. *)
Theorem ids_fresh_rows_well_formed
    (env : environment) (w0 : world) (reqs : list request) :
  plain_identifier (schema env) = true ->
  initial w0 ->
  Forall (fun i => 0 < i) (issued (serve (Server.app env) reqs w0).1) /\
  NoDup (issued (serve (Server.app env) reqs w0).1) /\
  well_formed (serve (Server.app env) reqs w0).2.
Proof.
  intros Hp Hi.
  destruct (serve_invariant env Hp reqs w0 [] (invariant_initial env w0 Hi))
    as (Hwf & _ & Hb & Hnd).
  cbn [app] in Hb, Hnd. split; [|by split].
  unfold ids_below in Hb.
  destruct (databases _ !! schema env) as [[t|]|].
  - eapply Forall_impl; [exact Hb|]. cbn. lia.
  - rewrite Hb. apply Forall_nil_2.
  - rewrite Hb. apply Forall_nil_2.
Qed.

Lemma ids_fresh_rows_well_formed_witness :
  let run :=
    serve (Server.app env_loja)
      [POST_produtos (VObj (body_of (VStr "Caneta") (VStr "Azul") (VNum (25 # 10))));
       DELETE_produtos_id "1";
       POST_produtos (VObj (body_of (VStr "Lapis") (VStr "Preto") (VNum 1)))]
      (world_of empty_table) in
  issued run.1 = [1; 2] /\
  Forall (fun i => 0 < i) (issued run.1) /\ NoDup (issued run.1) /\ well_formed run.2.
Proof.
  cbv zeta. split; [by vm_compute|].
  apply (ids_fresh_rows_well_formed env_loja (world_of empty_table)); [by vm_compute|].
  split; [reflexivity|]. intros d t Hd. unfold world_of in Hd; cbn in Hd.
  by apply lookup_singleton_Some in Hd as [_ [= <-]].
Defined.

(** The run of the service's documentation: a Create, the row read back, its
    Delete, and the row gone. *)
Example caneta_scenario :
  (serve (Server.app env_loja)
     [POST_produtos (VObj (body_of (VStr "Caneta") (VStr "Azul") (VNum (250 # 100))));
      GET_produtos_id "1"; DELETE_produtos_id "1"; GET_produtos_id "1"]
     (world_of empty_table)).1
  = [inr {| status := 201; payload := JsonId 1 |};
     inr {| status := 200; payload := JsonRow (row 1 "Caneta" "Azul" 250) |};
     inr {| status := 200; payload := JsonMessage "Produto deletado com sucesso" |};
     inr {| status := 404; payload := JsonError not_found |}].
Proof. by vm_compute. Qed.

(** * Further properties of the handlers *)

Ltac run_handler :=
  unfold try_catch, bind, ret, Server.query, Part000.query, pool_query, answer, after, sent;
  repeat match goal with
         | |- context [MySQL.query ?d ?s ?p ?w] =>
             destruct (MySQL.query d s p w) as [[? | ?] ?]; cbn
         | |- context [if ?b then _ else _] => destruct b; cbn
         | |- context [match rows_of ?r with _ => _ end] => destruct (rows_of r); cbn
         end.

(** ** Every request is answered *)

Section Answers.
Variable env : environment.

Lemma has_body_destructure (v : value) :
  negb (loose_eq_null v) = true -> destructure v = inr (object_of v).
Proof. intros H%negb_true_iff. by apply destructure_given. Qed.

Lemma no_body_destructure (v : value) :
  negb (loose_eq_null v) = false -> exists e, destructure v = inl e.
Proof. intros H%negb_false_iff. by apply destructure_not_given. Qed.

Lemma server_throws_without_body (req : request) (w : world) :
  has_body req = false -> thrown (Server.app env req w) w.
Proof.
  destruct req as [| | |id|v|id v|id]; try discriminate; cbn [has_body Server.app];
    intros [e He]%no_body_destructure.
  - rewrite (server_post_throws env v e w He). split; [by eexists | done].
  - rewrite (server_put_throws env id v e w He). split; [by eexists | done].
Qed.

Lemma part000_throws_without_body (req : request) (w : world) :
  has_body req = false -> thrown (Part000.app env req w) w.
Proof.
  destruct req as [| | |id|v|id v|id]; try discriminate; cbn [has_body Part000.app];
    intros [e He]%no_body_destructure.
  - rewrite (part000_post_throws env v e w He). split; [by eexists | done].
  - rewrite (part000_put_throws env id v e w He). split; [by eexists | done].
Qed.

End Answers.

(** X1. server.js answers every request whose body it can destructure: no
    error of the database escapes a handler, and the status is one of those
    of its route.  A Create or Update that comes with [req.body] undefined
    or null is not answered by its handler: the destructuring before the
    [try] throws, nothing is sent and the server stays as it was. *)
Theorem server_always_answers (env : environment) (req : request) (w : world) :
  (has_body req = true ->
   exists resp,
     answer (Server.app env req w) = inr resp /\
     In (status resp) (server_statuses (route_of req))) /\
  (has_body req = false -> thrown (Server.app env req w) w).
Proof.
  split; [|apply server_throws_without_body].
  destruct req as [| | |id|v|id v|id];
    cbn [has_body Server.app route_of server_statuses]; intros Hb;
    try (apply has_body_destructure in Hb);
    unfold Server.get_root, Server.post_init_db, Server.get_produtos,
      Server.get_produtos_id, Server.post_produtos, Server.put_produtos_id,
      Server.delete_produtos_id; rewrite ?Hb;
    run_handler; eexists; (split; [reflexivity|]); cbn; tauto.
Qed.

Lemma server_always_answers_witness :
  (exists resp,
     answer (Server.app env_loja (POST_produtos (VObj ∅)) (world_of caneta)) = inr resp /\
     In (status resp) [201; 400; 500]) /\
  thrown (Server.app env_loja (POST_produtos VUndefined) (world_of caneta)) (world_of caneta).
Proof.
  split.
  - destruct (server_always_answers env_loja (POST_produtos (VObj ∅)) (world_of caneta))
      as [Hanswered _].
    apply Hanswered. reflexivity.
  - destruct (server_always_answers env_loja (POST_produtos VUndefined) (world_of caneta))
      as [_ Hthrown].
    apply Hthrown. reflexivity.
Defined.

(** X2. The variant answers every request of a route it registers whose body
    it can destructure, with a status of the route and never 400.  Its Create
    and Update throw as those of server.js do when [req.body] is undefined or
    null: no answer of the handler, nothing sent, the server as it was. *)
Theorem part000_always_answers (env : environment) (req : request) (w : world) :
  req <> GET_root ->
  (has_body req = true ->
   exists resp,
     answer (Part000.app env req w) = inr resp /\
     In (status resp) (part000_statuses (route_of req)) /\ status resp <> 400) /\
  (has_body req = false -> thrown (Part000.app env req w) w).
Proof.
  intros Hroute. split; [|apply part000_throws_without_body].
  destruct req as [| | |id|v|id v|id]; [done| | | | | |];
    cbn [has_body Part000.app route_of part000_statuses]; intros Hb;
    try (apply has_body_destructure in Hb);
    unfold Part000.post_init_db, Part000.get_produtos,
      Part000.get_produtos_id, Part000.post_produtos, Part000.put_produtos_id,
      Part000.delete_produtos_id; rewrite ?Hb;
    run_handler; eexists; (split; [reflexivity|]); cbn; (split; [tauto | lia]).
Qed.

Lemma part000_always_answers_witness :
  (exists resp,
     answer (Part000.app env_loja (PUT_produtos_id "1" (VObj ∅)) (world_of caneta))
       = inr resp /\
     In (status resp) [200; 404; 500] /\ status resp <> 400) /\
  thrown (Part000.app env_loja (PUT_produtos_id "1" VUndefined) (world_of caneta))
    (world_of caneta).
Proof.
  split.
  - destruct (part000_always_answers env_loja (PUT_produtos_id "1" (VObj ∅)) (world_of caneta))
      as [Hanswered _]; [discriminate|].
    apply Hanswered. reflexivity.
  - destruct (part000_always_answers env_loja (PUT_produtos_id "1" VUndefined)
                (world_of caneta)) as [_ Hthrown]; [discriminate|].
    apply Hthrown. reflexivity.
Defined.

(** ** When the tables change *)

Section TablesChange.
Variable env : environment.

(** A bound statement changes the schemas only when it succeeds as an
    INSERT, UPDATE or DELETE that touched a row; it never moves the session. *)
Lemma exec_changes (st : statement) (params : list value) (w : world) :
  well_bound st params ->
  conn (exec st params w).2 = conn w /\
  (databases (exec st params w).2 = databases w \/
   exists a i, (exec st params w).1 = inr (ResultSetHeader a i) /\ a <> 0 /\
               st <> SelectAll /\ st <> SelectById).
Proof.
  intros Hb. destruct (current_table w) as [e | [d t]] eqn:Hct.
  { rewrite (exec_without_table st params w e Hct) by (destruct Hb; tauto).
    split; [done | by left]. }
  destruct Hb as [|v|n ds p|n ds p v|v].
  - unfold exec. rewrite Hct. split; [done | by left].
  - unfold exec. rewrite Hct. split; [done | by left].
  - rewrite (exec_insert _ _ _ _ _ _ Hct).
    destruct (convert_columns n ds p) as [e | [[n' ds'] p']]; [split; [done | by left]|].
    unfold insert_row. destruct (auto_increment t <=? int_max); [|split; [done | by left]].
    split; [done|]. right. eexists _, _. by repeat split.
  - rewrite (exec_update _ _ _ _ _ _ _ Hct).
    destruct (List.filter (id_matches v) (rows t)) as [|r0 found]; [split; [done | by left]|].
    destruct (convert_columns n ds p) as [e | [[n' ds'] p']]; [split; [done | by left]|].
    split; [done|]. right. eexists _, _. split; [reflexivity|]. split; [|done].
    cbn [length]. lia.
  - rewrite (exec_delete _ _ _ _ Hct).
    destruct (List.filter (id_matches v) (rows t)) as [|r0 found]; [split; [done | by left]|].
    split; [done|]. right. eexists _, _. split; [reflexivity|]. split; [|done].
    cbn [length]. lia.
Qed.

Lemma server_query_changes (w : world) (sql : string) (params : list value) (st : statement) :
  parse sql = Some [st] -> well_bound st params ->
  databases (after (Server.query env sql params w)) = databases w \/
  exists a i, answer (Server.query env sql params w) = inr (ResultSetHeader a i) /\ a <> 0 /\
              st <> SelectAll /\ st <> SelectById.
Proof.
  intros Hp Hb.
  destruct (server_query_cases env w sql params st Hp) as [[e ->] | (w1 & Hc & ->)];
    [by left|].
  unfold after, answer; cbn [fst snd].
  destruct (connect_outcome w _ _ Hc) as [Hd _].
  destruct (exec_changes st params w1 Hb) as [_ [H | H]]; [left; congruence | by right].
Qed.

Lemma server_reads_leave_tables (req : request) (w : world) :
  is_read req = true -> databases (after (Server.app env req w)) = databases w.
Proof.
  destruct req as [| | |id|v|id v|id]; try discriminate; intros _; cbn [Server.app].
  - reflexivity.
  - rewrite server_list_unfold. cbn zeta. unfold after at 1; cbn [fst snd].
    destruct (server_query_changes w _ [] _ parse_select_all bound_select_all)
      as [H | (a & i & _ & _ & Hn & _)]; [exact H | done].
  - rewrite server_get_unfold. cbn zeta. unfold after at 1; cbn [fst snd].
    destruct (server_query_changes w _ [VStr id] _ parse_select_by_Id (bound_select_by_id _))
      as [H | (a & i & _ & _ & _ & Hn)]; [exact H | done].
Qed.

Lemma server_refused_writes_leave_tables (req : request) (w : world) :
  is_write req = true ->
  status_of (answer (Server.app env req w)) <> Some 200 ->
  status_of (answer (Server.app env req w)) <> Some 201 ->
  databases (after (Server.app env req w)) = databases w.
Proof.
  destruct req as [| | |id|v|id v|id]; try discriminate; intros _; cbn [Server.app].
  - destruct (destructure v) as [e | body] eqn:Hb.
    { by rewrite (server_post_throws _ _ _ _ Hb). }
    rewrite (server_post_object _ _ _ Hb).
    destruct (validation_fails body) eqn:Hv.
    { unfold Server.post_produtos, destructure. fold (validation_fails body). by rewrite Hv. }
    rewrite (server_post_unfold env w body Hv). cbn zeta.
    unfold after at 1; cbn [fst snd]. intros _ H201.
    unfold answer at 1 in H201; cbn [fst snd] in H201.
    destruct (server_query_changes w insert_sql (fields body) _ parse_insert
                (bound_insert _ _ _)) as [H | (a & i & Ha & _)]; [exact H|].
    rewrite Ha in H201. by destruct H201.
  - destruct (destructure v) as [e | body] eqn:Hb.
    { by rewrite (server_put_throws _ _ _ _ _ Hb). }
    rewrite (server_put_object _ _ _ _ Hb).
    destruct (validation_fails body) eqn:Hv.
    { unfold Server.put_produtos_id, destructure. fold (validation_fails body). by rewrite Hv. }
    rewrite (server_put_unfold env w id body Hv). cbn zeta.
    unfold after at 1; cbn [fst snd]. intros H200 _.
    unfold answer at 1 in H200; cbn [fst snd] in H200.
    destruct (server_query_changes w update_sql (fields body ++ [VStr id])%list _ parse_update
                (bound_update _ _ _ _)) as [H | (a & i & Ha & Hne & _)]; [exact H|].
    rewrite Ha in H200. cbn in H200. apply Z.eqb_neq in Hne. rewrite Hne in H200.
    by destruct H200.
  - rewrite (server_delete_unfold env w id). cbn zeta.
    unfold after at 1; cbn [fst snd]. intros H200 _.
    unfold answer at 1 in H200; cbn [fst snd] in H200.
    destruct (server_query_changes w delete_sql [VStr id] _ parse_delete
                (bound_delete _)) as [H | (a & i & Ha & Hne & _)]; [exact H|].
    rewrite Ha in H200. cbn in H200. apply Z.eqb_neq in Hne. rewrite Hne in H200.
    by destruct H200.
Qed.

End TablesChange.

(** X3. In server.js the tables change only through a Create, Update or
    Delete that is answered 2xx: a request that only reads leaves every
    schema and table as it was, and so does a Create, Update or Delete
    answered 400, 404 or 500. *)
Theorem server_tables_change_only_on_success
    (env : environment) (req : request) (w : world) :
  (is_read req = true -> databases (after (Server.app env req w)) = databases w) /\
  (is_write req = true ->
   status_of (answer (Server.app env req w)) <> Some 200 ->
   status_of (answer (Server.app env req w)) <> Some 201 ->
   databases (after (Server.app env req w)) = databases w).
Proof.
  split; [apply server_reads_leave_tables | apply server_refused_writes_leave_tables].
Qed.

Lemma server_tables_change_only_on_success_witness :
  databases (after (Server.app env_loja (GET_produtos_id "1") (world_of caneta)))
    = databases (world_of caneta) /\
  databases (after (Server.app env_loja (DELETE_produtos_id "9") (world_of caneta)))
    = databases (world_of caneta).
Proof.
  split.
  - destruct (server_tables_change_only_on_success env_loja (GET_produtos_id "1")
                (world_of caneta)) as [Hread _].
    apply Hread. reflexivity.
  - destruct (server_tables_change_only_on_success env_loja (DELETE_produtos_id "9")
                (world_of caneta)) as [_ Hwrite].
    apply Hwrite; [reflexivity | by vm_compute | by vm_compute].
Defined.

(** ** Update, Delete and Create against the table *)

Section ServerTable.
Variable env : environment.
Variable w : world.
Variable t : table.
Hypothesis ready : server_ready env w t.

Lemma storable_pass (body : gmap string value) (n ds : string) (q : Q) :
  storable body n ds q ->
  validation_fails body = false /\
  convert_columns (get body "Nome") (get body "Descricao") (get body "Preco")
    = inr (n, ds, round_cents q).
Proof.
  intros (HN & HD & HP & [Hn Hnl] & [Hd Hdl] & Hq). split.
  - unfold validation_fails. rewrite HN, HD, HP.
    by rewrite (text_truthy n Hn), (text_truthy ds Hd).
  - rewrite HN, HD, HP. by apply convert_columns_text.
Qed.

Lemma update_row_overwrite (id : string) (k : Z) (n ds : string) (c : Z) (r : produto) :
  sql_id_of_param (VStr id) = Some k ->
  update_row (VStr id) n ds c r = overwrite k n ds c r.
Proof.
  intros Hk. unfold update_row, overwrite, id_matches. rewrite Hk.
  destruct (Id r =? k) eqn:He; [|done]. apply Z.eqb_eq in He. by rewrite He.
Qed.

Lemma id_matches_eqb (id : string) (k : Z) (r : produto) :
  sql_id_of_param (VStr id) = Some k -> id_matches (VStr id) r = (Id r =? k).
Proof. unfold id_matches. by intros ->. Qed.

Lemma server_update_run (id : string) (k : Z) (body : gmap string value)
    (n ds : string) (q : Q) :
  storable body n ds q ->
  sql_id_of_param (VStr id) = Some k ->
  (exists r, In r (rows t) /\ Id r = k) ->
  Server.put_produtos_id env id (VObj body) w =
    (inr {| status := 200; payload := JsonMessage "Produto atualizado com sucesso" |},
     set_database (schema env)
       (Some (set_rows t (List.map (overwrite k n ds (round_cents q)) (rows t))))
       (attach (schema env) w),
     [(update_sql, (fields body ++ [VStr id])%list)]).
Proof.
  intros Hs Hk Hex. destruct (storable_pass body n ds q Hs) as [Hv Hc].
  rewrite (server_put_ready env w t ready id k body n ds _ Hv Hc Hk Hex).
  assert (Hmap : List.map (update_row (VStr id) n ds (round_cents q)) (rows t)
                 = List.map (overwrite k n ds (round_cents q)) (rows t)).
  { apply List.map_ext. intros r. by apply update_row_overwrite. }
  unfold set_rows. by rewrite Hmap.
Qed.

Lemma server_delete_run (id : string) (k : Z) :
  sql_id_of_param (VStr id) = Some k ->
  (exists r, In r (rows t) /\ Id r = k) ->
  Server.delete_produtos_id env id w =
    (inr {| status := 200; payload := JsonMessage "Produto deletado com sucesso" |},
     set_database (schema env)
       (Some (set_rows t (List.filter (fun r => negb (Id r =? k)) (rows t))))
       (attach (schema env) w),
     [(delete_sql, [VStr id])]).
Proof.
  intros Hk (r & Hr & Hid). rewrite (server_delete_unfold env w id). cbn zeta.
  rewrite (server_query env w t _ _ _ ready parse_delete).
  rewrite (exec_delete _ _ _ _ (current_table_attach _ _ _ (proj1 ready))).
  destruct (List.filter (id_matches (VStr id)) (rows t)) as [|r0 found] eqn:Hf.
  - assert (Hin : In r (List.filter (id_matches (VStr id)) (rows t))).
    { apply filter_In. split; [done|]. by apply (id_matches_spec id k r Hk). }
    rewrite Hf in Hin. destruct Hin.
  - unfold answer, after, sent, set_rows; cbn [fst snd changed_response affectedRows].
    replace (Z.of_nat (length (r0 :: found)) =? 0) with false
      by (symmetry; apply Z.eqb_neq; cbn [length]; lia).
    assert (Hkeep : List.filter (fun r => negb (id_matches (VStr id) r)) (rows t)
                    = List.filter (fun r => negb (Id r =? k)) (rows t)).
    { apply List.filter_ext. intros r'. by rewrite (id_matches_eqb id k r' Hk). }
    by rewrite Hkeep.
Qed.

Lemma server_delete_absent (id : string) (k : Z) :
  sql_id_of_param (VStr id) = Some k ->
  (forall r, In r (rows t) -> Id r <> k) ->
  Server.delete_produtos_id env id w =
    (inr {| status := 404; payload := JsonError not_found |},
     attach (schema env) w, [(delete_sql, [VStr id])]).
Proof.
  intros Hk Hnone. rewrite (server_delete_unfold env w id). cbn zeta.
  rewrite (server_query env w t _ _ _ ready parse_delete).
  rewrite (exec_delete _ _ _ _ (current_table_attach _ _ _ (proj1 ready))).
  by rewrite (no_row_matches t id k Hk Hnone).
Qed.

Lemma first_match_overwritten (id : string) (k : Z) (n ds : string) (c : Z)
    (rs : list produto) :
  sql_id_of_param (VStr id) = Some k ->
  (exists r, In r rs /\ Id r = k) ->
  exists rest,
    List.filter (id_matches (VStr id)) (List.map (overwrite k n ds c) rs)
      = row k n ds c :: rest.
Proof.
  intros Hk. induction rs as [|r rs IH]; intros (r' & Hin & Hid); [destruct Hin|].
  cbn [List.map List.filter]. rewrite (id_matches_eqb id k _ Hk).
  destruct (Id r =? k) eqn:He.
  - assert (Ho : overwrite k n ds c r = row k n ds c) by (unfold overwrite; by rewrite He).
    rewrite Ho. cbn [Id row]. rewrite Z.eqb_refl. eexists. reflexivity.
  - assert (Ho : overwrite k n ds c r = r) by (unfold overwrite; by rewrite He).
    rewrite Ho, He. apply IH. destruct Hin as [-> | Hin]; [|by exists r'].
    apply Z.eqb_neq in He. contradiction.
Qed.

End ServerTable.

(** X4. Update in server.js: with the table in reach, fields the columns
    take and an integer id some row carries, [PUT /produtos/{id}] answers 200
    and overwrites [Nome], [Descricao] and [Preco] (rounded to hundredths) of
    the row with that id, in place; every other row, the counter and every
    other schema stay as they were.  GetById of that id then answers the
    row with the new values. *)
Theorem update_overwrites_the_row
    (env : environment) (w : world) (t : table) (id : string) (k : Z)
    (body : gmap string value) (n ds : string) (q : Q) :
  server_ready env w t ->
  storable body n ds q ->
  sql_id_of_param (VStr id) = Some k ->
  (exists r, In r (rows t) /\ Id r = k) ->
  answer (Server.put_produtos_id env id (VObj body) w)
    = inr {| status := 200; payload := JsonMessage "Produto atualizado com sucesso" |} /\
  databases (after (Server.put_produtos_id env id (VObj body) w))
    = <[schema env :=
          Some (set_rows t (List.map (overwrite k n ds (round_cents q)) (rows t)))]>
        (databases w) /\
  answer (Server.get_produtos_id env id (after (Server.put_produtos_id env id (VObj body) w)))
    = inr {| status := 200; payload := JsonRow (row k n ds (round_cents q)) |}.
Proof.
  intros Hr Hs Hk Hex. rewrite (server_update_run env w t Hr id k body n ds q Hs Hk Hex).
  split; [reflexivity|]. split; [reflexivity|].
  unfold after; cbn [fst snd].
  rewrite (server_get_produtos_id_run env _ _ id (ready_set_database env _ _)).
  unfold set_rows; cbn [rows answer fst].
  destruct (first_match_overwritten id k n ds (round_cents q) (rows t) Hk Hex) as [rest ->].
  reflexivity.
Qed.

Lemma update_overwrites_the_row_witness :
  answer (Server.put_produtos_id env_loja "1"
            (VObj (body_of (VStr "Lapis") (VStr "Preto") (VNum (199 # 100)))) (world_of caneta))
    = inr {| status := 200; payload := JsonMessage "Produto atualizado com sucesso" |} /\
  answer (Server.get_produtos_id env_loja "1"
            (after (Server.put_produtos_id env_loja "1"
                      (VObj (body_of (VStr "Lapis") (VStr "Preto") (VNum (199 # 100))))
                      (world_of caneta))))
    = inr {| status := 200; payload := JsonRow (row 1 "Lapis" "Preto" 199) |}.
Proof.
  destruct (update_overwrites_the_row env_loja (world_of caneta) caneta "1" 1
              (body_of (VStr "Lapis") (VStr "Preto") (VNum (199 # 100)))
              "Lapis" "Preto" (199 # 100)) as (Hput & _ & Hget).
  - split; [by vm_compute | right; split; reflexivity].
  - repeat split; try (by vm_compute); try discriminate; vm_compute; lia.
  - by vm_compute.
  - exists (row 1 "Caneta" "Azul" 250). split; [by left | reflexivity].
  - split; [exact Hput | exact Hget].
Defined.

(** X5. Delete in server.js: with the table in reach and an integer id,
    [DELETE /produtos/{id}] answers 200 and removes the rows with that id
    when there is one, leaving the other rows, their order and the counter;
    it answers 404 and changes no table when there is none. *)
Theorem delete_removes_the_row
    (env : environment) (w : world) (t : table) (id : string) (k : Z) :
  server_ready env w t ->
  sql_id_of_param (VStr id) = Some k ->
  ((exists r, In r (rows t) /\ Id r = k) ->
   answer (Server.delete_produtos_id env id w)
     = inr {| status := 200; payload := JsonMessage "Produto deletado com sucesso" |} /\
   databases (after (Server.delete_produtos_id env id w))
     = <[schema env := Some (set_rows t (List.filter (fun r => negb (Id r =? k)) (rows t)))]>
         (databases w)) /\
  ((forall r, In r (rows t) -> Id r <> k) ->
   answer (Server.delete_produtos_id env id w)
     = inr {| status := 404; payload := JsonError not_found |} /\
   databases (after (Server.delete_produtos_id env id w)) = databases w).
Proof.
  intros Hr Hk. split.
  - intros Hex. by rewrite (server_delete_run env w t Hr id k Hk Hex).
  - intros Hnone. by rewrite (server_delete_absent env w t Hr id k Hk Hnone).
Qed.

Lemma delete_removes_the_row_witness :
  answer (Server.delete_produtos_id env_loja "1" (world_of caneta))
    = inr {| status := 200; payload := JsonMessage "Produto deletado com sucesso" |} /\
  answer (Server.delete_produtos_id env_loja "2" (world_of caneta))
    = inr {| status := 404; payload := JsonError not_found |}.
Proof.
  assert (Hready : server_ready env_loja (world_of caneta) caneta)
    by (split; [by vm_compute | right; split; reflexivity]).
  split.
  - destruct (delete_removes_the_row env_loja (world_of caneta) caneta "1" 1 Hready eq_refl)
      as [Hfound _].
    apply Hfound. exists (row 1 "Caneta" "Azul" 250). split; [by left | reflexivity].
  - destruct (delete_removes_the_row env_loja (world_of caneta) caneta "2" 2 Hready eq_refl)
      as [_ Habsent].
    apply Habsent. intros r [<- | []]. by vm_compute.
Defined.

(** ** What follows a Delete and a Create *)

(** X6. After [DELETE /produtos/{id}] has answered 200 in server.js,
    GetById of the same id answers 404. *)
Theorem deleted_row_is_gone (env : environment) (w : world) (id : string) :
  answer (Server.delete_produtos_id env id w)
    = inr {| status := 200; payload := JsonMessage "Produto deletado com sucesso" |} ->
  answer (Server.get_produtos_id env id (after (Server.delete_produtos_id env id w)))
    = inr {| status := 404; payload := JsonError not_found |}.
Proof.
  rewrite (server_delete_unfold env w id). cbn zeta.
  destruct (server_query_cases env w delete_sql [VStr id] _ parse_delete)
    as [[e He] | (w0 & Hconn & Hq)].
  { rewrite He. discriminate. }
  rewrite Hq. unfold answer at 1, after; cbn [fst snd].
  destruct (current_table w0) as [e | [d t]] eqn:Hct.
  { rewrite (exec_without_table DeleteProduto _ _ _ Hct) by tauto. discriminate. }
  rewrite (exec_delete _ _ _ _ Hct).
  destruct (List.filter (id_matches (VStr id)) (rows t)) as [|r0 found] eqn:Hf.
  { discriminate. }
  cbn [fst snd]. intros _.
  destruct (current_table_inv _ _ _ Hct) as [Hcd _].
  rewrite (server_get_by_id_connected env _ d _ id
             (current_table_set_database w0 d _ Hcd)).
  cbn [rows]. by rewrite filter_after_filter_out.
Qed.

Lemma deleted_row_is_gone_witness :
  answer (Server.get_produtos_id env_loja "1"
            (after (Server.delete_produtos_id env_loja "1" (world_of caneta))))
    = inr {| status := 404; payload := JsonError not_found |}.
Proof.
  apply (deleted_row_is_gone env_loja (world_of caneta) "1"). by vm_compute.
Defined.

(** X7. After a Create of fields the columns take, List in server.js answers
    the rows that were there, unchanged and in their order, followed by the
    new row under the id the Create answered. *)
Theorem created_row_is_listed
    (env : environment) (w : world) (t : table)
    (body : gmap string value) (n ds : string) (q : Q) :
  server_ready env w t ->
  storable body n ds q ->
  auto_increment t <= int_max ->
  answer (Server.post_produtos env (VObj body) w)
    = inr {| status := 201; payload := JsonId (auto_increment t) |} /\
  answer (Server.get_produtos env (after (Server.post_produtos env (VObj body) w)))
    = inr {| status := 200;
             payload := JsonRows (rows t ++ [row (auto_increment t) n ds (round_cents q)]) |}.
Proof.
  intros Hr Hs Ha. destruct (storable_pass body n ds q Hs) as [Hv Hc].
  rewrite (server_post_ready env w t Hr body n ds _ Hv Hc Ha).
  split; [reflexivity|]. unfold after; cbn [fst snd].
  by rewrite (server_get_produtos_run env _ _ (ready_set_database env _ _)).
Qed.

Lemma created_row_is_listed_witness :
  answer (Server.get_produtos env_loja
            (after (Server.post_produtos env_loja
                      (VObj (body_of (VStr "Lapis") (VStr "Preto") (VNum (199 # 100))))
                      (world_of caneta))))
    = inr {| status := 200;
             payload := JsonRows [row 1 "Caneta" "Azul" 250; row 2 "Lapis" "Preto" 199] |}.
Proof.
  destruct (created_row_is_listed env_loja (world_of caneta) caneta
              (body_of (VStr "Lapis") (VStr "Preto") (VNum (199 # 100)))
              "Lapis" "Preto" (199 # 100)) as [_ Hlist].
  - split; [by vm_compute | right; split; reflexivity].
  - repeat split; try (by vm_compute); try discriminate; vm_compute; lia.
  - by vm_compute.
  - exact Hlist.
Defined.



(** ** The validation, value by value *)

Section Validation.
Variable env : environment.

Lemma negate_falsy (v : value) : JS.negate v = true <-> falsy v.
Proof.
  unfold JS.negate, truthy, falsy. destruct v as [| |b|q|s|l|o]; cbn.
  - split; [tauto | done].
  - split; [tauto | done].
  - destruct b; cbn; split; try tauto; try done.
    intros [H | [H | [H | [H | (q & H & _)]]]]; discriminate.
  - rewrite negb_involutive, Z.eqb_eq. split.
    + intros H. do 4 right. exists q. split; [done|]. unfold Qeq. cbn. lia.
    + intros [H | [H | [H | [H | (q' & [= <-] & Hq)]]]]; try discriminate.
      unfold Qeq in Hq. cbn in Hq. lia.
  - destruct s; cbn; split; try tauto; try done.
    intros [H | [H | [H | [H | (q & H & _)]]]]; discriminate.
  - split; [done|]. intros [H | [H | [H | [H | (q & H & _)]]]]; discriminate.
  - split; [done|]. intros [H | [H | [H | [H | (q & H & _)]]]]; discriminate.
Qed.

Lemma loose_eq_null_nullish (v : value) : loose_eq_null v = true <-> nullish v.
Proof.
  unfold nullish. destruct v; cbn; split; try tauto; try done;
    intros [H | H]; discriminate.
Qed.

Lemma validation_fails_iff (body : gmap string value) :
  validation_fails body = true <->
  falsy (get body "Nome") \/ falsy (get body "Descricao") \/ nullish (get body "Preco").
Proof.
  unfold validation_fails. rewrite !orb_true_iff, !negate_falsy, loose_eq_null_nullish.
  tauto.
Qed.

Lemma server_query_sent (sql : string) (params : list value) (w : world) :
  sent (Server.query env sql params w) = [(sql, params)].
Proof.
  unfold Server.query, pool_query, sent. by destruct (query _ _ _ _).
Qed.

Lemma created_response_not_400 (o : string + result) : status (created_response o) <> 400.
Proof. by destruct o. Qed.

Lemma changed_response_not_400 (done : string) (o : string + result) :
  status (changed_response done o) <> 400.
Proof. destruct o as [e | r]; cbn; [done|]. by destruct (affectedRows r =? 0). Qed.

End Validation.

Lemma validation_of_object
    (env : environment) (id : string) (body : gmap string value) (w : world) :
  (status_of (answer (Server.post_produtos env (VObj body) w)) = Some 400
     <-> validation_fails body = true) /\
  (status_of (answer (Server.put_produtos_id env id (VObj body) w)) = Some 400
     <-> validation_fails body = true) /\
  sent (Server.post_produtos env (VObj body) w) =
    (if validation_fails body then []
     else [(insert_sql, [get body "Nome"; get body "Descricao"; get body "Preco"])]) /\
  sent (Server.put_produtos_id env id (VObj body) w) =
    (if validation_fails body then []
     else [(update_sql, [get body "Nome"; get body "Descricao"; get body "Preco"; VStr id])]).
Proof.
  destruct (validation_fails body) eqn:Hv.
  - unfold Server.post_produtos, Server.put_produtos_id, destructure.
    fold (validation_fails body). rewrite Hv. by repeat split.
  - rewrite (server_post_unfold env w body Hv), (server_put_unfold env w id body Hv).
    cbn zeta. unfold answer at 1 3, sent at 1 3; cbn [fst snd status_of].
    rewrite !server_query_sent. split; [|split; [|by split]].
    + split; [|discriminate]. intros [= H]. by apply created_response_not_400 in H.
    + split; [|discriminate]. intros [= H]. by apply changed_response_not_400 in H.
Qed.

(** X9. The check of Create and Update in server.js, value by value.  With
    [req.body] undefined or null the handler throws before the check and
    sends nothing.  With any other body, read as the object [o] of its
    fields, the request is answered 400 exactly when [Nome] or [Descricao] is
    undefined, null, false, 0 or the empty string, or [Preco] is undefined or
    null (a [Preco] of false, 0 or the empty string passes).  Then nothing is
    sent; otherwise exactly one statement is sent, with [Nome], [Descricao]
    and [Preco] bound in that order, and the id last for Update. *)
Theorem validation_decides_what_is_sent
    (env : environment) (id : string) (body : value) (w : world) :
  (loose_eq_null body = true ->
   thrown (Server.post_produtos env body w) w /\
   thrown (Server.put_produtos_id env id body w) w) /\
  (loose_eq_null body = false ->
   let o := object_of body in
   (validation_fails o = true <->
    falsy (get o "Nome") \/ falsy (get o "Descricao") \/ nullish (get o "Preco")) /\
   (status_of (answer (Server.post_produtos env body w)) = Some 400
      <-> validation_fails o = true) /\
   (status_of (answer (Server.put_produtos_id env id body w)) = Some 400
      <-> validation_fails o = true) /\
   sent (Server.post_produtos env body w) =
     (if validation_fails o then []
      else [(insert_sql, [get o "Nome"; get o "Descricao"; get o "Preco"])]) /\
   sent (Server.put_produtos_id env id body w) =
     (if validation_fails o then []
      else [(update_sql, [get o "Nome"; get o "Descricao"; get o "Preco"; VStr id])])).
Proof.
  split.
  - intros Hb. destruct (handlers_throw_without_body env id body w Hb) as (H1 & H2 & _).
    by split.
  - intros Hb%destructure_given. cbv zeta.
    rewrite (server_post_object env body _ Hb), (server_put_object env id body _ Hb).
    split; [apply validation_fails_iff | apply validation_of_object].
Qed.

Lemma validation_decides_what_is_sent_witness :
  (thrown (Server.post_produtos env_loja VUndefined (world_of caneta)) (world_of caneta) /\
   thrown (Server.put_produtos_id env_loja "1" VUndefined (world_of caneta))
     (world_of caneta)) /\
  (status_of (answer (Server.post_produtos env_loja (VArr []) (world_of caneta))) = Some 400
   <-> validation_fails ∅ = true).
Proof.
  split.
  - destruct (validation_decides_what_is_sent env_loja "1" VUndefined (world_of caneta))
      as [Hthrown _].
    apply Hthrown. reflexivity.
  - destruct (validation_decides_what_is_sent env_loja "1" (VArr []) (world_of caneta))
      as [_ Hchecked].
    destruct Hchecked as (_ & Hpost & _); [reflexivity|]. exact Hpost.
Defined.

(** ** server.js without its schema *)

Section NoSchema.
Variable env : environment.
Variable w : world.
Variable d : string.
Hypothesis configured : DB_NAME env = Some d.
Hypothesis closed : conn w = Disconnected.
Hypothesis missing : databases w !! d = None.

Lemma server_query_no_schema (sql : string) (params : list value) :
  Server.query env sql params w =
    (inl ("Unknown database '" +:+ d +:+ "'"), w, [(sql, params)]).
Proof.
  unfold Server.query, pool_query, query, connect.
  by rewrite closed, configured, missing.
Qed.

End NoSchema.

(** X10. The pool of server.js names [DB_NAME] as its schema, so while the
    server has no schema of that name no connection opens: every request whose
    handler reaches the pool, [POST /init-db] included, is answered 500 with
    the message of the database, and the server stays as it was. *)
Theorem server_js_needs_its_schema
    (env : environment) (w : world) (d : string) (req : request) :
  DB_NAME env = Some d -> conn w = Disconnected -> databases w !! d = None ->
  after (Server.app env req w) = w /\
  (reaches_database req = true ->
   answer (Server.app env req w)
     = inr {| status := 500;
              payload := JsonError ("Unknown database '" +:+ d +:+ "'") |}).
Proof.
  intros Hd Hc Hm.
  pose proof (server_query_no_schema env w d Hd Hc Hm) as Hq.
  destruct req as [| | |id|v|id v|id]; cbn [Server.app reaches_database].
  - by split.
  - rewrite server_init_unfold. cbn zeta. by rewrite Hq.
  - rewrite server_list_unfold. cbn zeta. by rewrite Hq.
  - rewrite server_get_unfold. cbn zeta. by rewrite Hq.
  - destruct (destructure v) as [e | body] eqn:Hb.
    { by rewrite (server_post_throws env v e w Hb). }
    rewrite (server_post_object env v body Hb).
    destruct (validation_fails body) eqn:Hv.
    { unfold Server.post_produtos, destructure. fold (validation_fails body). by rewrite Hv. }
    rewrite (server_post_unfold env w body Hv). cbn zeta. by rewrite Hq.
  - destruct (destructure v) as [e | body] eqn:Hb.
    { by rewrite (server_put_throws env id v e w Hb). }
    rewrite (server_put_object env id v body Hb).
    destruct (validation_fails body) eqn:Hv.
    { unfold Server.put_produtos_id, destructure. fold (validation_fails body). by rewrite Hv. }
    rewrite (server_put_unfold env w id body Hv). cbn zeta. by rewrite Hq.
  - rewrite (server_delete_unfold env w id). cbn zeta. by rewrite Hq.
Qed.

Lemma server_js_needs_its_schema_witness :
  after (Server.app env_loja POST_init_db {| databases := ∅; conn := Disconnected |})
    = {| databases := ∅; conn := Disconnected |} /\
  answer (Server.app env_loja POST_init_db {| databases := ∅; conn := Disconnected |})
    = inr {| status := 500; payload := JsonError "Unknown database 'loja'" |}.
Proof.
  destruct (server_js_needs_its_schema env_loja {| databases := ∅; conn := Disconnected |}
              "loja" POST_init_db) as [Hafter Hanswer].
  - reflexivity.
  - reflexivity.
  - by vm_compute.
  - split; [exact Hafter | by apply Hanswer].
Defined.

(** ** The variant, statement by statement *)

Section Part000Schema.
Variable env : environment.
Variable w : world.
Hypothesis plain : plain_identifier (schema env) = true.

(** The [USE] every product handler starts with either finds no schema of
    the configured name or leaves the session on it. *)
Lemma part000_use_missing :
  databases w !! schema env = None ->
  exists w0,
    Part000.query (Part000.use_db env) [] w =
      (inl ("Unknown database '" +:+ schema env +:+ "'"), w0, [(Part000.use_db env, [])]) /\
    databases w0 = databases w.
Proof.
  intros Hd. unfold Part000.query, pool_query, query.
  rewrite (parse_use_db env plain). unfold connect.
  destruct (conn w); cbn; rewrite Hd; by eexists.
Qed.

Lemma part000_use_found :
  is_Some (databases w !! schema env) ->
  Part000.query (Part000.use_db env) [] w =
    (inr (ResultSetHeader 0 0), attach (schema env) w, [(Part000.use_db env, [])]).
Proof.
  intros [o Hd]. unfold Part000.query, pool_query, query.
  rewrite (parse_use_db env plain). unfold connect.
  destruct (conn w); cbn; by rewrite Hd.
Qed.

Hypothesis found : is_Some (databases w !! schema env).

Lemma part000_list_exec :
  Part000.get_produtos env w =
    (inr (list_response (exec SelectAll [] (attach (schema env) w)).1),
     (exec SelectAll [] (attach (schema env) w)).2,
     [(Part000.use_db env, []); ("SELECT * FROM produto", [])]).
Proof.
  unfold Part000.get_produtos, try_catch, bind.
  rewrite (part000_use_found found).
  rewrite (part000_query w _ _ _ _ parse_select_all).
  by destruct (exec SelectAll [] (attach (schema env) w)) as [[e | r] w1].
Qed.

Lemma part000_get_exec (id : string) :
  Part000.get_produtos_id env id w =
    (inr (get_response (exec SelectById [VStr id] (attach (schema env) w)).1),
     (exec SelectById [VStr id] (attach (schema env) w)).2,
     [(Part000.use_db env, []); ("SELECT * FROM produto WHERE id = ?", [VStr id])]).
Proof.
  unfold Part000.get_produtos_id, try_catch, bind.
  rewrite (part000_use_found found).
  rewrite (part000_query w _ _ _ _ parse_select_by_id).
  destruct (exec SelectById _ (attach (schema env) w)) as [[e | r] w1]; cbn; [done|].
  by destruct (rows_of r).
Qed.

Lemma part000_post_run (body : gmap string value) :
  Part000.post_produtos env (VObj body) w =
    (inr (created_response (exec InsertProduto (fields body) (attach (schema env) w)).1),
     (exec InsertProduto (fields body) (attach (schema env) w)).2,
     [(Part000.use_db env, []); (insert_sql, fields body)]).
Proof.
  unfold Part000.post_produtos, try_catch, bind, destructure. cbn zeta.
  rewrite (part000_use_found found).
  rewrite (part000_query w _ _ _ _ parse_insert). fold (fields body).
  by destruct (exec InsertProduto (fields body) (attach (schema env) w)) as [[e | r] w1].
Qed.

Lemma part000_put_run (id : string) (body : gmap string value) :
  Part000.put_produtos_id env id (VObj body) w =
    (inr (changed_response "Produto atualizado com sucesso"
            (exec UpdateProduto (fields body ++ [VStr id])%list (attach (schema env) w)).1),
     (exec UpdateProduto (fields body ++ [VStr id])%list (attach (schema env) w)).2,
     [(Part000.use_db env, []); (update_sql, (fields body ++ [VStr id])%list)]).
Proof.
  unfold Part000.put_produtos_id, try_catch, bind, destructure. cbn zeta.
  rewrite (part000_use_found found).
  rewrite (part000_query w _ _ _ _ parse_update).
  change [get body "Nome"; get body "Descricao"; get body "Preco"; VStr id]
    with (fields body ++ [VStr id])%list.
  destruct (exec UpdateProduto _ (attach (schema env) w)) as [[e | r] w1]; cbn; [done|].
  by destruct (affectedRows r =? 0).
Qed.

Lemma part000_delete_run (id : string) :
  Part000.delete_produtos_id env id w =
    (inr (changed_response "Produto deletado com sucesso"
            (exec DeleteProduto [VStr id] (attach (schema env) w)).1),
     (exec DeleteProduto [VStr id] (attach (schema env) w)).2,
     [(Part000.use_db env, []); (delete_sql, [VStr id])]).
Proof.
  unfold Part000.delete_produtos_id, try_catch, bind.
  rewrite (part000_use_found found).
  rewrite (part000_query w _ _ _ _ parse_delete).
  destruct (exec DeleteProduto _ (attach (schema env) w)) as [[e | r] w1]; cbn; [done|].
  by destruct (affectedRows r =? 0).
Qed.

End Part000Schema.

(** ** Create and Update with a field missing *)

Section Unchecked.
Variable env : environment.
Variable w : world.

Lemma part000_post_unchecked (body : gmap string value) :
  sent_unchecked env (Part000.post_produtos env (VObj body) w) insert_sql (fields body).
Proof.
  unfold sent_unchecked, Part000.post_produtos, destructure, try_catch, bind,
    Part000.query, pool_query, ret, insert_sql, fields.
  cbn zeta.
  destruct (query None (Part000.use_db env) [] w) as [[e | r] w1]; cbn;
    [split; [done | by left]|].
  destruct (query None _ _ w1) as [[e | r'] w2]; cbn; (split; [done | by right]).
Qed.

Lemma part000_put_unchecked (id : string) (body : gmap string value) :
  sent_unchecked env (Part000.put_produtos_id env id (VObj body) w) update_sql
    (fields body ++ [VStr id])%list.
Proof.
  unfold sent_unchecked, Part000.put_produtos_id, destructure, try_catch, bind,
    Part000.query, pool_query, ret, update_sql, fields.
  cbn zeta.
  destruct (query None (Part000.use_db env) [] w) as [[e | r] w1]; cbn;
    [split; [done | by left]|].
  destruct (query None _ _ w1) as [[e | r'] w2]; cbn; [split; [done | by right]|].
  destruct (affectedRows r' =? 0); cbn; (split; [done | by right]).
Qed.

End Unchecked.

(** C1, as the code has it.  In server.js a Create or Update whose body
    can be destructured and lacks [Nome] or [Descricao] (absent or empty) or
    [Preco] (absent or null) is answered 400 with no statement sent and the
    server untouched.  When [req.body] itself is undefined or null, neither
    program answers 400: the destructuring before the check throws, the
    handler answers nothing, sends nothing and stores nothing.  The variant
    has no check: whatever fields the body holds, its Create and Update never
    answer 400 and send [USE] first; either [USE] failed, which is answered
    500, or the INSERT or UPDATE follows with the three fields bound as they
    were read; with a schema of the configured name on the server it always
    follows. *)
Theorem missing_field_rejected_in_server_js
    (env : environment) (id : string) (body : value) (w : world) :
  (loose_eq_null body = false -> missing_field (object_of body) ->
   rejected (Server.post_produtos env body w) w /\
   rejected (Server.put_produtos_id env id body w) w) /\
  (loose_eq_null body = true ->
   thrown (Server.post_produtos env body w) w /\
   thrown (Server.put_produtos_id env id body w) w /\
   thrown (Part000.post_produtos env body w) w /\
   thrown (Part000.put_produtos_id env id body w) w) /\
  (loose_eq_null body = false ->
   sent_unchecked env (Part000.post_produtos env body w)
     insert_sql (fields (object_of body)) /\
   sent_unchecked env (Part000.put_produtos_id env id body w)
     update_sql (fields (object_of body) ++ [VStr id])%list /\
   (plain_identifier (schema env) = true -> is_Some (databases w !! schema env) ->
    sent (Part000.post_produtos env body w)
      = [(Part000.use_db env, []); (insert_sql, fields (object_of body))] /\
    sent (Part000.put_produtos_id env id body w)
      = [(Part000.use_db env, []);
         (update_sql, (fields (object_of body) ++ [VStr id])%list)])).
Proof.
  split; [|split].
  - intros Hb%destructure_given H. apply missing_field_fails_validation in H.
    rewrite (server_post_object env body _ Hb), (server_put_object env id body _ Hb).
    unfold Server.post_produtos, Server.put_produtos_id, destructure. rewrite H.
    by repeat split.
  - apply handlers_throw_without_body.
  - intros Hb%destructure_given.
    rewrite (part000_post_object env body _ Hb), (part000_put_object env id body _ Hb).
    split; [apply part000_post_unchecked|]. split; [apply part000_put_unchecked|].
    intros Hp Hf.
    by rewrite (part000_post_run env w Hp Hf), (part000_put_run env w Hp Hf).
Qed.

Lemma missing_field_rejected_in_server_js_witness :
  let body := VObj (body_of (VStr "") (VStr "Azul") VNull) in
  (rejected (Server.post_produtos env_loja body (world_of caneta)) (world_of caneta) /\
   rejected (Server.put_produtos_id env_loja "1" body (world_of caneta)) (world_of caneta)) /\
  (thrown (Server.post_produtos env_loja VUndefined (world_of caneta)) (world_of caneta) /\
   thrown (Part000.post_produtos env_loja VUndefined (world_of caneta)) (world_of caneta)) /\
  sent (Part000.post_produtos env_loja body (world_of caneta))
    = [("USE `loja`", []); (insert_sql, [VStr ""; VStr "Azul"; VNull])].
Proof.
  cbv zeta. split; [|split].
  - destruct (missing_field_rejected_in_server_js env_loja "1"
                (VObj (body_of (VStr "") (VStr "Azul") VNull)) (world_of caneta))
      as [Hrejected _].
    apply Hrejected; [reflexivity|]. left. right. by vm_compute.
  - destruct (missing_field_rejected_in_server_js env_loja "1" VUndefined (world_of caneta))
      as (_ & Hthrown & _).
    destruct Hthrown as (Hpost & _ & Hvariant & _); [reflexivity|]. by split.
  - destruct (missing_field_rejected_in_server_js env_loja "1"
                (VObj (body_of (VStr "") (VStr "Azul") VNull)) (world_of caneta))
      as (_ & _ & Hvariant).
    destruct Hvariant as (_ & _ & Hsent); [reflexivity|].
    destruct Hsent as [Hpost _]; [by vm_compute | vm_compute; by eexists |].
    exact Hpost.
Defined.

(** C1 as stated fails on the variant: a Create with an empty [Nome] is not
    answered 400; statements are sent and the row is stored. *)
Lemma missing_field_stored_by_variant :
  let body := body_of (VStr "") (VStr "Azul") (VNum (25 # 10)) in
  let r := Part000.post_produtos env_loja (VObj body) (world_of empty_table) in
  missing_field body /\
  ~ rejected r (world_of empty_table) /\
  answer r = inr {| status := 201; payload := JsonId 1 |} /\
  map fst (sent r) =
    ["USE `loja`"; "INSERT INTO produto (Nome, Descricao, Preco) VALUES (?, ?, ?)"] /\
  databases (after r) !! "loja" =
    Some (Some {| rows := [row 1 "" "Azul" 250]; auto_increment := 2 |}).
Proof.
  cbv zeta. split; [left; right; by vm_compute|].
  split; [intros (H & _); vm_compute in H; discriminate H|].
  repeat split; by vm_compute.
Qed.

Section Part000Ready.
Variable env : environment.
Variable w : world.
Variable t : table.
Hypothesis ready : part000_ready env w t.

Lemma part000_ready_found : is_Some (databases w !! schema env).
Proof. destruct ready as [_ Ht]. by eexists. Qed.

Lemma part000_list_run :
  Part000.get_produtos env w =
    (inr (json (JsonRows (rows t))), attach (schema env) w,
     [(Part000.use_db env, []); ("SELECT * FROM produto", [])]).
Proof.
  rewrite (part000_list_exec env w (proj1 ready) part000_ready_found).
  unfold exec. by rewrite (current_table_attach _ _ _ (proj2 ready)).
Qed.

Lemma part000_init_ready :
  Part000.post_init_db env w =
    (inr init_done, attach (schema env) w, [(Part000.createDB env, [])]).
Proof.
  destruct ready as [Hp Ht]. rewrite part000_init_unfold. cbn zeta.
  unfold Part000.query, pool_query, query.
  rewrite (parse_part000_createDB env Hp). fold (init_statements (schema env)).
  assert (Hconn : exists w0, connect None w = inr w0 /\ databases w0 = databases w
                             /\ attach (schema env) w0 = attach (schema env) w).
  { unfold connect. destruct (conn w); eexists; by repeat split. }
  destruct Hconn as (w0 & -> & Hd & Hatt).
  rewrite (exec_all_init env w0). unfold init_world. rewrite Hd, Ht, Hatt. reflexivity.
Qed.

End Part000Ready.

Section ServerExec.
Variable env : environment.
Variable w : world.
Variable t : table.
Hypothesis ready : server_ready env w t.

Lemma server_post_exec (body : gmap string value) :
  validation_fails body = false ->
  Server.post_produtos env (VObj body) w =
    (inr (created_response (exec InsertProduto (fields body) (attach (schema env) w)).1),
     (exec InsertProduto (fields body) (attach (schema env) w)).2,
     [(insert_sql, fields body)]).
Proof.
  intros Hv. rewrite (server_post_unfold env w body Hv). cbn zeta.
  by rewrite (server_query env w t _ _ _ ready parse_insert).
Qed.

Lemma server_put_exec (id : string) (body : gmap string value) :
  validation_fails body = false ->
  Server.put_produtos_id env id (VObj body) w =
    (inr (changed_response "Produto atualizado com sucesso"
            (exec UpdateProduto (fields body ++ [VStr id])%list (attach (schema env) w)).1),
     (exec UpdateProduto (fields body ++ [VStr id])%list (attach (schema env) w)).2,
     [(update_sql, (fields body ++ [VStr id])%list)]).
Proof.
  intros Hv. rewrite (server_put_unfold env w id body Hv). cbn zeta.
  by rewrite (server_query env w t _ _ _ ready parse_update).
Qed.

Lemma server_delete_exec (id : string) :
  Server.delete_produtos_id env id w =
    (inr (changed_response "Produto deletado com sucesso"
            (exec DeleteProduto [VStr id] (attach (schema env) w)).1),
     (exec DeleteProduto [VStr id] (attach (schema env) w)).2,
     [(delete_sql, [VStr id])]).
Proof.
  rewrite (server_delete_unfold env w id). cbn zeta.
  by rewrite (server_query env w t _ _ _ ready parse_delete).
Qed.

End ServerExec.

(** X11. The two programs agree behind the validation: with the schema
    name a plain identifier and the table in reach, every request that
    reaches the database in server.js gets the same answer from the variant
    and leaves the server in the same state. *)
Theorem variant_agrees_behind_the_validation
    (env : environment) (w : world) (t : table) (req : request) :
  plain_identifier (schema env) = true ->
  server_ready env w t ->
  reaches_database req = true ->
  answer (Part000.app env req w) = answer (Server.app env req w) /\
  after (Part000.app env req w) = after (Server.app env req w).
Proof.
  intros Hp Hs Hreach.
  assert (Hv : part000_ready env w t) by (split; [exact Hp | apply Hs]).
  pose proof (part000_ready_found env w t Hv) as Hf.
  destruct req as [| | |id|v|id v|id]; cbn [Part000.app Server.app];
    cbn [reaches_database] in Hreach; try discriminate.
  - by rewrite (part000_init_ready env w t Hv), (server_init_ready env Hp w t Hs).
  - by rewrite (part000_list_run env w t Hv), (server_get_produtos_run env w t Hs).
  - by rewrite (part000_get_produtos_id_run env w t id Hv),
         (server_get_produtos_id_run env w t id Hs).
  - destruct (destructure v) as [e | body] eqn:Hb; [discriminate|].
    rewrite (part000_post_object env v body Hb), (server_post_object env v body Hb).
    apply negb_true_iff in Hreach.
    by rewrite (part000_post_run env w Hp Hf), (server_post_exec env w t Hs body Hreach).
  - destruct (destructure v) as [e | body] eqn:Hb; [discriminate|].
    rewrite (part000_put_object env id v body Hb), (server_put_object env id v body Hb).
    apply negb_true_iff in Hreach.
    by rewrite (part000_put_run env w Hp Hf), (server_put_exec env w t Hs id body Hreach).
  - by rewrite (part000_delete_run env w Hp Hf), (server_delete_exec env w t Hs).
Qed.

Lemma variant_agrees_behind_the_validation_witness :
  answer (Part000.app env_loja (DELETE_produtos_id "1") (world_of caneta))
    = answer (Server.app env_loja (DELETE_produtos_id "1") (world_of caneta)) /\
  after (Part000.app env_loja (DELETE_produtos_id "1") (world_of caneta))
    = after (Server.app env_loja (DELETE_produtos_id "1") (world_of caneta)).
Proof.
  apply (variant_agrees_behind_the_validation env_loja (world_of caneta) caneta).
  - by vm_compute.
  - split; [by vm_compute | right; split; reflexivity].
  - reflexivity.
Defined.

(** ** The variant without its schema, and when its tables change *)

Section Part000General.
Variable env : environment.
Variable w : world.
Hypothesis plain : plain_identifier (schema env) = true.

Lemma part000_no_schema (req : request) :
  databases w !! schema env = None -> is_product req = true -> has_body req = true ->
  exists w0,
    Part000.app env req w =
      (inr {| status := 500;
              payload := JsonError ("Unknown database '" +:+ schema env +:+ "'") |},
       w0, [(Part000.use_db env, [])]) /\
    databases w0 = databases w.
Proof.
  intros Hd Hprod Hbody. destruct (part000_use_missing env w plain Hd) as (w0 & Hq & Hw0).
  exists w0. split; [|exact Hw0].
  destruct req as [| | |id|v|id v|id]; try discriminate; cbn [Part000.app];
    try (cbn [has_body] in Hbody; apply has_body_destructure in Hbody);
    unfold Part000.get_produtos, Part000.get_produtos_id, Part000.post_produtos,
      Part000.put_produtos_id, Part000.delete_produtos_id, try_catch, bind;
    rewrite ?Hbody; cbn zeta; by rewrite Hq.
Qed.

Lemma part000_reads_leave_tables (req : request) :
  is_read req = true -> databases (after (Part000.app env req w)) = databases w.
Proof.
  intros Hread. destruct (databases w !! schema env) as [o|] eqn:Hd.
  - assert (Hf : is_Some (databases w !! schema env)) by (by eexists).
    destruct req as [| | |id|body|id body|id]; try discriminate; cbn [Part000.app].
    + reflexivity.
    + rewrite (part000_list_exec env w plain Hf). unfold after; cbn [fst snd].
      destruct (exec_changes SelectAll [] (attach (schema env) w) bound_select_all)
        as [_ [H | (a & i & _ & _ & Hn & _)]]; [exact H | done].
    + rewrite (part000_get_exec env w plain Hf). unfold after; cbn [fst snd].
      destruct (exec_changes SelectById [VStr id] (attach (schema env) w)
                  (bound_select_by_id _)) as [_ [H | (a & i & _ & _ & _ & Hn)]];
        [exact H | done].
  - destruct req as [| | |id|body|id body|id]; try discriminate; cbn [Part000.app].
    + reflexivity.
    + destruct (part000_no_schema GET_produtos Hd eq_refl eq_refl) as (w0 & Hq & Hw0).
      cbn [Part000.app] in Hq. by rewrite Hq.
    + destruct (part000_no_schema (GET_produtos_id id) Hd eq_refl eq_refl) as (w0 & Hq & Hw0).
      cbn [Part000.app] in Hq. by rewrite Hq.
Qed.

Lemma part000_refused_writes_leave_tables (req : request) :
  is_write req = true ->
  status_of (answer (Part000.app env req w)) <> Some 200 ->
  status_of (answer (Part000.app env req w)) <> Some 201 ->
  databases (after (Part000.app env req w)) = databases w.
Proof.
  intros Hwrite. destruct (databases w !! schema env) as [o|] eqn:Hd.
  - assert (Hf : is_Some (databases w !! schema env)) by (by eexists).
    destruct req as [| | |id|v|id v|id]; try discriminate; cbn [Part000.app].
    + destruct (destructure v) as [e | body] eqn:Hb;
        [by rewrite (part000_post_throws env v e w Hb)
        | rewrite (part000_post_object env v body Hb)].
      rewrite (part000_post_run env w plain Hf). unfold after, answer; cbn [fst snd].
      intros _ H201.
      destruct (exec_changes InsertProduto (fields body) (attach (schema env) w)
                  (bound_insert _ _ _)) as [_ [H | (a & i & Ha & _)]]; [exact H|].
      rewrite Ha in H201. by destruct H201.
    + destruct (destructure v) as [e | body] eqn:Hb;
        [by rewrite (part000_put_throws env id v e w Hb)
        | rewrite (part000_put_object env id v body Hb)].
      rewrite (part000_put_run env w plain Hf). unfold after, answer; cbn [fst snd].
      intros H200 _.
      destruct (exec_changes UpdateProduto (fields body ++ [VStr id])%list
                  (attach (schema env) w) (bound_update _ _ _ _))
        as [_ [H | (a & i & Ha & Hne & _)]]; [exact H|].
      rewrite Ha in H200. cbn in H200. apply Z.eqb_neq in Hne. rewrite Hne in H200.
      by destruct H200.
    + rewrite (part000_delete_run env w plain Hf). unfold after, answer; cbn [fst snd].
      intros H200 _.
      destruct (exec_changes DeleteProduto [VStr id] (attach (schema env) w)
                  (bound_delete _)) as [_ [H | (a & i & Ha & Hne & _)]]; [exact H|].
      rewrite Ha in H200. cbn in H200. apply Z.eqb_neq in Hne. rewrite Hne in H200.
      by destruct H200.
  - intros _ _.
    assert (Hprod : is_product req = true) by (by destruct req).
    destruct (has_body req) eqn:Hbody.
    + destruct (part000_no_schema req Hd Hprod Hbody) as (w0 & Hq & Hw0). by rewrite Hq.
    + destruct (part000_throws_without_body env req w Hbody) as (_ & _ & Hafter).
      by rewrite Hafter.
Qed.

End Part000General.

(** X12. While the server has no schema of the configured name, every
    request to a product route of the variant whose body the handler can
    destructure is answered 500 with the message of the database after its
    [USE] alone was sent, and no schema or table changes.  A Create or
    Update with [req.body] undefined or null does not get that far: the
    handler throws before its [USE], and here too nothing changes. *)
Theorem variant_without_schema
    (env : environment) (w : world) (req : request) :
  plain_identifier (schema env) = true ->
  databases w !! schema env = None ->
  is_product req = true ->
  (has_body req = true ->
   answer (Part000.app env req w)
     = inr {| status := 500;
              payload := JsonError ("Unknown database '" +:+ schema env +:+ "'") |} /\
   sent (Part000.app env req w) = [(Part000.use_db env, [])] /\
   databases (after (Part000.app env req w)) = databases w) /\
  (has_body req = false -> thrown (Part000.app env req w) w).
Proof.
  intros Hp Hd Hprod. split; [|apply part000_throws_without_body].
  intros Hbody.
  destruct (part000_no_schema env w Hp req Hd Hprod Hbody) as (w0 & -> & Hw0).
  by repeat split.
Qed.

Lemma variant_without_schema_witness :
  (answer (Part000.app env_loja (POST_produtos (VObj ∅))
             {| databases := ∅; conn := Disconnected |})
     = inr {| status := 500; payload := JsonError "Unknown database 'loja'" |} /\
   sent (Part000.app env_loja (POST_produtos (VObj ∅))
           {| databases := ∅; conn := Disconnected |})
     = [("USE `loja`", [])] /\
   databases (after (Part000.app env_loja (POST_produtos (VObj ∅))
                       {| databases := ∅; conn := Disconnected |})) = ∅) /\
  thrown (Part000.app env_loja (POST_produtos VUndefined)
            {| databases := ∅; conn := Disconnected |})
    {| databases := ∅; conn := Disconnected |}.
Proof.
  split.
  - destruct (variant_without_schema env_loja {| databases := ∅; conn := Disconnected |}
                (POST_produtos (VObj ∅))) as [Hanswered _];
      [by vm_compute | by vm_compute | reflexivity |].
    apply Hanswered. reflexivity.
  - destruct (variant_without_schema env_loja {| databases := ∅; conn := Disconnected |}
                (POST_produtos VUndefined)) as [_ Hthrown];
      [by vm_compute | by vm_compute | reflexivity |].
    apply Hthrown. reflexivity.
Defined.

(** X13. In the variant too the tables change only through a Create, Update
    or Delete that is answered 2xx (schema name a plain identifier): a
    request that only reads leaves every schema and table as it was, and so
    does a Create, Update or Delete answered 404 or 500. *)
Theorem variant_tables_change_only_on_success
    (env : environment) (req : request) (w : world) :
  plain_identifier (schema env) = true ->
  (is_read req = true -> databases (after (Part000.app env req w)) = databases w) /\
  (is_write req = true ->
   status_of (answer (Part000.app env req w)) <> Some 200 ->
   status_of (answer (Part000.app env req w)) <> Some 201 ->
   databases (after (Part000.app env req w)) = databases w).
Proof.
  intros Hp. split;
    [by apply part000_reads_leave_tables | by apply part000_refused_writes_leave_tables].
Qed.

Lemma variant_tables_change_only_on_success_witness :
  databases (after (Part000.app env_loja (GET_produtos_id "1") (world_of caneta)))
    = databases (world_of caneta) /\
  databases (after (Part000.app env_loja (PUT_produtos_id "9" (VObj ∅)) (world_of caneta)))
    = databases (world_of caneta).
Proof.
  split.
  - destruct (variant_tables_change_only_on_success env_loja (GET_produtos_id "1")
                (world_of caneta)) as [Hread _]; [by vm_compute|].
    apply Hread. reflexivity.
  - destruct (variant_tables_change_only_on_success env_loja (PUT_produtos_id "9" (VObj ∅))
                (world_of caneta)) as [_ Hwrite]; [by vm_compute|].
    apply Hwrite; [reflexivity | by vm_compute | by vm_compute].
Defined.

(** ** What the variant stores *)

Section Part000Create.
Variable env : environment.
Variable w : world.
Variable t : table.
Hypothesis ready : part000_ready env w t.

Lemma convert_columns_nullish (n ds p : value) :
  nullish n \/ nullish ds \/ nullish p -> exists e, convert_columns n ds p = inl e.
Proof.
  unfold convert_columns. intros H.
  destruct (to_varchar255 "Nome" n) as [e | [n'|]] eqn:Hn; [by eexists | | by eexists].
  destruct (to_varchar255 "Descricao" ds) as [e | [ds'|]] eqn:Hd; [by eexists | | by eexists].
  destruct (to_decimal_10_2 "Preco" p) as [e | [p'|]] eqn:Hp; [by eexists | | by eexists].
  destruct H as [[-> | ->] | [[-> | ->] | [-> | ->]]]; discriminate.
Qed.

Lemma part000_post_refused (body : gmap string value) (e : string) :
  convert_columns (get body "Nome") (get body "Descricao") (get body "Preco") = inl e ->
  Part000.post_produtos env (VObj body) w =
    (inr {| status := 500; payload := JsonError e |}, attach (schema env) w,
     [(Part000.use_db env, []); (insert_sql, fields body)]).
Proof.
  intros Hc. rewrite (part000_post_run env w (proj1 ready) (part000_ready_found env w t ready)).
  unfold fields.
  by rewrite (exec_insert _ _ _ _ _ _ (current_table_attach _ _ _ (proj2 ready))), Hc.
Qed.

Lemma part000_post_stored (body : gmap string value) (n ds : string) (p : Z) :
  convert_columns (get body "Nome") (get body "Descricao") (get body "Preco")
    = inr (n, ds, p) ->
  auto_increment t <= int_max ->
  Part000.post_produtos env (VObj body) w =
    (inr {| status := 201; payload := JsonId (auto_increment t) |},
     set_database (schema env)
       (Some {| rows := rows t ++ [row (auto_increment t) n ds p];
                auto_increment := auto_increment t + 1 |})
       (attach (schema env) w),
     [(Part000.use_db env, []); (insert_sql, fields body)]).
Proof.
  intros Hc Ha. rewrite (part000_post_run env w (proj1 ready) (part000_ready_found env w t ready)).
  unfold fields.
  rewrite (exec_insert _ _ _ _ _ _ (current_table_attach _ _ _ (proj2 ready))), Hc.
  unfold insert_row. apply Z.leb_le in Ha. by rewrite Ha.
Qed.

End Part000Create.

(** X14. The variant sends the fields of the body unchecked, and the
    NOT NULL columns refuse what is missing: with the table in reach, a
    Create whose body can be destructured and whose [Nome], [Descricao] or
    [Preco] is absent or null is answered 500 after [USE] and the INSERT,
    with the fields bound as they were read, were sent, and no table
    changes.  A Create with [req.body] undefined or null does not reach the
    database: the handler throws before its [USE]. *)
Theorem variant_missing_field_refused_by_the_columns
    (env : environment) (w : world) (t : table) (body : value) :
  part000_ready env w t ->
  (loose_eq_null body = false ->
   nullish (get (object_of body) "Nome") \/ nullish (get (object_of body) "Descricao") \/
   nullish (get (object_of body) "Preco") ->
   status_of (answer (Part000.post_produtos env body w)) = Some 500 /\
   sent (Part000.post_produtos env body w)
     = [(Part000.use_db env, []); (insert_sql, fields (object_of body))] /\
   databases (after (Part000.post_produtos env body w)) = databases w) /\
  (loose_eq_null body = true -> thrown (Part000.post_produtos env body w) w).
Proof.
  intros Hr. split.
  - intros Hb%destructure_given Hnull.
    destruct (convert_columns_nullish _ _ _ Hnull) as [e He].
    rewrite (part000_post_object env body _ Hb).
    by rewrite (part000_post_refused env w t Hr (object_of body) e He).
  - intros Hb. by destruct (handlers_throw_without_body env "" body w Hb) as (_ & _ & H & _).
Qed.

Lemma variant_missing_field_refused_by_the_columns_witness :
  (status_of (answer (Part000.post_produtos env_loja
                        (VObj (body_of VNull (VStr "Azul") (VNum 1))) (world_of caneta)))
     = Some 500 /\
   sent (Part000.post_produtos env_loja
           (VObj (body_of VNull (VStr "Azul") (VNum 1))) (world_of caneta))
     = [("USE `loja`", []); (insert_sql, [VNull; VStr "Azul"; VNum 1])] /\
   databases (after (Part000.post_produtos env_loja
                       (VObj (body_of VNull (VStr "Azul") (VNum 1))) (world_of caneta)))
     = databases (world_of caneta)) /\
  thrown (Part000.post_produtos env_loja VUndefined (world_of caneta)) (world_of caneta).
Proof.
  split.
  - destruct (variant_missing_field_refused_by_the_columns env_loja (world_of caneta) caneta
                (VObj (body_of VNull (VStr "Azul") (VNum 1)))) as [Hrefused _];
      [split; by vm_compute|].
    apply Hrefused; [reflexivity|]. left. right. by vm_compute.
  - destruct (variant_missing_field_refused_by_the_columns env_loja (world_of caneta) caneta
                VUndefined) as [_ Hthrown]; [split; by vm_compute|].
    apply Hthrown. reflexivity.
Defined.

(** X15. A Create of the variant stores any text the columns take, the
    empty one included: with the table in reach, text of at most 255
    characters for [Nome] and [Descricao] and a number in range for [Preco],
    it answers 201 with the counter as id and appends the row. *)
Theorem variant_create_stores_what_fits
    (env : environment) (w : world) (t : table)
    (body : gmap string value) (n ds : string) (q : Q) :
  part000_ready env w t ->
  get body "Nome" = VStr n -> get body "Descricao" = VStr ds ->
  get body "Preco" = VNum q ->
  fits_varchar n -> fits_varchar ds -> Z.abs (round_cents q) <= decimal_10_2_max ->
  auto_increment t <= int_max ->
  answer (Part000.post_produtos env (VObj body) w)
    = inr {| status := 201; payload := JsonId (auto_increment t) |} /\
  databases (after (Part000.post_produtos env (VObj body) w))
    = <[schema env :=
          Some {| rows := rows t ++ [row (auto_increment t) n ds (round_cents q)];
                  auto_increment := auto_increment t + 1 |}]> (databases w).
Proof.
  intros Hr HN HD HP Hn Hd Hq Ha.
  rewrite (part000_post_stored env w t Hr body n ds (round_cents q)); [by split | | exact Ha].
  rewrite HN, HD, HP. by apply convert_columns_text.
Qed.

Lemma variant_create_stores_what_fits_witness :
  answer (Part000.post_produtos env_loja (VObj (body_of (VStr "") (VStr "") (VNum 0)))
            (world_of caneta))
    = inr {| status := 201; payload := JsonId 2 |} /\
  databases (after (Part000.post_produtos env_loja (VObj (body_of (VStr "") (VStr "") (VNum 0)))
                      (world_of caneta)))
    = <["loja" := Some {| rows := [row 1 "Caneta" "Azul" 250; row 2 "" "" 0];
                           auto_increment := 3 |}]> (databases (world_of caneta)).
Proof.
  apply (variant_create_stores_what_fits env_loja (world_of caneta) caneta
           (body_of (VStr "") (VStr "") (VNum 0)) "" "" 0).
  - split; by vm_compute.
  - by vm_compute.
  - by vm_compute.
  - by vm_compute.
  - unfold fits_varchar. cbn. lia.
  - unfold fits_varchar. cbn. lia.
  - by vm_compute.
  - by vm_compute.
Defined.

(** ** InitializeSchema from nothing, and over rows *)

Lemma variant_init_db_nothing_run (env : environment) (w : world) :
  plain_identifier (schema env) = true ->
  databases w !! schema env = None ->
  exists w0,
    Part000.post_init_db env w =
      (inr init_done,
       set_database (schema env) (Some empty_table) (attach (schema env) w0),
       [(Part000.createDB env, [])]) /\
    databases w0 = databases w.
Proof.
  intros Hp Hd. rewrite part000_init_unfold. cbn zeta.
  unfold Part000.query, pool_query, query.
  rewrite (parse_part000_createDB env Hp). fold (init_statements (schema env)).
  assert (Hconn : exists w0, connect None w = inr w0 /\ databases w0 = databases w)
    by (unfold connect; destruct (conn w); eexists; by split).
  destruct Hconn as (w0 & -> & Hw0). exists w0. split; [|exact Hw0].
  rewrite (exec_all_init env w0). unfold init_world. by rewrite Hw0, Hd.
Qed.

(** X16. The variant can start from nothing: on a server without the
    schema (its name a plain identifier), [POST /init-db] answers 200 and
    adds the schema with an empty [produto] table, every other schema as it
    was; the table is then in reach, and the first Create of fields the
    columns take answers 201 with id 1. *)
Theorem variant_init_db_from_nothing
    (env : environment) (w : world) (body : gmap string value) (n ds : string) (q : Q) :
  plain_identifier (schema env) = true ->
  databases w !! schema env = None ->
  storable body n ds q ->
  answer (Part000.post_init_db env w) = inr init_done /\
  databases (after (Part000.post_init_db env w))
    = <[schema env := Some empty_table]> (databases w) /\
  part000_ready env (after (Part000.post_init_db env w)) empty_table /\
  answer (Part000.post_produtos env (VObj body) (after (Part000.post_init_db env w)))
    = inr {| status := 201; payload := JsonId 1 |}.
Proof.
  intros Hp Hd (HN & HD & HP & [_ Hn] & [_ Hds] & Hq).
  pose proof (variant_init_db_nothing_run env w Hp Hd) as Hrun.
  destruct Hrun as (w0 & -> & Hw0). unfold answer at 1, after; cbn [fst snd].
  assert (Hready : part000_ready env
            (set_database (schema env) (Some empty_table) (attach (schema env) w0))
            empty_table) by (split; [exact Hp | apply lookup_insert_eq]).
  split; [reflexivity|]. split; [cbn; by rewrite Hw0|]. split; [exact Hready|].
  rewrite (part000_post_stored env _ empty_table Hready body n ds (round_cents q));
    [reflexivity | | by vm_compute].
  rewrite HN, HD, HP. by apply convert_columns_text.
Qed.

Lemma variant_init_db_from_nothing_witness :
  answer (Part000.post_init_db env_loja {| databases := ∅; conn := Disconnected |})
    = inr init_done /\
  answer (Part000.post_produtos env_loja
            (VObj (body_of (VStr "Caneta") (VStr "Azul") (VNum (25 # 10))))
            (after (Part000.post_init_db env_loja {| databases := ∅; conn := Disconnected |})))
    = inr {| status := 201; payload := JsonId 1 |}.
Proof.
  destruct (variant_init_db_from_nothing env_loja {| databases := ∅; conn := Disconnected |}
              (body_of (VStr "Caneta") (VStr "Azul") (VNum (25 # 10)))
              "Caneta" "Azul" (25 # 10)) as (Hinit & _ & _ & Hcreate).
  - by vm_compute.
  - by vm_compute.
  - repeat split; try (by vm_compute); try discriminate; vm_compute; lia.
  - split; [exact Hinit | exact Hcreate].
Defined.

(** X17. InitializeSchema keeps what is stored: with the table in reach
    (schema name a plain identifier), [POST /init-db] answers 200 and every
    schema, table and row is as it was, in server.js and in the variant. *)
Theorem init_db_keeps_the_rows (env : environment) (w : world) (t : table) :
  plain_identifier (schema env) = true ->
  (server_ready env w t ->
   answer (Server.post_init_db env w) = inr init_done /\
   databases (after (Server.post_init_db env w)) = databases w) /\
  (part000_ready env w t ->
   answer (Part000.post_init_db env w) = inr init_done /\
   databases (after (Part000.post_init_db env w)) = databases w).
Proof.
  intros Hp. split; intros Hr.
  - by rewrite (server_init_ready env Hp w t Hr).
  - by rewrite (part000_init_ready env w t Hr).
Qed.

Lemma init_db_keeps_the_rows_witness :
  (answer (Server.post_init_db env_loja (world_of caneta)) = inr init_done /\
   databases (after (Server.post_init_db env_loja (world_of caneta)))
     = databases (world_of caneta)) /\
  (answer (Part000.post_init_db env_loja (world_of caneta)) = inr init_done /\
   databases (after (Part000.post_init_db env_loja (world_of caneta)))
     = databases (world_of caneta)).
Proof.
  destruct (init_db_keeps_the_rows env_loja (world_of caneta) caneta) as [Hs Hv];
    [by vm_compute|].
  split.
  - apply Hs. split; [by vm_compute | right; split; reflexivity].
  - apply Hv. split; by vm_compute.
Defined.

(** ** The other schemas of the server *)

Section OtherSchemas.
Variable env : environment.
Hypothesis plain : plain_identifier (schema env) = true.

Lemma exec_other_schemas (st : statement) (params : list value) (w : world) (d : string) :
  well_bound st params -> conn w <> Connected (Some d) ->
  databases (exec st params w).2 !! d = databases w !! d.
Proof.
  intros Hb Hd. destruct (current_table w) as [e | [c t]] eqn:Hct.
  { by rewrite (exec_without_table st params w e Hct) by (destruct Hb; tauto). }
  destruct (current_table_inv _ _ _ Hct) as [Hc _].
  assert (Hne : c <> d) by (intros ->; contradiction).
  destruct Hb as [|v|n ds p|n ds p v|v].
  - unfold exec. by rewrite Hct.
  - unfold exec. by rewrite Hct.
  - rewrite (exec_insert _ _ _ _ _ _ Hct).
    destruct (convert_columns n ds p) as [e | [[n' ds'] p']]; [done|].
    unfold insert_row. destruct (auto_increment t <=? int_max); [|done].
    cbn. by apply lookup_insert_ne.
  - rewrite (exec_update _ _ _ _ _ _ _ Hct).
    destruct (List.filter (id_matches v) (rows t)); [done|].
    destruct (convert_columns n ds p) as [e | [[n' ds'] p']]; [done|].
    cbn. by apply lookup_insert_ne.
  - rewrite (exec_delete _ _ _ _ Hct).
    destruct (List.filter (id_matches v) (rows t)); [done|].
    cbn. by apply lookup_insert_ne.
Qed.

Lemma init_world_other_schemas (w : world) (d : string) :
  d <> schema env ->
  databases (init_world (schema env) w) !! d = databases w !! d.
Proof.
  intros Hne. unfold init_world.
  destruct (databases w !! schema env) as [[t|]|]; cbn; by rewrite ?lookup_insert_ne.
Qed.

Lemma init_world_session (w : world) : session_on env (init_world (schema env) w).
Proof.
  unfold init_world, session_on.
  destruct (databases w !! schema env) as [[t|]|]; cbn; by intros d [= <-].
Qed.

Lemma connect_session_on (w w1 : world) :
  connect (DB_NAME env) w = inr w1 -> session_on env w -> session_on env w1.
Proof.
  unfold connect. intros Hc Hs.
  destruct (conn w) as [|c] eqn:Hconn; [|by injection Hc as <-].
  destruct (DB_NAME env) as [d|] eqn:Hd.
  - destruct (databases w !! d); [|discriminate]. injection Hc as <-.
    intros d' [= <-]. unfold schema. by rewrite Hd.
  - injection Hc as <-. intros d' [=].
Qed.

Lemma server_query_other_schemas
    (w : world) (sql : string) (params : list value) (st : statement) (d : string) :
  parse sql = Some [st] -> well_bound st params ->
  session_on env w -> d <> schema env ->
  session_on env (after (Server.query env sql params w)) /\
  databases (after (Server.query env sql params w)) !! d = databases w !! d.
Proof.
  intros Hp Hb Hs Hne.
  destruct (server_query_cases env w sql params st Hp) as [[e ->] | (w1 & Hc & ->)];
    [by split|].
  unfold after; cbn [fst snd].
  pose proof (connect_session_on w w1 Hc Hs) as Hs1.
  destruct (connect_outcome w _ _ Hc) as [Hd _].
  destruct (exec_changes st params w1 Hb) as [Hconn _].
  split.
  - intros d'. rewrite Hconn. apply Hs1.
  - rewrite <- Hd. apply exec_other_schemas; [exact Hb|].
    intros Hcd. apply Hs1 in Hcd. contradiction.
Qed.

Lemma server_step_other_schemas (req : request) (w : world) (d : string) :
  session_on env w -> d <> schema env ->
  session_on env (after (Server.app env req w)) /\
  databases (after (Server.app env req w)) !! d = databases w !! d.
Proof.
  intros Hs Hne. destruct req as [| | |id|v|id v|id]; cbn [Server.app].
  - by split.
  - rewrite server_init_unfold. cbn zeta. unfold Server.query, pool_query, query.
    destruct (connect (DB_NAME env) w) as [e | w1] eqn:Hc; [by split|].
    rewrite (parse_server_createDB env plain). fold (init_statements (schema env)).
    rewrite exec_all_init. unfold after; cbn [fst snd].
    split; [apply init_world_session|].
    rewrite (init_world_other_schemas w1 d Hne).
    destruct (connect_outcome w _ _ Hc) as [Hd _]. by rewrite Hd.
  - rewrite server_list_unfold. cbn zeta. unfold after at 1 2; cbn [fst snd].
    by apply (server_query_other_schemas w _ [] _ d parse_select_all bound_select_all).
  - rewrite server_get_unfold. cbn zeta. unfold after at 1 2; cbn [fst snd].
    by apply (server_query_other_schemas w _ [VStr id] _ d parse_select_by_Id
                (bound_select_by_id _)).
  - destruct (destructure v) as [e | body] eqn:Hb.
    { by rewrite (server_post_throws _ _ _ _ Hb). }
    rewrite (server_post_object _ _ _ Hb).
    destruct (validation_fails body) eqn:Hv.
    { unfold Server.post_produtos, destructure. fold (validation_fails body). by rewrite Hv. }
    rewrite (server_post_unfold env w body Hv). cbn zeta.
    unfold after at 1 2; cbn [fst snd].
    by apply (server_query_other_schemas w insert_sql (fields body) _ d parse_insert
                (bound_insert _ _ _)).
  - destruct (destructure v) as [e | body] eqn:Hb.
    { by rewrite (server_put_throws _ _ _ _ _ Hb). }
    rewrite (server_put_object _ _ _ _ Hb).
    destruct (validation_fails body) eqn:Hv.
    { unfold Server.put_produtos_id, destructure. fold (validation_fails body). by rewrite Hv. }
    rewrite (server_put_unfold env w id body Hv). cbn zeta.
    unfold after at 1 2; cbn [fst snd].
    by apply (server_query_other_schemas w update_sql (fields body ++ [VStr id])%list _ d
                parse_update (bound_update _ _ _ _)).
  - rewrite (server_delete_unfold env w id). cbn zeta.
    unfold after at 1 2; cbn [fst snd].
    by apply (server_query_other_schemas w delete_sql [VStr id] _ d parse_delete
                (bound_delete _)).
Qed.

Lemma part000_step_other_schemas (req : request) (w : world) (d : string) :
  d <> schema env ->
  databases (after (Part000.app env req w)) !! d = databases w !! d.
Proof.
  intros Hne.
  assert (Hatt : conn (attach (schema env) w) <> Connected (Some d))
    by (cbn; intros [= H]; by apply Hne).
  destruct req as [| | |id|v|id v|id]; cbn [Part000.app]; [reflexivity | | | | | |].
  { rewrite part000_init_unfold. cbn zeta. unfold Part000.query, pool_query, query.
    assert (Hconn : exists w0, connect None w = inr w0 /\ databases w0 = databases w)
      by (unfold connect; destruct (conn w); eexists; by split).
    destruct Hconn as (w0 & -> & Hw0).
    rewrite (parse_part000_createDB env plain). fold (init_statements (schema env)).
    rewrite exec_all_init. unfold after; cbn [fst snd].
    by rewrite (init_world_other_schemas w0 d Hne), Hw0. }
  all: try (destruct (destructure v) as [e | body] eqn:Hb;
    [first [by rewrite (part000_post_throws env v e w Hb)
           | by rewrite (part000_put_throws env id v e w Hb)]
    | first [rewrite (part000_post_object env v body Hb)
            | rewrite (part000_put_object env id v body Hb)]]).
  all: destruct (databases w !! schema env) as [o|] eqn:Hd;
    [assert (Hf : is_Some (databases w !! schema env)) by (by eexists) |].
  - rewrite (part000_list_exec env w plain Hf). unfold after; cbn [fst snd].
    by rewrite (exec_other_schemas _ _ _ d bound_select_all Hatt).
  - destruct (part000_no_schema env w plain GET_produtos Hd eq_refl eq_refl) as (w0 & Hq & Hw0).
    cbn [Part000.app] in Hq. rewrite Hq. unfold after; cbn. by rewrite Hw0.
  - rewrite (part000_get_exec env w plain Hf). unfold after; cbn [fst snd].
    by rewrite (exec_other_schemas _ _ _ d (bound_select_by_id _) Hatt).
  - destruct (part000_no_schema env w plain (GET_produtos_id id) Hd eq_refl eq_refl)
      as (w0 & Hq & Hw0).
    cbn [Part000.app] in Hq. rewrite Hq. unfold after; cbn. by rewrite Hw0.
  - rewrite (part000_post_run env w plain Hf). unfold after; cbn [fst snd].
    by rewrite (exec_other_schemas InsertProduto (fields body) _ d (bound_insert _ _ _) Hatt).
  - destruct (part000_no_schema env w plain (POST_produtos (VObj body)) Hd eq_refl eq_refl)
      as (w0 & Hq & Hw0).
    cbn [Part000.app] in Hq. rewrite Hq. unfold after; cbn. by rewrite Hw0.
  - rewrite (part000_put_run env w plain Hf). unfold after; cbn [fst snd].
    by rewrite (exec_other_schemas UpdateProduto (fields body ++ [VStr id])%list _ d
                  (bound_update _ _ _ _) Hatt).
  - destruct (part000_no_schema env w plain (PUT_produtos_id id (VObj body)) Hd eq_refl eq_refl)
      as (w0 & Hq & Hw0).
    cbn [Part000.app] in Hq. rewrite Hq. unfold after; cbn. by rewrite Hw0.
  - rewrite (part000_delete_run env w plain Hf). unfold after; cbn [fst snd].
    by rewrite (exec_other_schemas _ _ _ d (bound_delete _) Hatt).
  - destruct (part000_no_schema env w plain (DELETE_produtos_id id) Hd eq_refl eq_refl)
      as (w0 & Hq & Hw0).
    cbn [Part000.app] in Hq. rewrite Hq. unfold after; cbn. by rewrite Hw0.
Qed.

End OtherSchemas.

(** X18. server.js works in the configured schema only: over every run
    that starts with the session closed or on that schema (its name a plain
    identifier), every other schema of the server, with its table and rows,
    is in the end as it was at the start. *)
Theorem server_js_touches_only_its_schema
    (env : environment) (w : world) (reqs : list request) (d : string) :
  plain_identifier (schema env) = true ->
  session_on env w ->
  d <> schema env ->
  databases (serve (Server.app env) reqs w).2 !! d = databases w !! d.
Proof.
  intros Hp Hs Hne. revert w Hs. induction reqs as [|req reqs IH]; intros w Hs; [done|].
  cbn [serve]. destruct (server_step_other_schemas env Hp req w d Hs Hne) as [Hs1 Hd1].
  specialize (IH _ Hs1).
  destruct (serve (Server.app env) reqs (after (Server.app env req w))) as [rs w'].
  cbn [snd] in *. by rewrite IH.
Qed.

(** X19. The variant works in the configured schema only, whatever the
    session was on: over every run (schema name a plain identifier), every
    other schema of the server is in the end as it was at the start. *)
Theorem variant_touches_only_its_schema
    (env : environment) (w : world) (reqs : list request) (d : string) :
  plain_identifier (schema env) = true ->
  d <> schema env ->
  databases (serve (Part000.app env) reqs w).2 !! d = databases w !! d.
Proof.
  intros Hp Hne. revert w. induction reqs as [|req reqs IH]; intros w; [done|].
  cbn [serve]. pose proof (part000_step_other_schemas env Hp req w d Hne) as Hd1.
  specialize (IH (after (Part000.app env req w))).
  destruct (serve (Part000.app env) reqs (after (Part000.app env req w))) as [rs w'].
  cbn [snd] in *. by rewrite IH.
Qed.

Lemma server_js_touches_only_its_schema_witness :
  databases (serve (Server.app env_loja)
               [POST_init_db; POST_produtos (VObj (body_of (VStr "Lapis") (VStr "Preto") (VNum 1)));
                DELETE_produtos_id "1"] two_schemas).2 !! "outra" = Some (Some caneta).
Proof.
  rewrite (server_js_touches_only_its_schema env_loja two_schemas _ "outra").
  - by vm_compute.
  - by vm_compute.
  - intros d Hd. discriminate Hd.
  - discriminate.
Defined.

Lemma variant_touches_only_its_schema_witness :
  databases (serve (Part000.app env_loja)
               [POST_init_db; POST_produtos (VObj (body_of (VStr "Lapis") (VStr "Preto") (VNum 1)));
                DELETE_produtos_id "1"] two_schemas).2 !! "outra" = Some (Some caneta).
Proof.
  rewrite (variant_touches_only_its_schema env_loja two_schemas _ "outra").
  - by vm_compute.
  - by vm_compute.
  - discriminate.
Defined.

(** ** Ids in the order they are issued *)

Section IdsIncrease.
Variable env : environment.
Hypothesis plain : plain_identifier (schema env) = true.

(** The id a request hands out, when it does, is above every id handed out
    before. *)
Lemma server_step_new_id (w : world) (ids : list Z) (req : request) :
  invariant env w ids ->
  issued_by (answer (Server.app env req w)) = [] \/
  exists i, issued_by (answer (Server.app env req w)) = [i] /\ Forall (fun j => j < i) ids.
Proof.
  intros Hinv.
  destruct (answer (Server.app env req w)) as [e | resp] eqn:Hresp; [by left|].
  destruct (payload resp) as [s|e|m|i|rs|r] eqn:Hpay;
    try (left; unfold issued_by; by rewrite Hpay).
  right. exists i. split; [unfold issued_by; by rewrite Hpay|].
  destruct req as [| | |id|v|id v|id]; cbn [Server.app] in Hresp.
  - injection Hresp as <-. discriminate.
  - rewrite server_init_unfold in Hresp. cbn zeta in Hresp. injection Hresp as <-.
    unfold init_response in Hpay. by destruct (answer _).
  - rewrite server_list_unfold in Hresp. cbn zeta in Hresp. injection Hresp as <-.
    unfold list_response in Hpay. by destruct (answer _).
  - rewrite server_get_unfold in Hresp. cbn zeta in Hresp. injection Hresp as <-.
    unfold get_response, found_response in Hpay.
    destruct (answer _) as [e | r]; [done|]. by destruct (rows_of r).
  - destruct (destructure v) as [e | body] eqn:Hb.
    { by rewrite (server_post_throws env v e w Hb) in Hresp. }
    rewrite (server_post_object env v body Hb) in Hresp.
    assert (Hcreated : answer (Server.post_produtos env (VObj body) w)
                       = inr {| status := 201; payload := JsonId i |}).
    { rewrite Hresp. f_equal. destruct (validation_fails body) eqn:Hv.
      - unfold Server.post_produtos, destructure in Hresp. fold (validation_fails body) in Hresp.
        rewrite Hv in Hresp. injection Hresp as <-. discriminate.
      - rewrite (server_post_unfold env w body Hv) in Hresp. cbn zeta in Hresp.
        injection Hresp as <-. unfold created_response in *.
        destruct (answer _) as [e | r]; [done|]. cbn in Hpay. by injection Hpay as ->. }
    destruct (server_post_created env w body i Hcreated)
      as (_ & w1 & d & t & n & ds & p & Hconn & Hct & _ & -> & _).
    destruct (invariant_table env w1 d t ids (invariant_connect env w w1 ids Hconn Hinv) Hct)
      as (_ & _ & Hbelow).
    eapply Forall_impl; [exact Hbelow|]. cbn. lia.
  - destruct (destructure v) as [e | body] eqn:Hb.
    { by rewrite (server_put_throws env id v e w Hb) in Hresp. }
    rewrite (server_put_object env id v body Hb) in Hresp.
    destruct (validation_fails body) eqn:Hv.
    + unfold Server.put_produtos_id, destructure in Hresp. fold (validation_fails body) in Hresp.
      rewrite Hv in Hresp. injection Hresp as <-. discriminate.
    + rewrite (server_put_unfold env w id body Hv) in Hresp. cbn zeta in Hresp.
      injection Hresp as <-. unfold changed_response in Hpay.
      destruct (answer _) as [e | r]; [done|]. by destruct (affectedRows r =? 0).
  - rewrite (server_delete_unfold env w id) in Hresp. cbn zeta in Hresp.
    injection Hresp as <-. unfold changed_response in Hpay.
    destruct (answer _) as [e | r]; [done|]. by destruct (affectedRows r =? 0).
Qed.

Lemma serve_ids_increase (reqs : list request) (w : world) (ids : list Z) :
  invariant env w ids -> StronglySorted Z.lt ids ->
  StronglySorted Z.lt (ids ++ issued (serve (Server.app env) reqs w).1).
Proof.
  revert w ids. induction reqs as [|req reqs IH]; intros w ids Hinv Hsorted.
  - cbn. by rewrite app_nil_r.
  - cbn [serve].
    pose proof (server_step_invariant env plain w ids req Hinv) as Hinv1.
    assert (Hs1 : StronglySorted Z.lt (ids ++ issued_by (answer (Server.app env req w)))).
    { destruct (server_step_new_id w ids req Hinv) as [-> | (i & -> & Hlt)];
        [by rewrite app_nil_r|].
      apply StronglySorted_app_2; [|exact Hsorted | repeat constructor].
      intros x1 x2 Hx1 Hx2. apply list_elem_of_singleton in Hx2. subst x2.
      rewrite Forall_forall in Hlt. by apply Hlt. }
    specialize (IH _ _ Hinv1 Hs1).
    destruct (serve (Server.app env) reqs (after (Server.app env req w))) as [rs w'].
    cbn [fst issued flat_map] in *. by rewrite <- app_assoc in IH.
Qed.

End IdsIncrease.

(** X20. Ids are handed out in increasing order: over every run of
    server.js from a server that has stored nothing (schema name a plain
    identifier), each Create that succeeds answers an id above all the ids
    answered before it, also when rows were deleted in between. *)
Theorem issued_ids_increase (env : environment) (w0 : world) (reqs : list request) :
  plain_identifier (schema env) = true ->
  initial w0 ->
  StronglySorted Z.lt (issued (serve (Server.app env) reqs w0).1).
Proof.
  intros Hp Hi.
  apply (serve_ids_increase env Hp reqs w0 [] (invariant_initial env w0 Hi)). constructor.
Qed.

Lemma issued_ids_increase_witness :
  StronglySorted Z.lt
    (issued (serve (Server.app env_loja)
               [POST_produtos (VObj (body_of (VStr "Caneta") (VStr "Azul") (VNum (25 # 10))));
                DELETE_produtos_id "1";
                POST_produtos (VObj (body_of (VStr "Lapis") (VStr "Preto") (VNum 1)))]
               (world_of empty_table)).1).
Proof.
  apply (issued_ids_increase env_loja (world_of empty_table)); [by vm_compute|].
  split; [reflexivity|]. intros d t Hd. unfold world_of in Hd; cbn in Hd.
  by apply lookup_singleton_Some in Hd as [_ [= <-]].
Defined.

(** ** List and GetById together *)

Lemma filter_unique_id (rs : list produto) (r : produto) :
  NoDup (List.map Id rs) -> In r rs ->
  List.filter (fun x => Id x =? Id r) rs = [r].
Proof.
  induction rs as [|x rs IH]; intros Hnd Hin; [destruct Hin|].
  cbn [List.map] in Hnd. apply NoDup_cons in Hnd as [Hx Hnd]. cbn [List.filter].
  destruct Hin as [-> | Hin].
  - rewrite Z.eqb_refl. f_equal. apply filter_none. intros y Hy.
    apply Z.eqb_neq. intros Heq. apply Hx. rewrite <- Heq.
    apply list_elem_of_In, in_map_iff. by exists y.
  - replace (Id x =? Id r) with false; [by apply IH|].
    symmetry. apply Z.eqb_neq. intros Heq. apply Hx. rewrite Heq.
    apply list_elem_of_In, in_map_iff. by exists r.
Qed.

Lemma filter_by_decimal_id (rs : list produto) (r : produto) :
  List.filter (id_matches (VStr (decimal (Id r)))) rs
    = List.filter (fun x => Id x =? Id r) rs.
Proof.
  apply List.filter_ext. intros x. unfold id_matches. by rewrite sql_id_of_decimal.
Qed.

(** X21. List and GetById agree: with the table in reach and its ids
    pairwise distinct, every row that List answers is the row GetById answers
    for its id, in server.js and in the variant. *)
Theorem listed_rows_are_found
    (env : environment) (w : world) (t : table) (r : produto) :
  NoDup (List.map Id (rows t)) ->
  In r (rows t) ->
  (server_ready env w t ->
   answer (Server.get_produtos env w) = inr {| status := 200; payload := JsonRows (rows t) |} /\
   answer (Server.get_produtos_id env (decimal (Id r)) w)
     = inr {| status := 200; payload := JsonRow r |}) /\
  (part000_ready env w t ->
   answer (Part000.get_produtos env w) = inr {| status := 200; payload := JsonRows (rows t) |} /\
   answer (Part000.get_produtos_id env (decimal (Id r)) w)
     = inr {| status := 200; payload := JsonRow r |}).
Proof.
  intros Hnd Hin. split; intros Hr.
  - rewrite (server_get_produtos_run env w t Hr),
      (server_get_produtos_id_run env w t _ Hr).
    by rewrite filter_by_decimal_id, (filter_unique_id _ r Hnd Hin).
  - rewrite (part000_list_run env w t Hr), (part000_get_produtos_id_run env w t _ Hr).
    by rewrite filter_by_decimal_id, (filter_unique_id _ r Hnd Hin).
Qed.

Lemma listed_rows_are_found_witness :
  answer (Server.get_produtos_id env_loja (decimal 1) (world_of caneta))
    = inr {| status := 200; payload := JsonRow (row 1 "Caneta" "Azul" 250) |} /\
  answer (Part000.get_produtos_id env_loja (decimal 1) (world_of caneta))
    = inr {| status := 200; payload := JsonRow (row 1 "Caneta" "Azul" 250) |}.
Proof.
  destruct (listed_rows_are_found env_loja (world_of caneta) caneta
              (row 1 "Caneta" "Azul" 250)) as [Hs Hv].
  - cbn. apply NoDup_cons. split; [by intros []%elem_of_nil | apply NoDup_nil_2].
  - by left.
  - split.
    + apply Hs. split; [by vm_compute | right; split; reflexivity].
    + apply Hv. split; by vm_compute.
Defined.

(** ** Without [DB_NAME] *)

(** X22. With [DB_NAME] unset the variant does not fail: the name it
    writes into its statements is the text undefined, so on a server without
    such a schema [POST /init-db] answers 200 and creates a schema of that
    name with an empty [produto] table, and List then answers 200 with the
    empty array. *)
Theorem variant_without_db_name (env : environment) (w : world) :
  DB_NAME env = None ->
  databases w !! "undefined" = None ->
  answer (Part000.post_init_db env w) = inr init_done /\
  databases (after (Part000.post_init_db env w))
    = <["undefined" := Some empty_table]> (databases w) /\
  answer (Part000.get_produtos env (after (Part000.post_init_db env w)))
    = inr {| status := 200; payload := JsonRows [] |}.
Proof.
  intros Henv Hd.
  assert (Hname : schema env = "undefined") by (unfold schema; by rewrite Henv).
  assert (Hp : plain_identifier (schema env) = true) by (by rewrite Hname).
  rewrite <- Hname in Hd |- *.
  destruct (variant_init_db_nothing_run env w Hp Hd) as (w0 & Hrun & Hw0).
  rewrite Hrun. unfold answer at 1, after; cbn [fst snd].
  split; [reflexivity|]. split; [cbn; by rewrite Hw0|].
  by rewrite (part000_list_run env _ empty_table
                (conj Hp (lookup_insert_eq (databases (attach (schema env) w0))
                            (schema env) (Some empty_table)))).
Qed.

Lemma variant_without_db_name_witness :
  answer (Part000.post_init_db env_unset {| databases := ∅; conn := Disconnected |})
    = inr init_done /\
  databases (after (Part000.post_init_db env_unset {| databases := ∅; conn := Disconnected |}))
    = <["undefined" := Some empty_table]> ∅ /\
  answer (Part000.get_produtos env_unset
            (after (Part000.post_init_db env_unset {| databases := ∅; conn := Disconnected |})))
    = inr {| status := 200; payload := JsonRows [] |}.
Proof.
  apply (variant_without_db_name env_unset {| databases := ∅; conn := Disconnected |});
    [reflexivity | by vm_compute].
Defined.
